(** * bosh-agent: actions, Ubuntu platform set-up and the task life cycle

    A shallow embedding of the Go sources of the agent:

    - [bosherr]   : the error values the agent builds (errors.New,
                    bosh-utils/errors Error, WrapError, WrapErrorf);
    - [action]    : agent/action, the compile-package-with-signed-URL and
                    fetch-logs actions with their capability methods;
    - [platform]  : the Ubuntu platform, DHCP set-up and the sizing of the
                    ephemeral disk partitions;
    - [task]      : the task life cycle of the specification.

    Collaborators reached through Go interfaces (compiler, copier,
    compressor, blobstore, file system, command runner, ...) are records of
    state transformers over an abstract world [W]; every call is also
    appended to a call log, the way the fakes of the test-suite record
    their calls. *)

From stdpp Require Import base strings gmap list.
From Stdlib Require Import ZArith Lia.

Local Open Scope string_scope.
Local Open Scope list_scope.

Set Warnings "-register-all".

(** ** Go errors *)

Module bosherr.

(** An [error] value: [errors.New(msg)] or a bosh-utils [ComplexError]. *)
Inductive error : Type :=
| errorString (s : string)
| ComplexError (Err : error) (Cause : error).

(** The [Error() string] method. [ComplexError] prints as
    [fmt.Sprintf("%s: %s", e.Err.Error(), e.Cause.Error())]. *)
Fixpoint Error (e : error) : string :=
  match e with
  | errorString s => s
  | ComplexError err cause => Error err +:+ ": " +:+ Error cause
  end.

(** [errors.New] *)
Definition New (msg : string) : error := errorString msg.

(** [bosherr.Error(msg)] is [errors.New(msg)]. *)
Definition Error_ (msg : string) : error := New msg.

(** [bosherr.WrapComplexError]; a nil cause is replaced. *)
Definition WrapComplexError (cause : option error) (err : error) : error :=
  match cause with
  | None => ComplexError err (Error_ "<nil cause>")
  | Some c => ComplexError err c
  end.

(** [bosherr.WrapError(cause, msg)] *)
Definition WrapError (cause : option error) (msg : string) : error :=
  WrapComplexError cause (Error_ msg).

(** [bosherr.WrapErrorf(cause, prefix + "%s", arg)]: the format strings of
    the agent's actions end in one [%s] verb applied to a string. *)
Definition WrapErrorf (cause : option error) (prefix arg : string) : error :=
  WrapComplexError cause (Error_ (prefix +:+ arg)).

End bosherr.

Import bosherr.

(** ** Collaborator calls: world passing with a call log *)

Section Sys.
Context {W C : Type}.

(** The world of the collaborators and the calls made so far. *)
Record Sys : Type := mkSys { world : W; calls : list C }.

Definition M (A : Type) : Type := Sys -> A * Sys.

Definition ret {A} (a : A) : M A := fun s => (a, s).

Definition bind {A B} (m : M A) (k : A -> M B) : M B :=
  fun s => let '(a, s') := m s in k a s'.

(** One call [c] of a collaborator method [f]: the method transforms the
    world, the call is logged. *)
Definition invoke {A} (c : C) (f : W -> A * W) : M A :=
  fun s => let '(a, w') := f (world s) in
           (a, {| world := w'; calls := calls s ++ [c] |}).

(** A call of a method that returns nothing. *)
Definition invoke_ (c : C) (f : W -> W) : M unit :=
  invoke c (fun w => (tt, f w)).

Definition start (w : W) : Sys := {| world := w; calls := [] |}.
End Sys.

Arguments Sys : clear implicits.
Arguments M : clear implicits.

Notation "'call!' x ':=' c 'in' k" := (bind c (fun x => k))
  (at level 10, x pattern, c at level 100, k at level 200).

(** ** agent/action *)

Module action.

(** [type ProtocolVersion int] *)
Definition ProtocolVersion : Type := Z.

(** A value of Go's [interface{}] as the actions build it: a string or a
    [map[string]interface{}]. *)
Inductive iface : Type :=
| IString (s : string)
| IMap (m : gmap string iface).

(** The calls the actions make on their collaborators. *)
Inductive call {Package ModelsPackage : Type} : Type :=
| CallCompile (pkg : Package) (deps : list ModelsPackage)
| CallFilteredCopyToTemp (dir : string) (filters : list string)
| CallCopierCleanUp (tmpDir : string)
| CallCompressFilesInDir (dir : string)
| CallCompressorCleanUp (tarball : string)
| CallBlobstoreWrite (signedURL path : string).
Arguments call : clear implicits.

Section Actions.
(** [boshcrypto.MultipleDigest] with its [String()] method, and the
    world the collaborators act on. *)
Context {MultipleDigest W : Type}.
Variable Digest_String : MultipleDigest -> string.

(** [boshcomp.Package] *)
Record Package : Type := {
  BlobstoreID : string;
  Name : string;
  Sha1 : MultipleDigest;
  Version : string;
  PackageGetSignedURL : string;
  UploadSignedURL : string
}.

(** [boshmodels.Source] and [boshmodels.Package] *)
Record Source : Type := {
  Source_Sha1 : MultipleDigest;
  Source_BlobstoreID : string;
  Source_SignedURL : string
}.

Record ModelsPackage : Type := {
  mp_Name : string;
  mp_Version : string;
  mp_Source : Source
}.

Abbreviation call := (call Package ModelsPackage).
Abbreviation M := (M W call).

(** [boshcomp.Compiler]: [Compile] returns
    [(blobID, digest, err)]. *)
Record Compiler : Type := {
  Compile : Package -> list ModelsPackage -> W ->
            (string * MultipleDigest * option error) * W
}.

(** [CompilePackageWithSignedURLRequest]. [Deps] is a
    [map[string]Package]; the list holds its entries in the order the
    [range] statement visits them. *)
Record CompilePackageWithSignedURLRequest : Type := {
  req_PackageGetSignedURL : string;
  req_UploadSignedURL : string;
  req_Digest : MultipleDigest;
  req_Name : string;
  req_Version : string;
  req_Deps : list (string * Package)
}.

Record CompilePackageWithSignedURL : Type := { compiler : Compiler }.

Definition NewCompilePackageWithSignedURL (c : Compiler) :
  CompilePackageWithSignedURL := {| compiler := c |}.

(** The package handed to the compiler; [BlobstoreID] keeps its zero
    value. *)
Definition request_pkg (request : CompilePackageWithSignedURLRequest) : Package :=
  {| BlobstoreID := "";
     Name := req_Name request;
     Sha1 := req_Digest request;
     Version := req_Version request;
     PackageGetSignedURL := req_PackageGetSignedURL request;
     UploadSignedURL := req_UploadSignedURL request |}.

(** The loop [for _, dep := range request.Deps { modelsDeps = append(...) }]. *)
Fixpoint append_deps (modelsDeps : list ModelsPackage)
         (deps : list (string * Package)) : list ModelsPackage :=
  match deps with
  | [] => modelsDeps
  | (_, dep) :: rest =>
      append_deps
        (modelsDeps ++
           [ {| mp_Name := Name dep;
                mp_Version := Version dep;
                mp_Source := {| Source_Sha1 := Sha1 dep;
                                Source_BlobstoreID := BlobstoreID dep;
                                Source_SignedURL := PackageGetSignedURL dep |} |} ])
        rest
  end.

(** [CompilePackageWithSignedURL.Run] *)
Definition CompilePackageWithSignedURL_Run (a : CompilePackageWithSignedURL)
           (request : CompilePackageWithSignedURLRequest) :
  M (gmap string iface * option error) :=
  let pkg := request_pkg request in
  let modelsDeps := append_deps [] (req_Deps request) in
  call! (_, uploadedDigest, err) :=
    invoke (CallCompile pkg modelsDeps) (Compile (compiler a) pkg modelsDeps) in
  match err with
  | Some _ =>
      ret (∅, Some (WrapErrorf err "Compiling package " (Name pkg)))
  | None =>
      let result : gmap string iface :=
        {[ "sha1" := IString (Digest_String uploadedDigest) ]} in
      ret ({[ "result" := IMap result ]}, None)
  end.

Definition CompilePackageWithSignedURL_Resume (a : CompilePackageWithSignedURL) :
  option iface * option error :=
  (None, Some (New "not supported")).

Definition CompilePackageWithSignedURL_Cancel (a : CompilePackageWithSignedURL) :
  option error :=
  Some (New "not supported").

Definition CompilePackageWithSignedURL_IsAsynchronous
           (a : CompilePackageWithSignedURL) (_ : ProtocolVersion) : bool := true.

Definition CompilePackageWithSignedURL_IsPersistent
           (a : CompilePackageWithSignedURL) : bool := false.

Definition CompilePackageWithSignedURL_IsLoggable
           (a : CompilePackageWithSignedURL) : bool := true.

(** *** fetch_logs.go *)

(** [boshcmd.Copier], [boshcmd.Compressor],
    [blobstore_delegator.BlobstoreDelegator] and [boshdirs.Provider],
    with the methods the action calls. *)
Record Copier : Type := {
  FilteredCopyToTemp : string -> list string -> W -> (string * option error) * W;
  Copier_CleanUp : string -> W -> W
}.

Record Compressor : Type := {
  CompressFilesInDir : string -> W -> (string * option error) * W;
  Compressor_CleanUp : string -> W -> option error * W
}.

Record BlobstoreDelegator : Type := {
  Write : string -> string -> option (gmap string string) -> W ->
          (string * MultipleDigest * option error) * W
}.

Record Provider : Type := {
  LogsDir : string;
  AgentLogsDir : string
}.

Record FetchLogsAction : Type := {
  fl_compressor : Compressor;
  fl_copier : Copier;
  fl_blobstore : BlobstoreDelegator;
  fl_settingsDir : Provider
}.

Definition NewFetchLogs (compressor : Compressor) (copier : Copier)
           (blobstore : BlobstoreDelegator) (settingsDir : Provider) :
  FetchLogsAction :=
  {| fl_compressor := compressor;
     fl_copier := copier;
     fl_blobstore := blobstore;
     fl_settingsDir := settingsDir |}.

Definition FetchLogsAction_IsAsynchronous
           (a : FetchLogsAction) (_ : ProtocolVersion) : bool := true.

Definition FetchLogsAction_IsPersistent (a : FetchLogsAction) : bool := false.

Definition FetchLogsAction_IsLoggable (a : FetchLogsAction) : bool := true.

(** [if len(filters) == 0 { filters = []string{"**/*"} }] *)
Definition default_filters (filters : list string) : list string :=
  match filters with
  | [] => ["**/*"]
  | _ => filters
  end.

(** The [switch logType] statement: the directory and filters to copy,
    or the error of the default case. *)
Definition select_logs (a : FetchLogsAction) (logType : string)
           (filters : list string) : (string * list string) + error :=
  if String.eqb logType "job" then
    inl (LogsDir (fl_settingsDir a), default_filters filters)
  else if String.eqb logType "agent" then
    inl (AgentLogsDir (fl_settingsDir a), default_filters filters)
  else
    inr (Error_ "Invalid log type").

(** [FetchLogsAction.Run]. The value is [nil] ([None]) on every error
    path. The deferred clean-ups run when the function returns, the one
    deferred last first. *)
Definition FetchLogsAction_Run (a : FetchLogsAction) (logType : string)
           (filters : list string) : M (option (gmap string string) * option error) :=
  match select_logs a logType filters with
  | inr err => ret (None, Some err)
  | inl (logsDir, filters) =>
      call! (tmpDir, err) :=
        invoke (CallFilteredCopyToTemp logsDir filters)
               (FilteredCopyToTemp (fl_copier a) logsDir filters) in
      match err with
      | Some _ =>
          ret (None, Some (WrapError err "Copying filtered files to temp directory"))
      | None =>
          let copier_cleanup :=
            invoke_ (CallCopierCleanUp tmpDir) (Copier_CleanUp (fl_copier a) tmpDir) in
          call! (tarball, err) :=
            invoke (CallCompressFilesInDir tmpDir)
                   (CompressFilesInDir (fl_compressor a) tmpDir) in
          match err with
          | Some _ =>
              call! _ := copier_cleanup in
              ret (None, Some (WrapError err "Making logs tarball"))
          | None =>
              let compressor_cleanup :=
                invoke (CallCompressorCleanUp tarball)
                       (Compressor_CleanUp (fl_compressor a) tarball) in
              call! (blobID, multidigestSha, err) :=
                invoke (CallBlobstoreWrite "" tarball)
                       (Write (fl_blobstore a) "" tarball None) in
              call! _ := compressor_cleanup in
              call! _ := copier_cleanup in
              match err with
              | Some _ =>
                  ret (None, Some (WrapError err "Create file on blobstore"))
              | None =>
                  ret (Some ({[ "blobstore_id" := blobID;
                                "sha1" := Digest_String multidigestSha ]}
                             : gmap string string),
                       None)
              end
          end
      end
  end.

Definition FetchLogsAction_Resume (a : FetchLogsAction) :
  option iface * option error :=
  (None, Some (New "not supported")).

Definition FetchLogsAction_Cancel (a : FetchLogsAction) : option error :=
  Some (New "not supported").

End Actions.
End action.

(** ** platform: the Ubuntu platform *)

Module platform.

(** The calls the platform makes on its collaborators. *)
Inductive call : Type :=
| CallGetMemStats
| CallGetDeviceSizeInBlocks (devicePath : string)
| CallWriteToFile (path content : string)
| CallRunCommand (cmdName : string) (args : list string).

(** [uint64]: a [Z] in [[0, 2^64)]; results of arithmetic are reduced
    modulo [2^64]. *)
Definition uint64_modulus : Z := 2 ^ 64.

Definition is_uint64 (z : Z) : Prop := (0 <= z < uint64_modulus)%Z.

Definition wrap_uint64 (z : Z) : Z := (z mod uint64_modulus)%Z.

(** [boshstats.MemStats]; both fields are [uint64] kilobytes. *)
Record MemStats : Type := { Used : Z; Total : Z }.

(** [boshsettings.NetworkSettings]: [SetupDhcp] reads the [Dns] field
    only. *)
Record NetworkSettings : Type := { Dns : list string }.

(** *** text/template, as far as [DHCP_CONFIG_TEMPLATE] uses it *)

(** The data the template is executed on. *)
Record dhcpConfigArg : Type := { DnsServers : list string }.

(** Inside [{{ range .DnsServers }} ... {{ end }}]: literal text, or
    [{{ . }}], the current element. *)
Inductive range_node : Type :=
| RangeText (s : string)
| RangeDot.

(** Top level: literal text, or a range over [.DnsServers]. *)
Inductive node : Type :=
| TextNode (s : string)
| RangeDnsServers (body : list range_node).

Definition exec_range_node (dot : string) (n : range_node) : string :=
  match n with
  | RangeText s => s
  | RangeDot => dot
  end.

Definition exec_range_body (body : list range_node) (dot : string) : string :=
  String.concat "" (map (exec_range_node dot) body).

Definition exec_node (data : dhcpConfigArg) (n : node) : string :=
  match n with
  | TextNode s => s
  | RangeDnsServers body =>
      String.concat "" (map (exec_range_body body) (DnsServers data))
  end.

(** [t.Execute(buffer, data)]: the rendered text; writing strings to a
    [bytes.Buffer] does not fail. *)
Definition Execute (t : list node) (data : dhcpConfigArg) : string * option error :=
  (String.concat "" (map (exec_node data) t), None).

Definition nl : string := String (Ascii.ascii_of_nat 10) "".
Definition tab : string := String (Ascii.ascii_of_nat 9) "".
Definition dquote : string := String (Ascii.ascii_of_nat 34) "".

(** The text of [DHCP_CONFIG_TEMPLATE] before its [range] action. *)
Definition DHCP_CONFIG_HEADER : string :=
  "# Generated by bosh-agent" +:+ nl +:+
  nl +:+
  "option rfc3442-classless-static-routes code 121 = array of unsigned integer 8;" +:+ nl +:+
  nl +:+
  "send host-name " +:+ dquote +:+ "<hostname>" +:+ dquote +:+ ";" +:+ nl +:+
  nl +:+
  "request subnet-mask, broadcast-address, time-offset, routers," +:+ nl +:+
  tab +:+ "domain-name, domain-name-servers, domain-search, host-name," +:+ nl +:+
  tab +:+ "netbios-name-servers, netbios-scope, interface-mtu," +:+ nl +:+
  tab +:+ "rfc3442-classless-static-routes, ntp-servers;" +:+ nl +:+
  nl.

(** [template.Must(template.New("dhcp-config").Parse(DHCP_CONFIG_TEMPLATE))] *)
Definition DHCP_CONFIG_TEMPLATE : list node :=
  [ TextNode DHCP_CONFIG_HEADER;
    RangeDnsServers
      [ RangeText "prepend domain-name-servers "; RangeDot; RangeText (";" +:+ nl) ] ].

(** The loop
    [for i := len(dnsNetwork.Dns) - 1; i >= 0; i-- { dnsServers = append(dnsServers, dnsNetwork.Dns[i]) }];
    [n] is [i + 1]. *)
Fixpoint append_dns_backwards (dns : list string) (n : nat)
         (dnsServers : list string) : list string :=
  match n with
  | O => dnsServers
  | S i => append_dns_backwards dns i (dnsServers ++ [nth i dns ""])
  end.

(** The swap size in unbounded integer arithmetic: half the disk when the
    memory, in blocks of 512 bytes, exceeds it, and the memory in blocks
    otherwise. *)
Definition exact_swapSize (totalMemInKb diskSizeInBlocks : Z) : Z :=
  if (totalMemInKb * 1024 / 512 >? diskSizeInBlocks / 2)%Z
  then (diskSizeInBlocks / 2)%Z
  else (totalMemInKb * 1024 / 512)%Z.

(** The line of the rendered configuration for one DNS server. *)
Definition prepend_line (server : string) : string :=
  "prepend domain-name-servers " +:+ server +:+ ";" +:+ nl.

Section Ubuntu.
(** The world of the collaborators, and [boshsettings.Networks] with its
    method [DefaultNetworkFor(category) (NetworkSettings, bool)]. *)
Context {W Networks : Type}.
Variable DefaultNetworkFor : Networks -> string -> NetworkSettings * bool.

Abbreviation M := (M W call).

(** [boshstats.StatsCollector] *)
Record StatsCollector : Type := {
  GetMemStats : W -> (MemStats * option error) * W
}.

(** [boshsys.FileSystem]: [WriteToFile(path, content) (written bool, err error)] *)
Record FileSystem : Type := {
  WriteToFile : string -> string -> W -> (bool * option error) * W
}.

(** [boshsys.CmdRunner]:
    [RunCommand(cmdName, args...) (stdout, stderr string, err error)] *)
Record CmdRunner : Type := {
  RunCommand : string -> list string -> W -> (string * string * option error) * W
}.

(** [boshdisk.Partitioner] *)
Record Partitioner : Type := {
  GetDeviceSizeInBlocks : string -> W -> (Z * option error) * W
}.

(** [type ubuntu struct]; the formatter, the mounter and the disk wait
    timeout are not used by the methods below. *)
Record ubuntu : Type := {
  collector : StatsCollector;
  fs : FileSystem;
  cmdRunner : CmdRunner;
  partitioner : Partitioner
}.

(** [ubuntu.SetupDhcp] *)
Definition SetupDhcp (p : ubuntu) (networks : Networks) : M (option error) :=
  let dnsServers : list string := [] in
  let '(dnsNetwork, found) := DefaultNetworkFor networks "dns" in
  let dnsServers :=
    if found
    then append_dns_backwards (Dns dnsNetwork) (length (Dns dnsNetwork)) dnsServers
    else dnsServers in
  let '(buffer, err) := Execute DHCP_CONFIG_TEMPLATE {| DnsServers := dnsServers |} in
  match err with
  | Some _ => ret err
  | None =>
      call! (written, err) :=
        invoke (CallWriteToFile "/etc/dhcp3/dhclient.conf" buffer)
               (WriteToFile (fs p) "/etc/dhcp3/dhclient.conf" buffer) in
      match err with
      | Some _ => ret err
      | None =>
          if (written : bool) then
            call! _ := invoke (CallRunCommand "pkill" ["dhclient3"])
                              (RunCommand (cmdRunner p) "pkill" ["dhclient3"]) in
            call! _ := invoke (CallRunCommand "/etc/init.d/networking" ["restart"])
                              (RunCommand (cmdRunner p) "/etc/init.d/networking" ["restart"]) in
            ret err
          else ret err
      end
  end.

(** [ubuntu.calculateEphemeralDiskPartitionSizes]; the named results
    [swapSize] and [linuxSize] are still zero on the error returns. *)
Definition calculateEphemeralDiskPartitionSizes (p : ubuntu) (devicePath : string) :
  M (Z * Z * option error) :=
  call! (memStats, err) := invoke CallGetMemStats (GetMemStats (collector p)) in
  match err with
  | Some _ => ret (0, 0, err)%Z
  | None =>
      let blockSizeInBytes := 512%Z in
      let totalMemInKb := Total memStats in
      let totalMemInBlocks :=
        (wrap_uint64 (totalMemInKb * 1024) / blockSizeInBytes)%Z in
      call! (diskSizeInBlocks, err) :=
        invoke (CallGetDeviceSizeInBlocks devicePath)
               (GetDeviceSizeInBlocks (partitioner p) devicePath) in
      match err with
      | Some _ => ret (0, 0, err)%Z
      | None =>
          let swapSize :=
            if (totalMemInBlocks >? diskSizeInBlocks / 2)%Z
            then (diskSizeInBlocks / 2)%Z
            else totalMemInBlocks in
          let linuxSize := wrap_uint64 (diskSizeInBlocks - swapSize) in
          ret (swapSize, linuxSize, err)
      end
  end.

End Ubuntu.
End platform.

(** ** task: the task life cycle *)

Module task.

(** Modelled from the spec: the Task Manager (agent/task) is not among the
    sources. A task's [state] is one of [Running], [Done], [Failed],
    [Cancelled]; the last three are terminal. *)
Inductive State : Type := Running | Done | Failed | Cancelled.

(** Modelled from the spec: the terminal states of a task, which the task
    sources would define, are [Done], [Failed] and [Cancelled]. *)
Definition terminal (s : State) : bool :=
  match s with
  | Running => false
  | Done | Failed | Cancelled => true
  end.

(** Modelled from the spec: the kinds of failure recorded on a task, absent
    from the sources: the Action's own kind, [InternalFault],
    [Interrupted]. *)
Inductive Kind : Type :=
| ActionFailure (kind : string)
| InternalFault
| Interrupted.

(** Modelled from the spec: the errors of the Task Manager's calls, absent
    from the sources. *)
Inductive CallError : Type := UnknownAction | UnknownTask | NotCancelable.

(** Modelled from the spec: the capability set of a registered Action,
    whose registry is absent from the sources. *)
Record Action : Type := {
  asynchronous : Z -> bool;
  persistent : bool;
  cancelable : bool;
  resumable : bool;
  loggable : bool
}.

Section Manager.
(** Result values and checkpoint payloads are opaque. *)
Context {Value Payload : Type}.

(** Modelled from the spec: the failure of a task, absent from the
    sources: a kind and a message. *)
Record Failure : Type := { kind : Kind; message : string }.

(** Modelled from the spec: the Task record, absent from the sources.
    [value] is present only in [Done], [error] only in [Failed]. *)
Record Task : Type := {
  id : nat;
  action_name : string;
  state : State;
  value : option Value;
  error : option Failure;
  checkpoint : option Payload
}.

(** Modelled from the spec: the Task Manager's state, absent from the
    sources: the in-memory table, the identifier generator (a counter) and
    the cancellation signals delivered to Actions. *)
Record Manager : Type := {
  table : gmap nat Task;
  next_id : nat;
  signals : list nat
}.

(** Modelled from the spec: what the Task Manager is asked to do, absent
    from the sources: calls of the dispatcher ([Dispatch], [Get],
    [Cancel], [Forget]), reports of the execution thread of a task
    ([Complete], [Fail], [Fault], [CancelHonored], [WriteCheckpoint]) and
    the recovery of the tasks found [Running] at start-up ([Recover]). *)
Inductive op : Type :=
| Dispatch (name : string) (protocolVersion : Z)
| Get (i : nat)
| Cancel (i : nat)
| Forget (i : nat)
| Complete (i : nat) (v : Value)
| Fail (i : nat) (kind : string) (message : string)
| Fault (i : nat) (message : string)
| CancelHonored (i : nat)
| WriteCheckpoint (i : nat) (payload : Payload)
| Recover.

(** Modelled from the spec: the responses of the Task Manager, absent from
    the sources. *)
Inductive response : Type :=
| Inline
| Handle (i : nat)
| Snapshot (t : Task)
| Ok
| Err (e : CallError).

(** Modelled from the spec: the creation of a Task record, absent from the
    sources: a task is created at dispatch time in state [Running]. *)
Definition new_task (i : nat) (name : string) : Task :=
  {| id := i; action_name := name; state := Running;
     value := None; error := None; checkpoint := None |}.

(** Modelled from the spec: a state transition of a task, absent from the
    sources. A transition applies to a [Running] task; a terminal task is
    immutable. *)
Definition transition (s : State) (v : option Value) (e : option Failure)
           (t : Task) : Task :=
  if terminal (state t) then t
  else {| id := id t; action_name := action_name t; state := s;
          value := v; error := e; checkpoint := checkpoint t |}.

(** Modelled from the spec: the checkpoint write of a running Action,
    absent from the sources. *)
Definition write_checkpoint (payload : Payload) (t : Task) : Task :=
  if terminal (state t) then t
  else {| id := id t; action_name := action_name t; state := state t;
          value := value t; error := error t; checkpoint := Some payload |}.

(** Modelled from the spec: the recovery of one record, absent from the
    sources: a [Running] task of a resumable Action is resumed and stays
    [Running]; of any other Action it becomes [Failed] with kind
    [Interrupted]. *)
Definition recover_task (registry : gmap string Action) (t : Task) : Task :=
  match registry !! action_name t with
  | Some a =>
      if resumable a then t
      else transition Failed None
             (Some {| kind := Interrupted; message := "interrupted" |}) t
  | None =>
      transition Failed None
        (Some {| kind := Interrupted; message := "interrupted" |}) t
  end.

(** Modelled from the spec: the update of one record of the table, absent
    from the sources. *)
Definition update (i : nat) (f : Task -> Task) (m : Manager) : Manager :=
  {| table := alter f i (table m); next_id := next_id m; signals := signals m |}.

(** Modelled from the spec: the query [get(id)], absent from the sources:
    a snapshot, or [UnknownTask]. *)
Definition get (i : nat) (m : Manager) : CallError + Task :=
  match table m !! i with
  | Some t => inr t
  | None => inl UnknownTask
  end.

(** Modelled from the spec: the cancel request, absent from the sources:
    [UnknownTask], [NotCancelable], the outcome already applied to a
    terminal task, or a signal to the Action; the state of the task is not
    changed. *)
Definition cancel (registry : gmap string Action) (i : nat) (m : Manager) :
  response * Manager :=
  match table m !! i with
  | None => (Err UnknownTask, m)
  | Some t =>
      match registry !! action_name t with
      | None => (Err NotCancelable, m)
      | Some a =>
          if negb (cancelable a) then (Err NotCancelable, m)
          else if terminal (state t) then (Snapshot t, m)
          else (Ok, {| table := table m; next_id := next_id m;
                       signals := signals m ++ [i] |})
      end
  end.

(** Modelled from the spec: the dispatch of a request, absent from the
    sources: an unknown name creates no task; a synchronous Action runs
    inline and creates no task; an asynchronous one gets a fresh
    identifier and a [Running] record. *)
Definition dispatch (registry : gmap string Action) (name : string)
           (protocolVersion : Z) (m : Manager) : response * Manager :=
  match registry !! name with
  | None => (Err UnknownAction, m)
  | Some a =>
      if asynchronous a protocolVersion then
        let i := next_id m in
        (Handle i, {| table := <[i := new_task i name]> (table m);
                      next_id := S i; signals := signals m |})
      else (Inline, m)
  end.

(** Modelled from the spec: one step of the Task Manager, absent from the
    sources. *)
Definition step (registry : gmap string Action) (o : op) (m : Manager) :
  response * Manager :=
  match o with
  | Dispatch name v => dispatch registry name v m
  | Get i =>
      match get i m with
      | inr t => (Snapshot t, m)
      | inl e => (Err e, m)
      end
  | Cancel i => cancel registry i m
  | Forget i =>
      (Ok, {| table := delete i (table m); next_id := next_id m;
              signals := signals m |})
  | Complete i v => (Ok, update i (transition Done (Some v) None) m)
  | Fail i k msg =>
      (Ok, update i (transition Failed None
                       (Some {| kind := ActionFailure k; message := msg |})) m)
  | Fault i msg =>
      (Ok, update i (transition Failed None
                       (Some {| kind := InternalFault; message := msg |})) m)
  | CancelHonored i => (Ok, update i (transition Cancelled None None) m)
  | WriteCheckpoint i payload => (Ok, update i (write_checkpoint payload) m)
  | Recover =>
      (Ok, {| table := recover_task registry <$> table m;
              next_id := next_id m; signals := signals m |})
  end.

(** Modelled from the spec: a sequence of operations, absent from the
    sources, applied from left to right. *)
Fixpoint run (registry : gmap string Action) (ops : list op) (m : Manager) : Manager :=
  match ops with
  | [] => m
  | o :: rest => run registry rest (snd (step registry o m))
  end.

(** Modelled from the spec: the Task Manager before any dispatch, absent
    from the sources. *)
Definition init : Manager := {| table := ∅; next_id := 0; signals := [] |}.

(** Every identifier of the table was issued by the generator. *)
Definition issued (m : Manager) : Prop :=
  map_Forall (fun i _ => i < next_id m) (table m).

End Manager.

Arguments Failure : clear implicits.
Arguments Task : clear implicits.
Arguments Manager : clear implicits.
Arguments op : clear implicits.
Arguments response : clear implicits.

End task.

(** ** agent/action: what the paths of [Run] are stated with *)

Module action_views.
Import action.

Section Views.
Context {MultipleDigest W : Type}.

(** The conversion of one dependency of the request, as the loop of
    [CompilePackageWithSignedURL.Run] builds it. *)
Definition models_dep (entry : string * @Package MultipleDigest) : ModelsPackage :=
  {| mp_Name := Name (snd entry);
     mp_Version := Version (snd entry);
     mp_Source := {| Source_Sha1 := Sha1 (snd entry);
                     Source_BlobstoreID := BlobstoreID (snd entry);
                     Source_SignedURL := PackageGetSignedURL (snd entry) |} |}.

(** The directory [FetchLogsAction.Run] copies for the log types "job" and
    "agent". *)
Definition logs_dir (b : @FetchLogsAction MultipleDigest W) (logType : string) : string :=
  if String.eqb logType "job" then LogsDir (fl_settingsDir b)
  else AgentLogsDir (fl_settingsDir b).

End Views.
End action_views.

(** ** system/fakes: the fake file system *)

Module fakesys.

(** [type FakeFileType string] and its three constants; the zero value is
    the empty string. *)
Definition FakeFileType : Type := string.
Definition FakeFileTypeFile : FakeFileType := "file".
Definition FakeFileTypeSymlink : FakeFileType := "symlink".
Definition FakeFileTypeDir : FakeFileType := "dir".

(** [type FakeFileStats struct]. [FileMode] is an [os.FileMode]; [Content],
    a [[]byte], is a string of bytes (a nil slice is the empty one). *)
Record FakeFileStats : Type := {
  FileType : FakeFileType;
  FileMode : Z;
  Username : string;
  SymlinkTarget : string;
  Content : string
}.

(** [new(FakeFileStats)]: every field has its zero value. *)
Definition zero_stats : FakeFileStats :=
  {| FileType := ""; FileMode := 0; Username := ""; SymlinkTarget := ""; Content := "" |}.

(** [stats.StringContents()] *)
Definition StringContents (stats : FakeFileStats) : string := Content stats.

(** The assignments to one field of a [*FakeFileStats]. *)
Definition with_FileType (v : FakeFileType) (st : FakeFileStats) : FakeFileStats :=
  {| FileType := v; FileMode := FileMode st; Username := Username st;
     SymlinkTarget := SymlinkTarget st; Content := Content st |}.
Definition with_FileMode (v : Z) (st : FakeFileStats) : FakeFileStats :=
  {| FileType := FileType st; FileMode := v; Username := Username st;
     SymlinkTarget := SymlinkTarget st; Content := Content st |}.
Definition with_Username (v : string) (st : FakeFileStats) : FakeFileStats :=
  {| FileType := FileType st; FileMode := FileMode st; Username := v;
     SymlinkTarget := SymlinkTarget st; Content := Content st |}.
Definition with_SymlinkTarget (v : string) (st : FakeFileStats) : FakeFileStats :=
  {| FileType := FileType st; FileMode := FileMode st; Username := Username st;
     SymlinkTarget := v; Content := Content st |}.
Definition with_Content (v : string) (st : FakeFileStats) : FakeFileStats :=
  {| FileType := FileType st; FileMode := FileMode st; Username := Username st;
     SymlinkTarget := SymlinkTarget st; Content := v |}.

(** [type FakeFileSystem struct]. [files] is a [map[string]*FakeFileStats]:
    a path is mapped to a pointer, [None] for nil and [Some l] for the
    address [l] of a [FakeFileStats] in [heap]; two paths may hold the
    same address. Error-valued maps hold [None] for a nil error. The lock,
    the open files and the temporary [os.File] are left out with the
    methods that use them ([OpenFile], [TempFile], [Walk]). *)
Record FakeFileSystem : Type := {

  files : gmap string (option nat);
  heap : gmap nat FakeFileStats;
  HomeDirUsername : string;
  HomeDirHomePath : string;
  ReadFileError : option error;
  readFileErrorByPath : gmap string (option error);
  WriteToFileError : option error;
  SymlinkError : option error;
  MkdirAllError : option error;
  mkdirAllErrorByPath : gmap string (option error);
  ChownErr : option error;
  ChmodErr : option error;
  CopyFileError : option error;
  RenameError : option error;
  RenameOldPaths : list string;
  RenameNewPaths : list string;
  RemoveAllError : option error;
  removeAllErrorByPath : gmap string (option error);
  ReadLinkError : option error;
  TempDirDir : string;
  TempDirError : option error;
  GlobErr : option error;
  globsMap : gmap string (list (list string));
  WalkErr : option error
}.

(** Assignments to the fields the methods change. *)
Definition set_files (v : gmap string (option nat)) (fs : FakeFileSystem) : FakeFileSystem :=
  {| files := v;
     heap := heap fs;
     HomeDirUsername := HomeDirUsername fs;
     HomeDirHomePath := HomeDirHomePath fs;
     ReadFileError := ReadFileError fs;
     readFileErrorByPath := readFileErrorByPath fs;
     WriteToFileError := WriteToFileError fs;
     SymlinkError := SymlinkError fs;
     MkdirAllError := MkdirAllError fs;
     mkdirAllErrorByPath := mkdirAllErrorByPath fs;
     ChownErr := ChownErr fs;
     ChmodErr := ChmodErr fs;
     CopyFileError := CopyFileError fs;
     RenameError := RenameError fs;
     RenameOldPaths := RenameOldPaths fs;
     RenameNewPaths := RenameNewPaths fs;
     RemoveAllError := RemoveAllError fs;
     removeAllErrorByPath := removeAllErrorByPath fs;
     ReadLinkError := ReadLinkError fs;
     TempDirDir := TempDirDir fs;
     TempDirError := TempDirError fs;
     GlobErr := GlobErr fs;
     globsMap := globsMap fs;
     WalkErr := WalkErr fs |}.

(** [heap] after an assignment through a pointer. *)
Definition set_heap (v : gmap nat FakeFileStats) (fs : FakeFileSystem) : FakeFileSystem :=
  {| files := files fs;
     heap := v;
     HomeDirUsername := HomeDirUsername fs;
     HomeDirHomePath := HomeDirHomePath fs;
     ReadFileError := ReadFileError fs;
     readFileErrorByPath := readFileErrorByPath fs;
     WriteToFileError := WriteToFileError fs;
     SymlinkError := SymlinkError fs;
     MkdirAllError := MkdirAllError fs;
     mkdirAllErrorByPath := mkdirAllErrorByPath fs;
     ChownErr := ChownErr fs;
     ChmodErr := ChmodErr fs;
     CopyFileError := CopyFileError fs;
     RenameError := RenameError fs;
     RenameOldPaths := RenameOldPaths fs;
     RenameNewPaths := RenameNewPaths fs;
     RemoveAllError := RemoveAllError fs;
     removeAllErrorByPath := removeAllErrorByPath fs;
     ReadLinkError := ReadLinkError fs;
     TempDirDir := TempDirDir fs;
     TempDirError := TempDirError fs;
     GlobErr := GlobErr fs;
     globsMap := globsMap fs;
     WalkErr := WalkErr fs |}.

(** [fs.HomeDirUsername = v] *)
Definition set_HomeDirUsername (v : string) (fs : FakeFileSystem) : FakeFileSystem :=
  {| files := files fs;
     heap := heap fs;
     HomeDirUsername := v;
     HomeDirHomePath := HomeDirHomePath fs;
     ReadFileError := ReadFileError fs;
     readFileErrorByPath := readFileErrorByPath fs;
     WriteToFileError := WriteToFileError fs;
     SymlinkError := SymlinkError fs;
     MkdirAllError := MkdirAllError fs;
     mkdirAllErrorByPath := mkdirAllErrorByPath fs;
     ChownErr := ChownErr fs;
     ChmodErr := ChmodErr fs;
     CopyFileError := CopyFileError fs;
     RenameError := RenameError fs;
     RenameOldPaths := RenameOldPaths fs;
     RenameNewPaths := RenameNewPaths fs;
     RemoveAllError := RemoveAllError fs;
     removeAllErrorByPath := removeAllErrorByPath fs;
     ReadLinkError := ReadLinkError fs;
     TempDirDir := TempDirDir fs;
     TempDirError := TempDirError fs;
     GlobErr := GlobErr fs;
     globsMap := globsMap fs;
     WalkErr := WalkErr fs |}.


(** [fs.mkdirAllErrorByPath[path] = err] *)
Definition set_mkdirAllErrorByPath (v : gmap string (option error)) (fs : FakeFileSystem) : FakeFileSystem :=
  {| files := files fs;
     heap := heap fs;
     HomeDirUsername := HomeDirUsername fs;
     HomeDirHomePath := HomeDirHomePath fs;
     ReadFileError := ReadFileError fs;
     readFileErrorByPath := readFileErrorByPath fs;
     WriteToFileError := WriteToFileError fs;
     SymlinkError := SymlinkError fs;
     MkdirAllError := MkdirAllError fs;
     mkdirAllErrorByPath := v;
     ChownErr := ChownErr fs;
     ChmodErr := ChmodErr fs;
     CopyFileError := CopyFileError fs;
     RenameError := RenameError fs;
     RenameOldPaths := RenameOldPaths fs;
     RenameNewPaths := RenameNewPaths fs;
     RemoveAllError := RemoveAllError fs;
     removeAllErrorByPath := removeAllErrorByPath fs;
     ReadLinkError := ReadLinkError fs;
     TempDirDir := TempDirDir fs;
     TempDirError := TempDirError fs;
     GlobErr := GlobErr fs;
     globsMap := globsMap fs;
     WalkErr := WalkErr fs |}.

(** [fs.removeAllErrorByPath[path] = err] *)
Definition set_removeAllErrorByPath (v : gmap string (option error)) (fs : FakeFileSystem) : FakeFileSystem :=
  {| files := files fs;
     heap := heap fs;
     HomeDirUsername := HomeDirUsername fs;
     HomeDirHomePath := HomeDirHomePath fs;
     ReadFileError := ReadFileError fs;
     readFileErrorByPath := readFileErrorByPath fs;
     WriteToFileError := WriteToFileError fs;
     SymlinkError := SymlinkError fs;
     MkdirAllError := MkdirAllError fs;
     mkdirAllErrorByPath := mkdirAllErrorByPath fs;
     ChownErr := ChownErr fs;
     ChmodErr := ChmodErr fs;
     CopyFileError := CopyFileError fs;
     RenameError := RenameError fs;
     RenameOldPaths := RenameOldPaths fs;
     RenameNewPaths := RenameNewPaths fs;
     RemoveAllError := RemoveAllError fs;
     removeAllErrorByPath := v;
     ReadLinkError := ReadLinkError fs;
     TempDirDir := TempDirDir fs;
     TempDirError := TempDirError fs;
     GlobErr := GlobErr fs;
     globsMap := globsMap fs;
     WalkErr := WalkErr fs |}.

(** The two appends of [Rename]. *)
Definition set_RenamePaths (old new : list string) (fs : FakeFileSystem) : FakeFileSystem :=
  {| files := files fs;
     heap := heap fs;
     HomeDirUsername := HomeDirUsername fs;
     HomeDirHomePath := HomeDirHomePath fs;
     ReadFileError := ReadFileError fs;
     readFileErrorByPath := readFileErrorByPath fs;
     WriteToFileError := WriteToFileError fs;
     SymlinkError := SymlinkError fs;
     MkdirAllError := MkdirAllError fs;
     mkdirAllErrorByPath := mkdirAllErrorByPath fs;
     ChownErr := ChownErr fs;
     ChmodErr := ChmodErr fs;
     CopyFileError := CopyFileError fs;
     RenameError := RenameError fs;
     RenameOldPaths := old;
     RenameNewPaths := new;
     RemoveAllError := RemoveAllError fs;
     removeAllErrorByPath := removeAllErrorByPath fs;
     ReadLinkError := ReadLinkError fs;
     TempDirDir := TempDirDir fs;
     TempDirError := TempDirError fs;
     GlobErr := GlobErr fs;
     globsMap := globsMap fs;
     WalkErr := WalkErr fs |}.

(** [fs.globsMap[pattern] = v] *)
Definition set_globsMap (v : gmap string (list (list string))) (fs : FakeFileSystem) : FakeFileSystem :=
  {| files := files fs;
     heap := heap fs;
     HomeDirUsername := HomeDirUsername fs;
     HomeDirHomePath := HomeDirHomePath fs;
     ReadFileError := ReadFileError fs;
     readFileErrorByPath := readFileErrorByPath fs;
     WriteToFileError := WriteToFileError fs;
     SymlinkError := SymlinkError fs;
     MkdirAllError := MkdirAllError fs;
     mkdirAllErrorByPath := mkdirAllErrorByPath fs;
     ChownErr := ChownErr fs;
     ChmodErr := ChmodErr fs;
     CopyFileError := CopyFileError fs;
     RenameError := RenameError fs;
     RenameOldPaths := RenameOldPaths fs;
     RenameNewPaths := RenameNewPaths fs;
     RemoveAllError := RemoveAllError fs;
     removeAllErrorByPath := removeAllErrorByPath fs;
     ReadLinkError := ReadLinkError fs;
     TempDirDir := TempDirDir fs;
     TempDirError := TempDirError fs;
     GlobErr := GlobErr fs;
     globsMap := v;
     WalkErr := WalkErr fs |}.

(** [fs.WriteToFileError = v], as a test sets it. *)
Definition set_WriteToFileError (v : option error) (fs : FakeFileSystem) : FakeFileSystem :=
  {| files := files fs;
     heap := heap fs;
     HomeDirUsername := HomeDirUsername fs;
     HomeDirHomePath := HomeDirHomePath fs;
     ReadFileError := ReadFileError fs;
     readFileErrorByPath := readFileErrorByPath fs;
     WriteToFileError := v;
     SymlinkError := SymlinkError fs;
     MkdirAllError := MkdirAllError fs;
     mkdirAllErrorByPath := mkdirAllErrorByPath fs;
     ChownErr := ChownErr fs;
     ChmodErr := ChmodErr fs;
     CopyFileError := CopyFileError fs;
     RenameError := RenameError fs;
     RenameOldPaths := RenameOldPaths fs;
     RenameNewPaths := RenameNewPaths fs;
     RemoveAllError := RemoveAllError fs;
     removeAllErrorByPath := removeAllErrorByPath fs;
     ReadLinkError := ReadLinkError fs;
     TempDirDir := TempDirDir fs;
     TempDirError := TempDirError fs;
     GlobErr := GlobErr fs;
     globsMap := globsMap fs;
     WalkErr := WalkErr fs |}.

(** [NewFakeFileSystem()] *)
Definition NewFakeFileSystem : FakeFileSystem :=
  {| files := ∅; heap := ∅;
     HomeDirUsername := ""; HomeDirHomePath := "";
     ReadFileError := None; readFileErrorByPath := ∅;
     WriteToFileError := None; SymlinkError := None;
     MkdirAllError := None; mkdirAllErrorByPath := ∅;
     ChownErr := None; ChmodErr := None; CopyFileError := None;
     RenameError := None; RenameOldPaths := []; RenameNewPaths := [];
     RemoveAllError := None; removeAllErrorByPath := ∅;
     ReadLinkError := None; TempDirDir := ""; TempDirError := None;
     GlobErr := None; globsMap := ∅; WalkErr := None |}.

(** A call returns, or panics with a message. *)
Inductive outcome (A : Type) : Type :=
| Returns (a : A)
| Panics (msg : string).
Arguments Returns {A} a.
Arguments Panics {A} msg.

(** [*stats]: the object at an address. *)
Definition load (l : nat) (fs : FakeFileSystem) : FakeFileStats :=
  default zero_stats (heap fs !! l).

(** [stats.Field = v]: an assignment through the pointer [l]. *)
Definition modify (l : nat) (f : FakeFileStats -> FakeFileStats)
           (fs : FakeFileSystem) : FakeFileSystem :=
  set_heap (<[l := f (load l fs)]> (heap fs)) fs.

(** [fs.files[path]], nil when the key is missing. *)
Definition files_at (fs : FakeFileSystem) (path : string) : option nat :=
  match files fs !! path with
  | Some p => p
  | None => None
  end.

(** An error map at a key, nil when the key is missing. *)
Definition error_at (m : gmap string (option error)) (path : string) : option error :=
  match m !! path with
  | Some e => e
  | None => None
  end.

(** [fs.GetFileTestStat(path)] *)
Definition GetFileTestStat (fs : FakeFileSystem) (path : string) : option nat :=
  files_at fs path.

(** [fs.getOrCreateFile(path)]: the pointer filed under [path], or a new
    object at an address that is not in use. *)
Definition getOrCreateFile (path : string) (fs : FakeFileSystem) : nat * FakeFileSystem :=
  match files_at fs path with
  | Some l => (l, fs)
  | None =>
      let l := fresh (dom (heap fs)) in
      (l, set_files (<[path := Some l]> (files fs))
            (set_heap (<[l := zero_stats]> (heap fs)) fs))
  end.

(** [fs.HomeDir(username)] *)
Definition HomeDir (username : string) (fs : FakeFileSystem) :
  (string * option error) * FakeFileSystem :=
  let fs := set_HomeDirUsername username fs in
  ((HomeDirHomePath fs, None), fs).

(** [fs.RegisterMkdirAllError(path, err)] *)
Definition RegisterMkdirAllError (path : string) (err : option error)
           (fs : FakeFileSystem) : outcome FakeFileSystem :=
  match mkdirAllErrorByPath fs !! path with
  | Some _ => Panics ("MkdirAll error is already set for path: " +:+ path)
  | None => Returns (set_mkdirAllErrorByPath (<[path := err]> (mkdirAllErrorByPath fs)) fs)
  end.

(** [fs.MkdirAll(path, perm)] *)
Definition MkdirAll (path : string) (perm : Z) (fs : FakeFileSystem) :
  option error * FakeFileSystem :=
  match MkdirAllError fs with
  | Some e => (Some e, fs)
  | None =>
      match error_at (mkdirAllErrorByPath fs) path with
      | Some e => (Some e, fs)
      | None =>
          let '(stats, fs) := getOrCreateFile path fs in
          let fs := modify stats (with_FileMode perm) fs in
          let fs := modify stats (with_FileType FakeFileTypeDir) fs in
          (None, fs)
      end
  end.

(** [fs.Chown(path, username)] *)
Definition Chown (path username : string) (fs : FakeFileSystem) :
  option error * FakeFileSystem :=
  match ChownErr fs with
  | Some e => (Some e, fs)
  | None =>
      match files_at fs path with
      | None => (Some (errorString ("Path does not exist: " +:+ path)), fs)
      | Some stats => (None, modify stats (with_Username username) fs)
      end
  end.

(** [fs.Chmod(path, perm)] *)
Definition Chmod (path : string) (perm : Z) (fs : FakeFileSystem) :
  option error * FakeFileSystem :=
  match ChmodErr fs with
  | Some e => (Some e, fs)
  | None =>
      match files_at fs path with
      | None => (Some (errorString ("Path does not exist: " +:+ path)), fs)
      | Some stats => (None, modify stats (with_FileMode perm) fs)
      end
  end.

(** [fs.WriteFile(path, content)] *)
Definition WriteFile (path : string) (content : string) (fs : FakeFileSystem) :
  option error * FakeFileSystem :=
  match WriteToFileError fs with
  | Some e => (Some e, fs)
  | None =>
      let '(stats, fs) := getOrCreateFile path fs in
      let fs := modify stats (with_FileType FakeFileTypeFile) fs in
      let fs := modify stats (with_Content content) fs in
      (None, fs)
  end.

(** [fs.WriteFileString(path, content)] *)
Definition WriteFileString (path content : string) (fs : FakeFileSystem) :
  option error * FakeFileSystem :=
  WriteFile path content fs.

(** [fs.ConvergeFileContents(path, content)] *)
Definition ConvergeFileContents (path : string) (content : string)
           (fs : FakeFileSystem) : (bool * option error) * FakeFileSystem :=
  match WriteToFileError fs with
  | Some e => ((false, Some e), fs)
  | None =>
      let '(stats, fs) := getOrCreateFile path fs in
      let fs := modify stats (with_FileType FakeFileTypeFile) fs in
      if negb (String.eqb (Content (load stats fs)) content) then
        ((true, None), modify stats (with_Content content) fs)
      else ((false, None), fs)
  end.


(** [fs.ReadFile(path)]; the bytes are nil (empty) with an error. *)
Definition ReadFile (path : string) (fs : FakeFileSystem) : string * option error :=
  match GetFileTestStat fs path with
  | Some stats =>
      match ReadFileError fs with
      | Some e => ("", Some e)
      | None =>
          match error_at (readFileErrorByPath fs) path with
          | Some e => ("", Some e)
          | None => (Content (load stats fs), None)
          end
      end
  | None => ("", Some (New "File not found"))
  end.

(** [fs.ReadFileString(path)] *)
Definition ReadFileString (path : string) (fs : FakeFileSystem) : string * option error :=
  let '(bytes, err) := ReadFile path fs in
  match err with
  | Some _ => ("", err)
  | None => (bytes, None)
  end.

(** [fs.FileExists(path)] *)
Definition FileExists (path : string) (fs : FakeFileSystem) : bool :=
  match GetFileTestStat fs path with
  | Some _ => true
  | None => false
  end.

(** [fs.removeAll(path)]: every key that has [path] as a prefix is
    deleted. *)
Definition removeAll (path : string) (fs : FakeFileSystem) :
  option error * FakeFileSystem :=
  (None,
   set_files (filter (fun kv => String.prefix path kv.1 = false) (files fs)) fs).

(** [fs.RegisterRemoveAllError(path, err)] *)
Definition RegisterRemoveAllError (path : string) (err : option error)
           (fs : FakeFileSystem) : outcome FakeFileSystem :=
  match removeAllErrorByPath fs !! path with
  | Some _ => Panics ("RemoveAll error is already set for path: " +:+ path)
  | None => Returns (set_removeAllErrorByPath (<[path := err]> (removeAllErrorByPath fs)) fs)
  end.

(** [fs.RemoveAll(path)] *)
Definition RemoveAll (path : string) (fs : FakeFileSystem) :
  outcome (option error * FakeFileSystem) :=
  if String.eqb path "" then Panics "RemoveAll requires path"
  else
    match RemoveAllError fs with
    | Some e => Returns (Some e, fs)
    | None =>
        match error_at (removeAllErrorByPath fs) path with
        | Some e => Returns (Some e, fs)
        | None => Returns (removeAll path fs)
        end
    end.

(** [fs.Symlink(oldPath, newPath)] *)
Definition Symlink (oldPath newPath : string) (fs : FakeFileSystem) :
  option error * FakeFileSystem :=
  match SymlinkError fs with
  | None =>
      let '(stats, fs) := getOrCreateFile newPath fs in
      let fs := modify stats (with_FileType FakeFileTypeSymlink) fs in
      let fs := modify stats (with_SymlinkTarget oldPath) fs in
      (None, fs)
  | Some e => (Some e, fs)
  end.

(** [os.ErrNotExist] *)
Definition os_ErrNotExist : error := New "file does not exist".

(** [fs.ReadLink(symlinkPath)] *)
Definition ReadLink (symlinkPath : string) (fs : FakeFileSystem) : string * option error :=
  match ReadLinkError fs with
  | Some e => ("", Some e)
  | None =>
      match GetFileTestStat fs symlinkPath with
      | Some stat => (SymlinkTarget (load stat fs), None)
      | None => ("", Some os_ErrNotExist)
      end
  end.

(** [fs.CopyFile(srcPath, dstPath)]: the destination gets the pointer of
    the source, nil when there is no source. *)
Definition CopyFile (srcPath dstPath : string) (fs : FakeFileSystem) :
  option error * FakeFileSystem :=
  match CopyFileError fs with
  | Some e => (Some e, fs)
  | None => (None, set_files (<[dstPath := files_at fs srcPath]> (files fs)) fs)
  end.

(** [fs.TempDir(prefix)]; [uuid] is what [gouuid.NewV4()] returns when it
    is asked. *)
Definition TempDir (uuid : string * option error) (prefix : string)
           (fs : FakeFileSystem) : (string * option error) * FakeFileSystem :=
  match TempDirError fs with
  | Some e => (("", Some e), fs)
  | None =>
      let created (path : string) :=
        let '(stats, fs) := getOrCreateFile path fs in
        ((path, None), modify stats (with_FileType FakeFileTypeDir) fs) in
      if (0 <? String.length (TempDirDir fs))%nat then created (TempDirDir fs)
      else
        match snd uuid with
        | Some e => (("", Some e), fs)
        | None => created (fst uuid)
        end
  end.

(** [fs.SetGlob(pattern, matches...)] *)
Definition SetGlob (pattern : string) (matches : list (list string))
           (fs : FakeFileSystem) : FakeFileSystem :=
  set_globsMap (<[pattern := matches]> (globsMap fs)) fs.

(** [fs.Glob(pattern)]; [remainingMatches[0]] panics on an empty list. *)
Definition Glob (pattern : string) (fs : FakeFileSystem) :
  outcome ((list string * option error) * FakeFileSystem) :=
  match globsMap fs !! pattern with
  | Some remainingMatches =>
      match remainingMatches with
      | [] => Panics "index out of range [0] with length 0"
      | matches :: rest =>
          let fs' := match rest with
                     | [] => fs
                     | _ :: _ => set_globsMap (<[pattern := rest]> (globsMap fs)) fs
                     end in
          Returns ((matches, GlobErr fs), fs')
      end
  | None => Returns (([], GlobErr fs), fs)
  end.

Section Rename.
(** [filepath.Dir] *)
Variable filepath_Dir : string -> string.

(** [fs.Rename(oldPath, newPath)] *)
Definition Rename (oldPath newPath : string) (fs : FakeFileSystem) :
  option error * FakeFileSystem :=
  match RenameError fs with
  | Some e => (Some e, fs)
  | None =>
      match files_at fs (filepath_Dir newPath) with
      | None => (Some (New "Parent directory does not exist"), fs)
      | Some _ =>
          match files_at fs oldPath with
          | None => (Some (New "Old path did not exist"), fs)
          | Some stats =>
              let fs := set_RenamePaths (RenameOldPaths fs ++ [oldPath])
                                        (RenameNewPaths fs ++ [newPath]) fs in
              let '(newStats, fs) := getOrCreateFile newPath fs in
              let fs := modify newStats (with_Content (Content (load stats fs))) fs in
              let fs := modify newStats (with_FileMode (FileMode (load stats fs))) fs in
              let fs := modify newStats (with_FileType (FileType (load stats fs))) fs in
              let '(_, fs) := removeAll oldPath fs in
              (None, fs)
          end
      end
  end.
End Rename.

(** Every pointer filed in [files] is the address of an object. *)
Definition allocated (fs : FakeFileSystem) : Prop :=
  map_Forall (fun _ p => match p with
                         | Some l => is_Some (heap fs !! l)
                         | None => True
                         end) (files fs).

End fakesys.

(** ** system/fakes: what the properties of the fake are stated with *)

Module fakesys_views.
Import fakesys.

(** The file system without its files: the injected errors, the recorded
    calls and the globs. *)
Definition config (fs : FakeFileSystem) : FakeFileSystem :=
  set_files ∅ (set_heap ∅ fs).

(** The stats filed under a path, if any. *)
Definition stat (fs : FakeFileSystem) (path : string) : option FakeFileStats :=
  match files_at fs path with
  | Some l => Some (load l fs)
  | None => None
  end.

(** [Glob] called again and again: the result of the call after [n]
    calls. *)
Fixpoint Glob_after (n : nat) (pattern : string) (fs : FakeFileSystem) :
  outcome ((list string * option error) * FakeFileSystem) :=
  match n with
  | O => Glob pattern fs
  | S k =>
      match Glob pattern fs with
      | Returns (_, fs') => Glob_after k pattern fs'
      | Panics msg => Panics msg
      end
  end.

(** Whether every pointer is allocated can be computed. *)
#[global] Instance allocated_dec (fs : FakeFileSystem) : Decision (allocated fs).
Proof. apply map_Forall_dec. intros k [l|]; apply _. Defined.

End fakesys_views.

(** ** platform: the other methods of the Ubuntu platform *)

Module platform_setup.
Import platform.

(** [strings.Split(s, sep)] for a separator that is not empty: the pieces
    of [s] between the occurrences of [sep], found from left to right
    without overlap. [cur] is the piece being read and [skip] the number
    of characters of a separator still to pass. *)
Fixpoint split_go (sep s cur : string) (skip : nat) : list string :=
  match s with
  | EmptyString => [cur]
  | String c rest =>
      match skip with
      | S k => split_go sep rest cur k
      | O =>
          if String.prefix sep s
          then cur :: split_go sep rest "" (String.length sep - 1)
          else split_go sep rest (cur +:+ String c "") 0
      end
  end.

Definition Split (s sep : string) : list string := split_go sep s "" 0.

(** Whether [sep] occurs in [s]. *)
Fixpoint occurs (sep s : string) : bool :=
  String.prefix sep s ||
  match s with
  | EmptyString => false
  | String _ rest => occurs sep rest
  end.

(** [boshdisk.PartitionType], [boshdisk.Partition] and
    [boshdisk.FileSystemType] *)
Inductive PartitionType : Type := PartitionTypeSwap | PartitionTypeLinux.

Record Partition : Type := { SizeInBlocks : Z; Type_ : PartitionType }.

Inductive FileSystemType : Type := FileSystemSwap | FileSystemExt4.

(** The calls of the methods below: those of the first part of the
    platform, and the rest. Times and durations are in nanoseconds. *)
Inductive call : Type :=
| Core (c : platform.call)
| CallHomeDir (username : string)
| CallMkdirAll (path : string) (perm : Z)
| CallChown (path username : string)
| CallChmod (path : string) (perm : Z)
| CallFileExists (path : string)
| CallPartition (devicePath : string) (partitions : list Partition)
| CallFormat (partitionPath : string) (fsType : FileSystemType)
| CallSwapOn (partitionPath : string)
| CallMount (partitionPath mountPoint : string)
| CallNow
| CallSleep (d : Z).

(** A run returns, panics, or is cut short by the bound put on its loop. *)
Inductive run (A : Type) : Type :=
| Finished (a : A)
| Panicked (msg : string)
| OutOfFuel.
Arguments Finished {A} a.
Arguments Panicked {A} msg.
Arguments OutOfFuel {A}.

Section Ubuntu.
Context {W : Type}.
(** [filepath.Join] *)
Variable filepath_Join : list string -> string.

Abbreviation M := (M W call).

(** [type ubuntu struct] with the other methods of its collaborators:
    [core] holds the collector, [fs.WriteToFile], the command runner and
    [partitioner.GetDeviceSizeInBlocks]; then come the rest of
    [boshsys.FileSystem], [partitioner.Partition], the formatter, the
    mounter, [diskWaitTimeout], and [time.Now] and [time.Sleep]. *)
Record ubuntu : Type := {
  core : @platform.ubuntu W;
  HomeDir : string -> W -> (string * option error) * W;
  MkdirAll : string -> Z -> W -> option error * W;
  Chown : string -> string -> W -> option error * W;
  Chmod : string -> Z -> W -> option error * W;
  FileExists : string -> W -> bool * W;
  Partition_ : string -> list Partition -> W -> option error * W;
  Format : string -> FileSystemType -> W -> option error * W;
  SwapOn : string -> W -> option error * W;
  Mount : string -> string -> W -> option error * W;
  diskWaitTimeout : Z;
  Now : W -> Z * W;
  Sleep : Z -> W -> W
}.

(** A method of the first part, run as part of a method below: its calls
    are logged as [Core] calls. *)
Definition lift_core {A} (m : Sys W platform.call -> A * Sys W platform.call) : M A :=
  fun s =>
    let '(a, s0) := m {| world := world s; calls := [] |} in
    (a, {| world := world s0; calls := calls s ++ map Core (calls s0) |}).

(** [ubuntu.SetupRuntimeConfiguration] *)
Definition SetupRuntimeConfiguration (p : ubuntu) : M (option error) :=
  call! (_, _, err) :=
    invoke (Core (CallRunCommand "bosh-agent-rc" []))
           (RunCommand (cmdRunner (core p)) "bosh-agent-rc" []) in
  ret err.

(** [ubuntu.SetupSsh]; the modes are [0700] and [0600]. *)
Definition SetupSsh (p : ubuntu) (publicKey username : string) : M (option error) :=
  call! (homeDir, err) := invoke (CallHomeDir username) (HomeDir p username) in
  match err with
  | Some _ => ret (Some (WrapError err "Error finding home dir for user"))
  | None =>
      let sshPath := filepath_Join [homeDir; ".ssh"] in
      call! _ := invoke (CallMkdirAll sshPath 448) (MkdirAll p sshPath 448) in
      call! _ := invoke (CallChown sshPath username) (Chown p sshPath username) in
      let authKeysPath := filepath_Join [sshPath; "authorized_keys"] in
      call! (_, err) :=
        invoke (Core (CallWriteToFile authKeysPath publicKey))
               (WriteToFile (fs (core p)) authKeysPath publicKey) in
      match err with
      | Some _ => ret (Some (WrapError err "Error creating authorized_keys file"))
      | None =>
          call! _ := invoke (CallChown authKeysPath username)
                            (Chown p authKeysPath username) in
          call! _ := invoke (CallChmod authKeysPath 384) (Chmod p authKeysPath 384) in
          ret err
      end
  end.

(** The loop of [findPossibleDevice] over the possible prefixes. *)
Fixpoint try_prefixes (p : ubuntu) (pathSuffix : string) (prefixes : list string) :
  M (string * bool) :=
  match prefixes with
  | [] => ret ("", false)
  | prefix :: rest =>
      let path := prefix +:+ pathSuffix in
      call! found := invoke (CallFileExists path) (FileExists p path) in
      if (found : bool) then ret (path, true)
      else try_prefixes p pathSuffix rest
  end.

(** [ubuntu.findPossibleDevice]; the index expression panics when the
    split has one piece only. *)
Definition findPossibleDevice (p : ubuntu) (devicePath : string) : M (run (string * bool)) :=
  match Split devicePath "/dev/sd" !! 1%nat with
  | None => ret (Panicked "index out of range [1] with length 1")
  | Some pathSuffix =>
      call! r := try_prefixes p pathSuffix ["/dev/xvd"; "/dev/vd"; "/dev/sd"] in
      ret (Finished r)
  end.

(** The loop [for !found { ... }] of [getRealDevicePath], entered after a
    probe that did not find the device; [fuel] bounds the number of
    iterations. *)
Fixpoint wait_for_device (fuel : nat) (p : ubuntu) (devicePath : string)
         (stopAfter : Z) : M (run (string * option error)) :=
  match fuel with
  | O => ret OutOfFuel
  | S fuel =>
      call! now := invoke CallNow (Now p) in
      if (now >? stopAfter)%Z then
        ret (Finished ("", Some (New ("Timed out getting real device path for "
                                        +:+ devicePath))))
      else
        call! _ := invoke_ (CallSleep 100000000) (Sleep p 100000000) in
        call! r := findPossibleDevice p devicePath in
        match r with
        | Finished (realPath, true) => ret (Finished (realPath, None))
        | Finished (_, false) => wait_for_device fuel p devicePath stopAfter
        | Panicked msg => ret (Panicked msg)
        | OutOfFuel => ret OutOfFuel
        end
  end.

(** [ubuntu.getRealDevicePath] *)
Definition getRealDevicePath (fuel : nat) (p : ubuntu) (devicePath : string) :
  M (run (string * option error)) :=
  call! now := invoke CallNow (Now p) in
  let stopAfter := (now + diskWaitTimeout p)%Z in
  call! r := findPossibleDevice p devicePath in
  match r with
  | Finished (realPath, true) => ret (Finished (realPath, None))
  | Finished (_, false) => wait_for_device fuel p devicePath stopAfter
  | Panicked msg => ret (Panicked msg)
  | OutOfFuel => ret OutOfFuel
  end.

(** The steps of [SetupEphemeralDiskWithPath] that follow the sizing: each
    returns at the first error. *)
Definition partition_format_mount (p : ubuntu) (realPath mountPoint : string)
           (swapSize linuxSize : Z) : M (option error) :=
  let partitions := [ {| SizeInBlocks := swapSize; Type_ := PartitionTypeSwap |};
                      {| SizeInBlocks := linuxSize; Type_ := PartitionTypeLinux |} ] in
  call! err := invoke (CallPartition realPath partitions)
                      (Partition_ p realPath partitions) in
  match err with
  | Some _ => ret err
  | None =>
      let swapPartitionPath := realPath +:+ "1" in
      let dataPartitionPath := realPath +:+ "2" in
      call! err := invoke (CallFormat swapPartitionPath FileSystemSwap)
                          (Format p swapPartitionPath FileSystemSwap) in
      match err with
      | Some _ => ret err
      | None =>
          call! err := invoke (CallFormat dataPartitionPath FileSystemExt4)
                              (Format p dataPartitionPath FileSystemExt4) in
          match err with
          | Some _ => ret err
          | None =>
              call! err := invoke (CallSwapOn swapPartitionPath)
                                  (SwapOn p swapPartitionPath) in
              match err with
              | Some _ => ret err
              | None =>
                  call! err := invoke (CallMount dataPartitionPath mountPoint)
                                      (Mount p dataPartitionPath mountPoint) in
                  match err with
                  | Some _ => ret err
                  | None =>
                      let logDir := filepath_Join [mountPoint; "sys"; "log"] in
                      call! err := invoke (CallMkdirAll logDir 488)
                                          (MkdirAll p logDir 488) in
                      match err with
                      | Some _ => ret err
                      | None =>
                          let runDir := filepath_Join [mountPoint; "sys"; "run"] in
                          call! err := invoke (CallMkdirAll runDir 488)
                                              (MkdirAll p runDir 488) in
                          ret err
                      end
                  end
              end
          end
      end
  end.

(** [ubuntu.SetupEphemeralDiskWithPath]; the mode is [0750]. *)
Definition SetupEphemeralDiskWithPath (fuel : nat) (p : ubuntu)
           (devicePath mountPoint : string) : M (run (option error)) :=
  call! _ := invoke (CallMkdirAll mountPoint 488) (MkdirAll p mountPoint 488) in
  call! r := getRealDevicePath fuel p devicePath in
  match r with
  | Panicked msg => ret (Panicked msg)
  | OutOfFuel => ret OutOfFuel
  | Finished (_, Some e) => ret (Finished (Some e))
  | Finished (realPath, None) =>
      call! (swapSize, linuxSize, err) :=
        lift_core (calculateEphemeralDiskPartitionSizes (core p) realPath) in
      match err with
      | Some _ => ret (Finished err)
      | None =>
          call! err := partition_format_mount p realPath mountPoint swapSize linuxSize in
          ret (Finished err)
      end
  end.

End Ubuntu.
End platform_setup.

(** ** Collaborator calls: what a run adds to the log *)

Module sys_views.

(** A computation appends to the log: started with any log, it behaves as
    when started with an empty log, and its calls come after those that
    were logged already. *)
Definition appends {W C A : Type} (m : M W C A) : Prop :=
  forall s,
    m s = let '(a, s0) := m {| world := world s; calls := [] |} in
          (a, {| world := world s0; calls := calls s ++ calls s0 |}).

End sys_views.

(** ** agent/script: the generic script *)

Module script.

(** [filepath.Split] with the separator "/": the directory is the path up
    to its last slash, the slash included, and the file is what
    follows. *)
Fixpoint filepath_Split (path : string) : string * string :=
  match path with
  | EmptyString => ("", "")
  | String c rest =>
      let '(dir, file) := filepath_Split rest in
      match dir with
      | String _ _ => (String c dir, file)
      | EmptyString =>
          if String.eqb (String c "") "/" then ("/", rest) else ("", String c rest)
      end
  end.

(** [os.O_RDWR | os.O_CREATE | os.O_APPEND] on Linux, and [0640]. *)
Definition fileOpenFlag : Z := Z.lor (Z.lor 2 64) 1024.
Definition fileOpenPerm : Z := 416.

(** A value of [options]: a [map[string]string], or a value of another
    type. *)
Inductive option_value : Type :=
| EnvMap (env : gmap string string)
| OtherValue.

Section Script.
(** The world of the collaborators and the files [OpenFile] returns. *)
Context {W File : Type}.

(** [boshsys.Command], as far as the script sets it; a nil [Env] is
    [None]. *)
Record Command : Type := {
  cmd_Name : string;
  cmd_Env : option (gmap string string);
  cmd_Stdout : option File;
  cmd_Stderr : option File
}.

(** [cmd.BuildCommand] *)
Variable BuildCommand : string -> Command.

(** The calls of the script on its collaborators. *)
Inductive call : Type :=
| CallFileExists (path : string)
| CallMkdirAll (path : string) (perm : Z)
| CallOpenFile (path : string) (flag perm : Z)
| CallClose (f : File)
| CallRunComplexCommand (command : Command).

Abbreviation M := (M W call).

(** [boshsys.FileSystem] and [boshsys.CmdRunner], with the methods the
    script calls, and [Close] of an opened file. *)
Record FileSystem : Type := {
  FileExists : string -> W -> bool * W;
  MkdirAll : string -> Z -> W -> option error * W;
  OpenFile : string -> Z -> Z -> W -> (File * option error) * W;
  Close : File -> W -> option error * W
}.

Record CmdRunner : Type := {
  RunComplexCommand : Command -> W -> (string * string * Z * option error) * W
}.

(** [type GenericScript struct]; a nil value in [options] is [None]. *)
Record GenericScript : Type := {
  gs_fs : FileSystem;
  gs_runner : CmdRunner;
  tag : string;
  path : string;
  stdoutLogPath : string;
  stderrLogPath : string;
  options : gmap string (option option_value)
}.

(** [NewScript] *)
Definition NewScript (fs : FileSystem) (runner : CmdRunner) (tag path : string)
           (stdoutLogPath stderrLogPath : string)
           (options : gmap string (option option_value)) : GenericScript :=
  {| gs_fs := fs; gs_runner := runner; tag := tag; path := path;
     stdoutLogPath := stdoutLogPath; stderrLogPath := stderrLogPath;
     options := options |}.

Definition Tag (s : GenericScript) : string := tag s.
Definition Path (s : GenericScript) : string := path s.

(** [GenericScript.Exists] *)
Definition Exists (s : GenericScript) : M bool :=
  invoke (CallFileExists (path s)) (FileExists (gs_fs s) (path s)).

(** [GenericScript.ensureContainingDir]; the mode is [0750]. *)
Definition ensureContainingDir (s : GenericScript) (fullLogFilename : string) :
  M (option error) :=
  let '(dir, _) := filepath_Split fullLogFilename in
  invoke (CallMkdirAll dir 488) (MkdirAll (gs_fs s) dir 488).

(** [s.options["env"]], nil when the key is missing. *)
Definition options_env (s : GenericScript) : option option_value :=
  match options s !! "env" with
  | Some v => v
  | None => None
  end.

(** The loop [for key, val := range env { command.Env[key] = val }]: an
    assignment to an entry of a nil map panics. *)
Definition add_env (env : gmap string string) (command : Command) :
  fakesys.outcome Command :=
  if decide (env = ∅) then fakesys.Returns command
  else
    match cmd_Env command with
    | None => fakesys.Panics "assignment to entry in nil map"
    | Some cenv =>
        fakesys.Returns
          {| cmd_Name := cmd_Name command; cmd_Env := Some (env ∪ cenv);
             cmd_Stdout := cmd_Stdout command; cmd_Stderr := cmd_Stderr command |}
    end.

(** The statement [if s.options["env"] != nil { ... }]: the command to
    run, the error of a value that is not a [map[string]string], or a
    panic. *)
Definition apply_env (s : GenericScript) (command : Command) :
  fakesys.outcome (Command + error) :=
  match options_env s with
  | None => fakesys.Returns (inl command)
  | Some (EnvMap env) =>
      match add_env env command with
      | fakesys.Returns command => fakesys.Returns (inl command)
      | fakesys.Panics msg => fakesys.Panics msg
      end
  | Some OtherValue =>
      fakesys.Returns (inr (New "failed to parse Environment Variables in script"))
  end.

(** [GenericScript.Run]. The deferred [Close] calls run when the function
    returns or panics, the one deferred last first; their errors are
    dropped. *)
Definition Run (s : GenericScript) : M (fakesys.outcome (option error)) :=
  call! err := ensureContainingDir s (stdoutLogPath s) in
  match err with
  | Some _ => ret (fakesys.Returns err)
  | None =>
  call! err := ensureContainingDir s (stderrLogPath s) in
  match err with
  | Some _ => ret (fakesys.Returns err)
  | None =>
  call! (stdoutFile, err) :=
    invoke (CallOpenFile (stdoutLogPath s) fileOpenFlag fileOpenPerm)
           (OpenFile (gs_fs s) (stdoutLogPath s) fileOpenFlag fileOpenPerm) in
  match err with
  | Some _ => ret (fakesys.Returns err)
  | None =>
  let close_stdout := invoke (CallClose stdoutFile) (Close (gs_fs s) stdoutFile) in
  call! (stderrFile, err) :=
    invoke (CallOpenFile (stderrLogPath s) fileOpenFlag fileOpenPerm)
           (OpenFile (gs_fs s) (stderrLogPath s) fileOpenFlag fileOpenPerm) in
  match err with
  | Some _ => call! _ := close_stdout in ret (fakesys.Returns err)
  | None =>
  let close_stderr := invoke (CallClose stderrFile) (Close (gs_fs s) stderrFile) in
  let closing (r : fakesys.outcome (option error)) :=
    call! _ := close_stderr in
    call! _ := close_stdout in
    ret r in
  let command := BuildCommand (path s) in
  let command := {| cmd_Name := cmd_Name command; cmd_Env := cmd_Env command;
                    cmd_Stdout := Some stdoutFile; cmd_Stderr := Some stderrFile |} in
  match apply_env s command with
  | fakesys.Panics msg => closing (fakesys.Panics msg)
  | fakesys.Returns (inr e) => closing (fakesys.Returns (Some e))
  | fakesys.Returns (inl command) =>
      call! (_, _, _, err) :=
        invoke (CallRunComplexCommand command)
               (RunComplexCommand (gs_runner s) command) in
      closing (fakesys.Returns err)
  end
  end end end end.

End Script.
End script.

(** ** Fakes: collaborators for concrete runs *)

Module fakes.

(** The fake world: the files of the fake file system, by path. *)
Abbreviation FakeWorld := (gmap string string).

(** A compiler that answers with a fixed blob id, digest and error. *)
Definition FakeCompiler (blobID digest : string) (err : option error) :
  @action.Compiler string FakeWorld :=
  {| action.Compile := fun _ _ w => ((blobID, digest, err), w) |}.

(** A copier that copies to a fixed temporary directory. *)
Definition FakeCopier (tmpDir : string) (err : option error) :
  @action.Copier FakeWorld :=
  {| action.FilteredCopyToTemp := fun _ _ w => ((tmpDir, err), <[tmpDir := "copied"]> w);
     action.Copier_CleanUp := fun dir w => delete dir w |}.

(** A compressor that writes a fixed tarball. *)
Definition FakeCompressor (tarball : string) (err : option error) :
  @action.Compressor FakeWorld :=
  {| action.CompressFilesInDir := fun _ w => ((tarball, err), <[tarball := "tgz"]> w);
     action.Compressor_CleanUp := fun path w => (None, delete path w) |}.

(** A blobstore that stores under a fixed blob id. *)
Definition FakeBlobstore (blobID digest : string) (err : option error) :
  @action.BlobstoreDelegator string FakeWorld :=
  {| action.Write := fun _ path _ w => ((blobID, digest, err), <[blobID := path]> w) |}.

Definition FakeProvider : action.Provider :=
  {| action.LogsDir := "/var/vcap/sys/log";
     action.AgentLogsDir := "/var/vcap/bosh/log" |}.

Definition FakeFetchLogs : @action.FetchLogsAction string FakeWorld :=
  action.NewFetchLogs (FakeCompressor "/tmp/logs.tgz" None) (FakeCopier "/tmp/logs" None)
                     (FakeBlobstore "blob-1" "da39a3ee" None) FakeProvider.

(** A stats collector that reports a fixed total of memory. *)
Definition FakeStatsCollector (total : Z) : @platform.StatsCollector FakeWorld :=
  {| platform.GetMemStats := fun w => (({| platform.Used := 0; platform.Total := total |}, None), w) |}.

(** A partitioner that reports a fixed device size. *)
Definition FakePartitioner (size : Z) : @platform.Partitioner FakeWorld :=
  {| platform.GetDeviceSizeInBlocks := fun _ w => ((size, None), w) |}.

(** A file system whose [WriteToFile] writes when the contents differ. *)
Definition FakeFileSystem : @platform.FileSystem FakeWorld :=
  {| platform.WriteToFile := fun path content w =>
       if decide (w !! path = Some content) then ((false, None), w)
       else ((true, None), <[path := content]> w) |}.

(** A file system whose [WriteToFile] answers with a fixed result. *)
Definition StubFileSystem (written : bool) (err : option error) :
  @platform.FileSystem FakeWorld :=
  {| platform.WriteToFile := fun _ _ w => ((written, err), w) |}.

Definition FakeCmdRunner : @platform.CmdRunner FakeWorld :=
  {| platform.RunCommand := fun _ _ w => (("", "", None), w) |}.

Definition FakeUbuntu (total size : Z) : @platform.ubuntu FakeWorld :=
  {| platform.collector := FakeStatsCollector total;
     platform.fs := FakeFileSystem;
     platform.cmdRunner := FakeCmdRunner;
     platform.partitioner := FakePartitioner size |}.

(** Networks as a list; the only network is the default for every
    category. *)
Definition FakeDefaultNetworkFor (networks : list platform.NetworkSettings)
           (category : string) : platform.NetworkSettings * bool :=
  match networks with
  | [n] => (n, true)
  | _ => ({| platform.Dns := [] |}, false)
  end.

(** A registry with the fetch-logs action: asynchronous for every
    version, not persistent, not cancelable, not resumable, loggable. *)
Definition FakeRegistry : gmap string task.Action :=
  {[ "fetch_logs" := {| task.asynchronous := fun _ => true;
                        task.persistent := false;
                        task.cancelable := false;
                        task.resumable := false;
                        task.loggable := true |} ]}.

End fakes.

(** ** Fixtures: a populated fake file system *)

Module fixtures.
Import fakesys.

(** The part of a path before its last slash, if it has a slash. *)
Fixpoint before_last_slash (s : string) : option string :=
  match s with
  | EmptyString => None
  | String c rest =>
      match before_last_slash rest with
      | Some d => Some (String c d)
      | None => if String.eqb (String c "") "/" then Some "" else None
      end
  end.

(** [filepath.Dir] on a path that is already clean. *)
Definition CleanDir (path : string) : string :=
  match before_last_slash path with
  | Some EmptyString => "/"
  | Some d => d
  | None => "."
  end.

(** A directory /data with a directory logs, a log file in it and a file
    logs2 next to it. *)
Definition SampleFs : FakeFileSystem :=
  let fs := snd (MkdirAll "/data" 493 NewFakeFileSystem) in
  let fs := snd (MkdirAll "/data/logs" 493 fs) in
  let fs := snd (WriteFile "/data/logs/x.log" "started" fs) in
  snd (WriteFile "/data/logs2" "rotated" fs).

End fixtures.

(** ** platform: what the set-up of the ephemeral disk is stated with *)

Module platform_setup_views.
Import platform_setup.

Section Steps.
Variable filepath_Join : list string -> string.

(** The seven steps after the sizing, on a device and a mount point. *)
Definition seven_steps (realPath mountPoint : string) (swapSize linuxSize : Z) : list call :=
  [ CallPartition realPath
      [ {| SizeInBlocks := swapSize; Type_ := PartitionTypeSwap |};
        {| SizeInBlocks := linuxSize; Type_ := PartitionTypeLinux |} ];
    CallFormat (realPath +:+ "1") FileSystemSwap;
    CallFormat (realPath +:+ "2") FileSystemExt4;
    CallSwapOn (realPath +:+ "1");
    CallMount (realPath +:+ "2") mountPoint;
    CallMkdirAll (filepath_Join [mountPoint; "sys"; "log"]) 488;
    CallMkdirAll (filepath_Join [mountPoint; "sys"; "run"]) 488 ].

End Steps.
End platform_setup_views.

(** ** Fixtures: a fake Ubuntu platform *)

Module fixtures_platform.
Import platform_setup.

(** [filepath.Join] on elements that are clean and not empty. *)
Definition CleanJoin (elems : list string) : string := String.concat "/" elems.

(** A platform over the fake world: a path exists when the world has it;
    directories are recorded in the world; the disk tools succeed; the
    clock stands still. *)
Definition FakeUbuntuSetup (total size : Z) (partErr : option error) :
  @ubuntu fakes.FakeWorld :=
  {| core := fakes.FakeUbuntu total size;
     HomeDir := fun username w => (("/home/" +:+ username, None), w);
     MkdirAll := fun path _ w => (None, <[path := "dir"]> w);
     Chown := fun _ _ w => (None, w);
     Chmod := fun _ _ w => (None, w);
     FileExists := fun path w => (bool_decide (is_Some (w !! path)), w);
     Partition_ := fun _ _ w => (partErr, w);
     Format := fun _ _ w => (None, w);
     SwapOn := fun _ w => (None, w);
     Mount := fun _ _ w => (None, w);
     diskWaitTimeout := 180000000000;
     Now := fun w => (0%Z, w);
     Sleep := fun _ w => w |}.

(** A world with the virtual disk /dev/vdb. *)
Definition WorldWithVdb : fakes.FakeWorld := {[ "/dev/vdb" := "disk" ]}.

End fixtures_platform.

(** ** agent/script: what the runs of the script are stated with *)

Module script_views.
Import script.

Section Views.
Context {W File : Type}.

(** The calls that set a run up: the two directories, then the two log
    files. *)
Definition setup_calls (s : @GenericScript W File) : list (@call File) :=
  [ CallMkdirAll (fst (filepath_Split (stdoutLogPath s))) 488;
    CallMkdirAll (fst (filepath_Split (stderrLogPath s))) 488;
    CallOpenFile (stdoutLogPath s) fileOpenFlag fileOpenPerm;
    CallOpenFile (stderrLogPath s) fileOpenFlag fileOpenPerm ].

(** A run that was set up, ran [command] in the world [w] and closed its
    two files: it returns the error of the runner. *)
Definition ran (s : @GenericScript W File) (command : Command) (w : W)
           (outF errF : File) (before : list call)
           (r : fakesys.outcome (option error)) (after : list call) : Prop :=
  let '(_, _, _, runErr, _) := RunComplexCommand (gs_runner s) command w in
  r = fakesys.Returns runErr /\
  after = before ++ setup_calls s ++
          [CallRunComplexCommand command; CallClose errF; CallClose outF].

(** A run that was set up and closed its two files without running a
    command. *)
Definition not_run (s : @GenericScript W File) (outF errF : File)
           (before after : list call) : Prop :=
  after = before ++ setup_calls s ++ [CallClose errF; CallClose outF].

End Views.
End script_views.

(** ** Fixtures: a fake script *)

Module fixtures_script.
Import script.

(** A file system whose files are their paths, and a runner that fails. *)
Definition FakeScriptFs : @FileSystem fakes.FakeWorld string :=
  {| FileExists := fun path w => (bool_decide (is_Some (w !! path)), w);
     MkdirAll := fun path _ w => (None, <[path := "dir"]> w);
     OpenFile := fun path _ _ w => ((path, None), <[path := "open"]> w);
     Close := fun f w => (None, <[f := "closed"]> w) |}.

Definition FakeRunner (err : option error) : @CmdRunner fakes.FakeWorld string :=
  {| RunComplexCommand := fun _ w => (("", "", 1%Z, err), w) |}.

(** [cmd.BuildCommand] on Linux: the script with a default PATH. *)
Definition LinuxBuildCommand (path : string) : @Command string :=
  {| cmd_Name := path;
     cmd_Env := Some {[ "PATH" := "/usr/sbin:/usr/bin:/sbin:/bin" ]};
     cmd_Stdout := None; cmd_Stderr := None |}.

(** A drain script with an environment of its own. *)
Definition DrainScript : @GenericScript fakes.FakeWorld string :=
  NewScript FakeScriptFs (FakeRunner (Some (New "exit status 1")))
            "myjob" "/var/vcap/jobs/myjob/bin/drain"
            "/var/vcap/sys/log/myjob/drain.stdout.log"
            "/var/vcap/sys/log/myjob/drain.stderr.log"
            {[ "env" := Some (EnvMap {[ "PATH" := "/var/vcap/bin"; "JOB" := "myjob" ]}) ]}.

End fixtures_script.

(** * Properties *)

(** ** The actions *)

Module action_spec.
Import action.

Section Capabilities.
Context {MultipleDigest W : Type}.
Implicit Types (a : @CompilePackageWithSignedURL MultipleDigest W)
               (b : @FetchLogsAction MultipleDigest W).

(** C3: for every protocol version, the compile-package and the
    fetch-logs actions are asynchronous. *)
Theorem IsAsynchronous_every_version a b (v : ProtocolVersion) :
  CompilePackageWithSignedURL_IsAsynchronous a v = true /\
  FetchLogsAction_IsAsynchronous b v = true.
Proof. split; reflexivity. Qed.

(** C4: the cancellation hooks of the compile-package and the fetch-logs
    actions always fail, with an error whose message is "not supported". *)
Theorem Cancel_not_supported a b :
  (exists e, CompilePackageWithSignedURL_Cancel a = Some e /\
             Error e = "not supported") /\
  (exists e, FetchLogsAction_Cancel b = Some e /\ Error e = "not supported").
Proof. split; eexists; split; reflexivity. Qed.

(** C5: the resume entry points of the compile-package and the fetch-logs
    actions return a nil value and an error whose message is
    "not supported". *)
Theorem Resume_not_supported a b :
  (exists e, CompilePackageWithSignedURL_Resume a = (None, Some e) /\
             Error e = "not supported") /\
  (exists e, FetchLogsAction_Resume b = (None, Some e) /\
             Error e = "not supported").
Proof. split; eexists; split; reflexivity. Qed.

(** C6: the compile-package and the fetch-logs actions are never
    persistent. *)
Theorem IsPersistent_never a b :
  CompilePackageWithSignedURL_IsPersistent a = false /\
  FetchLogsAction_IsPersistent b = false.
Proof. split; reflexivity. Qed.

(** C7: the compile-package and the fetch-logs actions are always
    loggable. *)
Theorem IsLoggable_always a b :
  CompilePackageWithSignedURL_IsLoggable a = true /\
  FetchLogsAction_IsLoggable b = true.
Proof. split; reflexivity. Qed.

End Capabilities.

Section Run.
Context {MultipleDigest W : Type}.
Variable Digest_String : MultipleDigest -> string.
Implicit Types (a : @CompilePackageWithSignedURL MultipleDigest W)
               (b : @FetchLogsAction MultipleDigest W)
               (s : Sys W (call (@Package MultipleDigest) (@ModelsPackage MultipleDigest))).

(** The map of a successful compilation is not empty. *)
Lemma result_map_nonempty (m : gmap string iface) :
  ({[ "result" := IMap m ]} : gmap string iface) <> ∅.
Proof. apply insert_non_empty. Qed.

(** Concatenation of strings is associative. *)
Lemma append_assoc (x y z : string) : (x +:+ y) +:+ z = x +:+ y +:+ z.
Proof.
  induction x as [|c x IH]; [reflexivity|].
  change (String c ((x +:+ y) +:+ z) = String c (x +:+ y +:+ z)).
  f_equal. exact IH.
Qed.

(** A wrapped error prints its message, a colon and the cause. *)
Lemma WrapErrorf_message (cause : error) (prefix arg : string) :
  Error (WrapErrorf (Some cause) prefix arg) = prefix +:+ arg +:+ ": " +:+ Error cause.
Proof.
  unfold WrapErrorf, WrapComplexError, Error_, New. simpl.
  apply append_assoc.
Qed.

(** C1: [Run] calls the compiler once, on the package and dependencies of
    the request, and yields exactly one of a result and a failure: when
    the compiler succeeds, the map [{"result": {"sha1": digest}}] of the
    uploaded digest and no error; when it fails, the empty map and an
    error that prints as "Compiling package <name>: <the compiler's
    error>". A non-empty map never comes with an error. *)
Theorem Run_result_or_failure a (request : CompilePackageWithSignedURLRequest) s :
  let pkg := request_pkg request in
  let modelsDeps := append_deps [] (req_Deps request) in
  let '(_, uploadedDigest, compileErr, w') :=
    Compile (compiler a) pkg modelsDeps (world s) in
  let '(value, err, s') := CompilePackageWithSignedURL_Run Digest_String a request s in
  world s' = w' /\
  calls s' = (calls s ++ [CallCompile pkg modelsDeps])%list /\
  match compileErr with
  | None =>
      value = {[ "result" :=
                   IMap {[ "sha1" := IString (Digest_String uploadedDigest) ]} ]} /\
      err = None
  | Some cause =>
      value = ∅ /\
      exists e, err = Some e /\
                Error e = "Compiling package " +:+ req_Name request +:+ ": " +:+ Error cause
  end /\
  (err = None <-> value <> ∅).
Proof.
  intros pkg modelsDeps.
  unfold CompilePackageWithSignedURL_Run, bind, invoke. fold pkg modelsDeps.
  destruct (Compile (compiler a) pkg modelsDeps (world s))
    as [[[blobID uploadedDigest] [cause|]] w'] eqn:HC; simpl.
  - split; [reflexivity|]. split; [reflexivity|]. split.
    + split; [reflexivity|]. eexists. split; [reflexivity|].
      apply (WrapErrorf_message cause "Compiling package " (req_Name request)).
    + split; [discriminate|]. intros H. exfalso. apply H. reflexivity.
  - split; [reflexivity|]. split; [reflexivity|]. split.
    + split; reflexivity.
    + split; [intros _; apply result_map_nonempty | reflexivity].
Qed.

(** Any log type other than "job" and "agent" is refused by the switch. *)
Lemma select_logs_invalid b (logType : string) (filters : list string) :
  logType <> "job" -> logType <> "agent" ->
  select_logs b logType filters = inr (Error_ "Invalid log type").
Proof.
  intros Hj Ha. unfold select_logs.
  destruct (String.eqb_spec logType "job") as [->|_]; [contradiction|].
  destruct (String.eqb_spec logType "agent") as [->|_]; [contradiction|].
  reflexivity.
Qed.

(** C9: for a log type other than "job" and "agent", [Run] returns a nil
    value and the error "Invalid log type", and it leaves the world of the
    collaborators and the log of their calls as they were: nothing is
    copied, compressed or written to the blobstore. *)
Theorem FetchLogs_Run_invalid_log_type b (logType : string) (filters : list string) s :
  logType <> "job" -> logType <> "agent" ->
  exists e,
    FetchLogsAction_Run Digest_String b logType filters s = ((None, Some e), s) /\
    Error e = "Invalid log type".
Proof.
  intros Hj Ha. exists (Error_ "Invalid log type"). split; [|reflexivity].
  unfold FetchLogsAction_Run. rewrite (select_logs_invalid b logType filters Hj Ha).
  reflexivity.
Qed.

End Run.

(** C9 at the log type "system" on the fake collaborators. *)
Lemma FetchLogs_Run_invalid_log_type_witness :
  exists e,
    FetchLogsAction_Run (fun d : string => d) fakes.FakeFetchLogs "system" ["*.log"]
                        (start ∅) = ((None, Some e), start ∅) /\
    Error e = "Invalid log type".
Proof.
  apply (FetchLogs_Run_invalid_log_type (fun d : string => d) fakes.FakeFetchLogs
           "system" ["*.log"] (start ∅)); discriminate.
Defined.

(** The fetch-logs action on the fake collaborators: the "job" logs are
    copied, compressed, stored, and the temporary files removed, the
    tarball before the directory. *)
Example FetchLogs_Run_job :
  FetchLogsAction_Run (fun d : string => d) fakes.FakeFetchLogs "job" [] (start ∅) =
  ((Some {[ "blobstore_id" := "blob-1"; "sha1" := "da39a3ee" ]}, None),
   {| world := {[ "blob-1" := "/tmp/logs.tgz" ]};
      calls := [ CallFilteredCopyToTemp "/var/vcap/sys/log" ["**/*"];
                 CallCompressFilesInDir "/tmp/logs";
                 CallBlobstoreWrite "" "/tmp/logs.tgz";
                 CallCompressorCleanUp "/tmp/logs.tgz";
                 CallCopierCleanUp "/tmp/logs" ] |}).
Proof. vm_compute. reflexivity. Qed.

(** The compile-package action on a fake compiler that uploads a blob:
    the dependencies reach the compiler in the order of the request. *)
Example Run_compiling :
  let a := NewCompilePackageWithSignedURL (fakes.FakeCompiler "blob-2" "f572d396" None) in
  let dep := {| BlobstoreID := "blob-0"; Name := "fake-dep-1"; Sha1 := "236cbd31";
                Version := "1"; PackageGetSignedURL := "https://dep";
                UploadSignedURL := "" |} in
  let request := {| req_PackageGetSignedURL := "https://get"; req_UploadSignedURL := "https://put";
                    req_Digest := "236cbd31"; req_Name := "fake"; req_Version := "1";
                    req_Deps := [("fake-dep-1", dep)] |} in
  let '(value, err, s') := CompilePackageWithSignedURL_Run (fun d : string => d) a request (start ∅) in
  value = {[ "result" := IMap {[ "sha1" := IString "f572d396" ]} ]} /\
  err = None /\
  calls s' = [ CallCompile (request_pkg request)
                 [ {| mp_Name := "fake-dep-1"; mp_Version := "1";
                      mp_Source := {| Source_Sha1 := "236cbd31";
                                      Source_BlobstoreID := "blob-0";
                                      Source_SignedURL := "https://dep" |} |} ] ].
Proof. vm_compute. repeat (apply conj); reflexivity. Qed.

(** The compile-package action on a failing fake compiler. *)
Example Run_failing_compiler :
  let a := NewCompilePackageWithSignedURL
             (fakes.FakeCompiler "" "" (Some (New "exit status 1"))) in
  let request := {| req_PackageGetSignedURL := "https://get"; req_UploadSignedURL := "https://put";
                    req_Digest := "236cbd31"; req_Name := "fake"; req_Version := "1";
                    req_Deps := [] |} in
  let '(value, err, _) := CompilePackageWithSignedURL_Run (fun d : string => d) a request (start ∅) in
  value = ∅ /\ (Error <$> err) = Some "Compiling package fake: exit status 1".
Proof. vm_compute. apply conj; reflexivity. Qed.

End action_spec.

(** ** The Ubuntu platform *)

Module platform_spec.
Import platform.

(** The backwards loop appends the first [n] servers in reverse. *)
Lemma append_dns_backwards_take (dns : list string) (n : nat) (acc : list string) :
  n <= length dns ->
  append_dns_backwards dns n acc = acc ++ rev (take n dns).
Proof.
  revert acc. induction n as [|i IH]; intros acc Hn; simpl.
  - now rewrite app_nil_r.
  - rewrite IH by lia.
    assert (Hi : dns !! i = Some (nth i dns "")).
    { destruct (nth_lookup_or_length dns i "") as [H|H]; [exact H | lia]. }
    rewrite (take_S_r dns i _ Hi), rev_app_distr. simpl.
    now rewrite <- app_assoc.
Qed.

(** The backwards loop over the whole list reverses it. *)
Lemma append_dns_backwards_rev (dns : list string) :
  append_dns_backwards dns (length dns) [] = rev dns.
Proof.
  rewrite append_dns_backwards_take by lia. now rewrite firstn_all.
Qed.

(** The range of the template renders one line per server, in order. *)
Lemma Execute_DHCP_CONFIG_TEMPLATE (servers : list string) :
  Execute DHCP_CONFIG_TEMPLATE {| DnsServers := servers |} =
  (DHCP_CONFIG_HEADER +:+ String.concat "" (map prepend_line servers), None).
Proof.
  unfold Execute, DHCP_CONFIG_TEMPLATE. reflexivity.
Qed.

Section Ubuntu.
Context {W Networks : Type}.
Variable DefaultNetworkFor : Networks -> string -> NetworkSettings * bool.
Implicit Types (p : @ubuntu W) (s : Sys W call).

(** C10: [SetupDhcp] writes to /etc/dhcp3/dhclient.conf the header of the
    template followed by one "prepend domain-name-servers" line per DNS
    server of the default dns network, in the reverse of their configured
    order (no line when there is no such network). It returns the error
    of the write. The two commands "pkill dhclient3" and
    "/etc/init.d/networking restart" are run, in this order and right
    after the write, if and only if the write succeeded and reported that
    it changed the file; otherwise no command is run. *)
Theorem SetupDhcp_change_driven p (networks : Networks) s :
  let '(dnsNetwork, found) := DefaultNetworkFor networks "dns" in
  let servers := if found then rev (Dns dnsNetwork) else [] in
  let config := DHCP_CONFIG_HEADER +:+ String.concat "" (map prepend_line servers) in
  let '(written, writeErr, w1) :=
    WriteToFile (fs p) "/etc/dhcp3/dhclient.conf" config (world s) in
  let changed := match writeErr with None => written | Some _ => false end in
  let pkill := CallRunCommand "pkill" ["dhclient3"] in
  let restart := CallRunCommand "/etc/init.d/networking" ["restart"] in
  let '(err, s') := SetupDhcp DefaultNetworkFor p networks s in
  err = writeErr /\
  calls s' = calls s ++ CallWriteToFile "/etc/dhcp3/dhclient.conf" config ::
                        (if changed then [pkill; restart] else []) /\
  (In pkill (skipn (length (calls s)) (calls s')) <-> changed = true) /\
  (In restart (skipn (length (calls s)) (calls s')) <-> changed = true) /\
  world s' =
    if changed
    then snd (RunCommand (cmdRunner p) "/etc/init.d/networking" ["restart"]
                (snd (RunCommand (cmdRunner p) "pkill" ["dhclient3"] w1)))
    else w1.
Proof.
  unfold SetupDhcp.
  destruct (DefaultNetworkFor networks "dns") as [dnsNetwork found].
  set (servers := if found then rev (Dns dnsNetwork) else []).
  assert (Hs : (if found
                then append_dns_backwards (Dns dnsNetwork) (length (Dns dnsNetwork)) []
                else []) = servers).
  { unfold servers. destruct found; [apply append_dns_backwards_rev | reflexivity]. }
  rewrite Hs, Execute_DHCP_CONFIG_TEMPLATE.
  set (config := DHCP_CONFIG_HEADER +:+ String.concat "" (map prepend_line servers)).
  unfold bind, invoke, ret.
  destruct (WriteToFile (fs p) "/etc/dhcp3/dhclient.conf" config (world s))
    as [[written [e|]] w1]; cbn [world calls].
  - rewrite drop_app_length. cbn.
    repeat split; try discriminate; intros [H|[]]; discriminate.
  - destruct written; cbn [world calls].
    + destruct (RunCommand (cmdRunner p) "pkill" ["dhclient3"] w1) as [r1 w2].
      cbn [world calls snd].
      destruct (RunCommand (cmdRunner p) "/etc/init.d/networking" ["restart"] w2)
        as [r2 w3].
      cbn [world calls snd].
      rewrite <- !app_assoc. cbn [app].
      rewrite drop_app_length. cbn.
      repeat split; auto.
    + rewrite drop_app_length. cbn.
      repeat split; try discriminate; intros [H|[]]; discriminate.
Qed.

(** In range, the memory in blocks is twice the memory in kilobytes. *)
Lemma wrap_uint64_small (z : Z) :
  (0 <= z < uint64_modulus)%Z -> wrap_uint64 z = z.
Proof. intros H. unfold wrap_uint64. now apply Z.mod_small. Qed.

(** C8, as amended: when the statistics and the device size are read
    without error, [calculateEphemeralDiskPartitionSizes] returns no
    error, [linuxSize = D - swapSize], [swapSize + linuxSize = D] and
    [swapSize <= D / 2 <= D]; and when the memory in bytes, [M * 1024],
    fits 64 bits, [swapSize] is [D / 2] if [M * 1024 / 512 > D / 2] and
    [M * 1024 / 512] otherwise. *)
Theorem calculateEphemeralDiskPartitionSizes_sizes
        p (devicePath : string) s (memStats : MemStats) (w1 : W) (D : Z) (w2 : W) :
  GetMemStats (collector p) (world s) = ((memStats, None), w1) ->
  GetDeviceSizeInBlocks (partitioner p) devicePath w1 = ((D, None), w2) ->
  is_uint64 (Total memStats) ->
  is_uint64 D ->
  exists swapSize linuxSize s',
    calculateEphemeralDiskPartitionSizes p devicePath s =
      ((swapSize, linuxSize, None), s') /\
    world s' = w2 /\
    ((Total memStats * 1024 < uint64_modulus)%Z ->
     swapSize = exact_swapSize (Total memStats) D) /\
    linuxSize = (D - swapSize)%Z /\
    (swapSize + linuxSize)%Z = D /\
    (0 <= swapSize <= D / 2)%Z /\
    (swapSize <= D)%Z.
Proof.
  intros HM HD [HM0 HM1] [HD0 HD1].
  unfold calculateEphemeralDiskPartitionSizes, bind, invoke, ret.
  rewrite HM. cbn [world calls]. rewrite HD.
  set (blocks := (wrap_uint64 (Total memStats * 1024) / 512)%Z).
  assert (Hb : (0 <= blocks)%Z).
  { unfold blocks, wrap_uint64, uint64_modulus.
    apply Z.div_pos; [|lia]. apply Z.mod_pos_bound. lia. }
  assert (Hhalf : (0 <= D / 2 <= D)%Z).
  { split; [apply Z.div_pos; lia | apply Z.div_le_upper_bound; lia]. }
  set (swapSize := if (blocks >? D / 2)%Z then (D / 2)%Z else blocks).
  assert (Hswap : (0 <= swapSize <= D / 2)%Z).
  { unfold swapSize. destruct (Z.gtb_spec blocks (D / 2)); lia. }
  assert (Hlinux : wrap_uint64 (D - swapSize) = (D - swapSize)%Z).
  { apply wrap_uint64_small. unfold uint64_modulus in *. lia. }
  eexists swapSize, (wrap_uint64 (D - swapSize)), _.
  split; [reflexivity|]. split; [reflexivity|]. rewrite Hlinux.
  split; [|repeat split; lia].
  intros Hfit. unfold swapSize, exact_swapSize, blocks.
  rewrite wrap_uint64_small by lia. reflexivity.
Qed.

End Ubuntu.

(** C8 on a machine with 4 GiB of memory and a disk of 10 GiB: the swap
    partition gets 4 GiB and the data partition the other 6 GiB. *)
Lemma calculateEphemeralDiskPartitionSizes_sizes_witness :
  exists swapSize linuxSize s',
    calculateEphemeralDiskPartitionSizes (fakes.FakeUbuntu 4194304 20971520)
                                         "/dev/sdb" (start ∅) =
      ((swapSize, linuxSize, None), s') /\
    world s' = ∅ /\
    ((4194304 * 1024 < uint64_modulus)%Z ->
     swapSize = exact_swapSize 4194304 20971520) /\
    linuxSize = (20971520 - swapSize)%Z /\
    (swapSize + linuxSize)%Z = 20971520%Z /\
    (0 <= swapSize <= 20971520 / 2)%Z /\
    (swapSize <= 20971520)%Z.
Proof.
  apply (calculateEphemeralDiskPartitionSizes_sizes
           (fakes.FakeUbuntu 4194304 20971520) "/dev/sdb" (start ∅)
           {| Used := 0; Total := 4194304 |} ∅ 20971520%Z ∅).
  - reflexivity.
  - reflexivity.
  - unfold is_uint64, uint64_modulus. simpl. lia.
  - unfold is_uint64, uint64_modulus. lia.
Defined.

(** C8 as stated fails where [M * 1024] exceeds 64 bits: with [2^54]
    kilobytes of memory and a disk of 1000 blocks the product wraps around
    to 0, so the swap size is 0 and not half the disk. *)
Lemma calculateEphemeralDiskPartitionSizes_wraps_around :
  let totalMemInKb := (2 ^ 54)%Z in
  let diskSizeInBlocks := 1000%Z in
  let '(swapSize, linuxSize, err, _) :=
    calculateEphemeralDiskPartitionSizes
      (fakes.FakeUbuntu totalMemInKb diskSizeInBlocks) "/dev/sdb" (start ∅) in
  is_uint64 totalMemInKb /\ is_uint64 diskSizeInBlocks /\
  err = None /\
  swapSize = 0%Z /\ linuxSize = 1000%Z /\
  exact_swapSize totalMemInKb diskSizeInBlocks = 500%Z /\
  swapSize <> exact_swapSize totalMemInKb diskSizeInBlocks.
Proof.
  vm_compute. repeat split; try discriminate; try reflexivity.
Qed.

(** [SetupDhcp] twice on the fake platform: the first run writes the
    configuration, with the servers in reverse order, and restarts the
    network; the second run finds the file as it is and runs nothing. *)
Example SetupDhcp_twice :
  let networks := [ {| Dns := ["10.0.0.2"; "10.0.0.3"] |} ] in
  let p := fakes.FakeUbuntu 0 0 in
  let config := DHCP_CONFIG_HEADER +:+ prepend_line "10.0.0.3" +:+ prepend_line "10.0.0.2" in
  let '(err1, s1) := SetupDhcp fakes.FakeDefaultNetworkFor p networks (start ∅) in
  let '(err2, s2) := SetupDhcp fakes.FakeDefaultNetworkFor p networks (start (world s1)) in
  err1 = None /\
  calls s1 = [ CallWriteToFile "/etc/dhcp3/dhclient.conf" config;
               CallRunCommand "pkill" ["dhclient3"];
               CallRunCommand "/etc/init.d/networking" ["restart"] ] /\
  world s1 !! "/etc/dhcp3/dhclient.conf" = Some config /\
  err2 = None /\
  calls s2 = [ CallWriteToFile "/etc/dhcp3/dhclient.conf" config ] /\
  world s2 !! "/etc/dhcp3/dhclient.conf" = Some config.
Proof. vm_compute. repeat (apply conj); reflexivity. Qed.

End platform_spec.

(** ** The task life cycle *)

Module task_spec.
Import task.

Section Manager.
Context {Value Payload : Type}.
Variable registry : gmap string Action.
Implicit Types (t : Task Value Payload) (m : Manager Value Payload)
               (o : op Value Payload) (ops : list (op Value Payload)).

(** No transition applies to a terminal task. *)
Lemma transition_terminal (st : State) v e t :
  terminal (state t) = true -> transition st v e t = t.
Proof. intros H. unfold transition. now rewrite H. Qed.

(** No checkpoint is written on a terminal task. *)
Lemma write_checkpoint_terminal (payload : Payload) t :
  terminal (state t) = true -> write_checkpoint payload t = t.
Proof. intros H. unfold write_checkpoint. now rewrite H. Qed.

(** Recovery leaves a terminal task as it is. *)
Lemma recover_task_terminal t :
  terminal (state t) = true -> recover_task registry t = t.
Proof.
  intros H. unfold recover_task.
  destruct (registry !! action_name t) as [a|];
    [destruct (resumable a)|]; auto using transition_terminal.
Qed.

(** The identifier generator never goes back. *)
Lemma step_next_id o m : next_id m <= next_id (snd (step registry o m)).
Proof.
  destruct o; simpl; try lia.
  - unfold dispatch. destruct (registry !! name) as [a|]; simpl; [|lia].
    destruct (asynchronous a protocolVersion); simpl; lia.
  - destruct (get i m); simpl; lia.
  - unfold cancel. destruct (table m !! i) as [t|]; simpl; [|lia].
    destruct (registry !! action_name t) as [a|]; simpl; [|lia].
    destruct (cancelable a); simpl; [|lia].
    destruct (terminal (state t)); simpl; lia.
Qed.

(** An update of a record keeps the identifiers of the table. *)
Lemma update_issued (j : nat) (f : Task Value Payload -> Task Value Payload) m :
  issued m -> issued (update j f m).
Proof.
  intros Hm i t. unfold update. simpl. rewrite lookup_alter.
  case_decide; [subst|]; [|apply Hm].
  destruct (table m !! i) as [t0|] eqn:E; simpl; [|discriminate].
  intros _. now apply (Hm i t0).
Qed.

(** Every step keeps the identifiers of the table below the generator. *)
Lemma step_issued o m : issued m -> issued (snd (step registry o m)).
Proof.
  intros Hm. destruct o; simpl; auto using update_issued.
  - unfold dispatch. destruct (registry !! name) as [a|]; simpl; [|exact Hm].
    destruct (asynchronous a protocolVersion); simpl; [|exact Hm].
    intros i t. simpl. rewrite lookup_insert. case_decide; [subst; lia|].
    intros Hi. apply Hm in Hi. lia.
  - destruct (get i m); exact Hm.
  - unfold cancel. destruct (table m !! i) as [t|]; simpl; [|exact Hm].
    destruct (registry !! action_name t) as [a|]; simpl; [|exact Hm].
    destruct (cancelable a); simpl; [|exact Hm].
    destruct (terminal (state t)); exact Hm.
  - intros j t. simpl. rewrite lookup_delete. case_decide; [discriminate|].
    apply Hm.
  - intros j t. simpl. rewrite lookup_fmap.
    destruct (table m !! j) as [t0|] eqn:E; simpl; [|discriminate].
    intros _. now apply (Hm j t0).
Qed.

(** A step other than forgetting the task leaves a terminal record as it
    is. *)
Lemma step_terminal_record o m (i : nat) t :
  issued m -> table m !! i = Some t -> terminal (state t) = true ->
  o <> Forget i ->
  table (snd (step registry o m)) !! i = Some t.
Proof.
  intros Hm Hi Ht Ho.
  assert (Hupd : forall j f, f t = t -> table (update j f m) !! i = Some t).
  { intros j f Hf. unfold update. simpl. rewrite lookup_alter.
    case_decide; [subst; rewrite Hi; simpl; now rewrite Hf | exact Hi]. }
  destruct o; cbn [step snd];
    try (apply Hupd; auto using transition_terminal, write_checkpoint_terminal);
    cbn [table].
  - unfold dispatch. destruct (registry !! name) as [a|]; simpl; [|exact Hi].
    destruct (asynchronous a protocolVersion); simpl; [|exact Hi].
    rewrite lookup_insert_ne; [exact Hi|]. apply Hm in Hi. lia.
  - destruct (get i0 m); exact Hi.
  - unfold cancel. destruct (table m !! i0) as [t0|]; simpl; [|exact Hi].
    destruct (registry !! action_name t0) as [a|]; simpl; [|exact Hi].
    destruct (cancelable a); simpl; [|exact Hi].
    destruct (terminal (state t0)); exact Hi.
  - rewrite lookup_delete_ne; [exact Hi|]. congruence.
  - rewrite lookup_fmap, Hi. simpl. now rewrite recover_task_terminal.
Qed.

(** An identifier that was issued and forgotten is never issued again. *)
Lemma step_forgotten o m (i : nat) :
  i < next_id m -> table m !! i = None ->
  table (snd (step registry o m)) !! i = None.
Proof.
  intros Hlt Hi.
  assert (Hupd : forall j f, table (update j f m) !! i = None).
  { intros j f. unfold update. simpl. rewrite lookup_alter.
    case_decide; [subst; now rewrite Hi | exact Hi]. }
  destruct o; cbn [step snd]; try apply Hupd; cbn [table].
  - unfold dispatch. destruct (registry !! name) as [a|]; simpl; [|exact Hi].
    destruct (asynchronous a protocolVersion); simpl; [|exact Hi].
    rewrite lookup_insert_ne; [exact Hi | lia].
  - destruct (get i0 m); exact Hi.
  - unfold cancel. destruct (table m !! i0) as [t0|]; simpl; [|exact Hi].
    destruct (registry !! action_name t0) as [a|]; simpl; [|exact Hi].
    destruct (cancelable a); simpl; [|exact Hi].
    destruct (terminal (state t0)); exact Hi.
  - rewrite lookup_delete. case_decide; [reflexivity | exact Hi].
  - now rewrite lookup_fmap, Hi.
Qed.

(** Once forgotten, a task stays unknown. *)
Lemma run_forgotten ops m (i : nat) :
  i < next_id m -> table m !! i = None ->
  table (run registry ops m) !! i = None.
Proof.
  revert m. induction ops as [|o ops IH]; intros m Hlt Hi; simpl; [exact Hi|].
  apply IH; [|now apply step_forgotten].
  pose proof (step_next_id o m). lia.
Qed.

(** A terminal record is still in the table, unchanged, after any
    operations, unless one of them forgot it. *)
Lemma run_terminal_record ops m (i : nat) t :
  issued m -> table m !! i = Some t -> terminal (state t) = true ->
  table (run registry ops m) !! i = Some t \/
  (table (run registry ops m) !! i = None /\ In (Forget i) ops).
Proof.
  revert m. induction ops as [|o ops IH]; intros m Hm Hi Ht; simpl; [now left|].
  assert (Hdec : o = Forget i \/ o <> Forget i).
  { destruct o as [| |? |j| | | | | |]; try (right; discriminate).
    destruct (decide (j = i)) as [->|]; [now left | right; congruence]. }
  destruct Hdec as [->|Ho].
  - right. split; [|now left]. simpl.
    apply run_forgotten; simpl; [now apply (Hm i t) | apply lookup_delete_eq].
  - destruct (IH (snd (step registry o m))) as [H|[H1 H2]];
      auto using step_issued, step_terminal_record.
Qed.

(** Before any dispatch the table is empty. *)
Lemma init_issued : issued (@init Value Payload).
Proof. intros i t. unfold init. simpl. now rewrite lookup_empty. Qed.

(** Every run keeps the identifiers of the table below the generator. *)
Lemma run_issued ops m : issued m -> issued (run registry ops m).
Proof.
  revert m. induction ops as [|o ops IH]; intros m Hm; simpl; [exact Hm|].
  apply IH. now apply step_issued.
Qed.

(** C2: once a task is terminal ([Done], [Failed] or [Cancelled]), every
    later snapshot of it, after any sequence of operations of the Task
    Manager, has the same state, value and error; the task is unknown
    only if one of the operations forgot it. *)
Theorem terminal_task_never_changes ops m (i : nat) t :
  issued m -> table m !! i = Some t -> terminal (state t) = true ->
  match get i (run registry ops m) with
  | inr t' => state t' = state t /\ value t' = value t /\ error t' = error t
  | inl e => e = UnknownTask /\ In (Forget i) ops
  end.
Proof.
  intros Hm Hi Ht. unfold get.
  destruct (run_terminal_record ops m i t Hm Hi Ht) as [H|[H Hf]]; rewrite H.
  - repeat split.
  - split; [reflexivity | exact Hf].
Qed.

End Manager.

(** C2 on a fetch-logs task that completed with a blob id: cancelling,
    failing, recovering and dispatching again leave it [Done] with its
    value. *)
Lemma terminal_task_never_changes_witness :
  let m := run fakes.FakeRegistry
               [Dispatch "fetch_logs" 3; Complete 0 "blob-1"] (@init string string) in
  let ops := [ Cancel 0; Fail 0 "blobstore" "Create file on blobstore";
               CancelHonored 0; WriteCheckpoint 0 "tarball"; Fault 0 "panic";
               Recover; Dispatch "fetch_logs" 3; Get 0 ] in
  match get 0 (run fakes.FakeRegistry ops m) with
  | inr t' => state t' = Done /\ value t' = Some "blob-1" /\ error t' = None
  | inl e => e = UnknownTask /\ In (Forget 0) ops
  end.
Proof.
  intros m ops.
  apply (terminal_task_never_changes fakes.FakeRegistry ops m 0
           {| id := 0; action_name := "fetch_logs"; state := Done;
              value := Some "blob-1"; error := None; checkpoint := None |}).
  - apply (bool_decide_unpack (issued m)). vm_compute. reflexivity.
  - reflexivity.
  - reflexivity.
Defined.

(** A running task does change: the same operations on a task that has not
    completed end in [Failed]. *)
Example running_task_changes :
  let m := run fakes.FakeRegistry [Dispatch "fetch_logs" 3] (@init string string) in
  let ops := [ Cancel 0; Fail 0 "blobstore" "Create file on blobstore";
               Complete 0 "blob-1"; Recover ] in
  (state <$> table m !! 0) = Some Running /\
  (state <$> table (run fakes.FakeRegistry ops m) !! 0) = Some Failed /\
  (value <$> table (run fakes.FakeRegistry ops m) !! 0) = Some None.
Proof. vm_compute. repeat (apply conj); reflexivity. Qed.

End task_spec.

(** ** The actions: the remaining paths of [Run] *)

Module action_paths.
Import action action_views.

Section Paths.
Context {MultipleDigest W : Type}.
Variable Digest_String : MultipleDigest -> string.
Implicit Types (a : @CompilePackageWithSignedURL MultipleDigest W)
               (b : @FetchLogsAction MultipleDigest W)
               (s : Sys W (call (@Package MultipleDigest) (@ModelsPackage MultipleDigest))).

(** The loop over the dependencies appends their conversions in order. *)
Lemma append_deps_app (modelsDeps : list ModelsPackage)
      (deps : list (string * @Package MultipleDigest)) :
  append_deps modelsDeps deps = modelsDeps ++ map models_dep deps.
Proof.
  revert modelsDeps. induction deps as [|[k dep] deps IH]; intros modelsDeps; simpl.
  - now rewrite app_nil_r.
  - rewrite IH, <- app_assoc. reflexivity.
Qed.

(** X1: the compiler receives one models package per dependency of the
    request, in the order the dependencies are visited, each with the
    name, version, digest and blobstore id of the dependency and its
    [PackageGetSignedURL] as signed URL; the key under which a dependency
    is filed and its upload URL are dropped. *)
Theorem Run_passes_every_dependency a (request : CompilePackageWithSignedURLRequest) s :
  let '(_, s') := CompilePackageWithSignedURL_Run Digest_String a request s in
  calls s' = calls s ++ [CallCompile (request_pkg request)
                                     (map models_dep (req_Deps request))] /\
  length (map models_dep (req_Deps request)) = length (req_Deps request).
Proof.
  unfold CompilePackageWithSignedURL_Run, bind, invoke, ret.
  rewrite append_deps_app. simpl.
  destruct (Compile (compiler a) (request_pkg request)
                    (map models_dep (req_Deps request)) (world s))
    as [[[blobID digest] [e|]] w']; simpl; (split; [reflexivity | apply length_map]).
Qed.

(** A wrapped error prints the message, a colon and the cause. *)
Lemma WrapError_message (cause : error) (msg : string) :
  Error (WrapError (Some cause) msg) = msg +:+ ": " +:+ Error cause.
Proof. reflexivity. Qed.

(** X2: for the log types "job" and "agent", [Run] copies, compresses and
    stores in this order, and cleans up what it created: a failed copy
    leaves nothing to clean and nothing else is called; a failed
    compression removes the temporary directory only; after the
    blobstore write, failed or not, the tarball is removed first and the
    temporary directory last. The job logs come from [LogsDir], the agent
    logs from [AgentLogsDir], and an empty filter list stands for
    "**/*". *)
Theorem FetchLogs_Run_cleans_up b (logType : string) (filters : list string) s :
  logType = "job" \/ logType = "agent" ->
  let dir := logs_dir b logType in
  let fl := match filters with [] => ["**/*"] | _ => filters end in
  let '(tmpDir, copyErr, w1) := FilteredCopyToTemp (fl_copier b) dir fl (world s) in
  let '(tarball, compressErr, w2) := CompressFilesInDir (fl_compressor b) tmpDir w1 in
  let '(_, _, writeErr, w3) := Write (fl_blobstore b) "" tarball None w2 in
  let '(_, w4) := Compressor_CleanUp (fl_compressor b) tarball w3 in
  let '(_, s') := FetchLogsAction_Run Digest_String b logType filters s in
  match copyErr, compressErr with
  | Some _, _ =>
      calls s' = calls s ++ [CallFilteredCopyToTemp dir fl] /\ world s' = w1
  | None, Some _ =>
      calls s' = calls s ++ [CallFilteredCopyToTemp dir fl;
                             CallCompressFilesInDir tmpDir;
                             CallCopierCleanUp tmpDir] /\
      world s' = Copier_CleanUp (fl_copier b) tmpDir w2
  | None, None =>
      calls s' = calls s ++ [CallFilteredCopyToTemp dir fl;
                             CallCompressFilesInDir tmpDir;
                             CallBlobstoreWrite "" tarball;
                             CallCompressorCleanUp tarball;
                             CallCopierCleanUp tmpDir] /\
      world s' = Copier_CleanUp (fl_copier b) tmpDir w4
  end.
Proof.
  intros Hty dir fl.
  assert (Hsel : select_logs b logType filters = inl (dir, fl)).
  { unfold select_logs, dir, logs_dir, fl, default_filters.
    destruct Hty as [->| ->]; reflexivity. }
  unfold FetchLogsAction_Run. rewrite Hsel.
  unfold bind, invoke_, invoke, ret.
  destruct (FilteredCopyToTemp (fl_copier b) dir fl (world s))
    as [[tmpDir [e1|]] w1]; cbn [world calls].
  - destruct (CompressFilesInDir (fl_compressor b) tmpDir w1) as [[tarball ce] w2].
    destruct (Write (fl_blobstore b) "" tarball None w2) as [[[? ?] ?] w3].
    destruct (Compressor_CleanUp (fl_compressor b) tarball w3) as [? w4].
    split; reflexivity.
  - destruct (CompressFilesInDir (fl_compressor b) tmpDir w1)
      as [[tarball [e2|]] w2]; cbn [world calls].
    + destruct (Write (fl_blobstore b) "" tarball None w2) as [[[? ?] ?] w3].
      destruct (Compressor_CleanUp (fl_compressor b) tarball w3) as [? w4].
      cbn [world calls]. rewrite <- !app_assoc. split; reflexivity.
    + destruct (Write (fl_blobstore b) "" tarball None w2)
        as [[[blobID digest] we] w3]; cbn [world calls].
      destruct (Compressor_CleanUp (fl_compressor b) tarball w3) as [ce w4].
      cbn [world calls].
      destruct we; cbn [world calls]; rewrite <- !app_assoc; split; reflexivity.
Qed.

(** X3: for the log types "job" and "agent", [Run] returns a value exactly
    when it returns no error: the first step that fails gives a nil value
    and its error wrapped as "Copying filtered files to temp directory",
    "Making logs tarball" or "Create file on blobstore", each followed by
    a colon and the cause; when no step fails the value maps
    "blobstore_id" to the blob id and "sha1" to the digest of the
    blobstore, whatever the clean-up of the tarball returns. *)
Theorem FetchLogs_Run_value_or_wrapped_error b (logType : string)
        (filters : list string) s :
  logType = "job" \/ logType = "agent" ->
  let dir := logs_dir b logType in
  let fl := match filters with [] => ["**/*"] | _ => filters end in
  let '(tmpDir, copyErr, w1) := FilteredCopyToTemp (fl_copier b) dir fl (world s) in
  let '(tarball, compressErr, w2) := CompressFilesInDir (fl_compressor b) tmpDir w1 in
  let '(blobID, digest, writeErr, _) := Write (fl_blobstore b) "" tarball None w2 in
  let '(value, err, _) := FetchLogsAction_Run Digest_String b logType filters s in
  (value = None <-> err <> None) /\
  match copyErr, compressErr, writeErr with
  | Some cause, _, _ =>
      value = None /\
      (Error <$> err) = Some ("Copying filtered files to temp directory: " +:+ Error cause)
  | None, Some cause, _ =>
      value = None /\ (Error <$> err) = Some ("Making logs tarball: " +:+ Error cause)
  | None, None, Some cause =>
      value = None /\ (Error <$> err) = Some ("Create file on blobstore: " +:+ Error cause)
  | None, None, None =>
      value = Some {[ "blobstore_id" := blobID; "sha1" := Digest_String digest ]} /\
      err = None
  end.
Proof.
  intros Hty dir fl.
  assert (Hsel : select_logs b logType filters = inl (dir, fl)).
  { unfold select_logs, dir, logs_dir, fl, default_filters.
    destruct Hty as [->| ->]; reflexivity. }
  unfold FetchLogsAction_Run. rewrite Hsel.
  unfold bind, invoke_, invoke, ret.
  destruct (FilteredCopyToTemp (fl_copier b) dir fl (world s))
    as [[tmpDir [e1|]] w1]; cbn [world calls].
  - destruct (CompressFilesInDir (fl_compressor b) tmpDir w1) as [[tarball ce] w2].
    destruct (Write (fl_blobstore b) "" tarball None w2) as [[[? ?] ?] w3].
    split; [split; [discriminate | reflexivity] | split; reflexivity].
  - destruct (CompressFilesInDir (fl_compressor b) tmpDir w1)
      as [[tarball [e2|]] w2]; cbn [world calls].
    + destruct (Write (fl_blobstore b) "" tarball None w2) as [[[? ?] ?] w3].
      split; [split; [discriminate | reflexivity] | split; reflexivity].
    + destruct (Write (fl_blobstore b) "" tarball None w2)
        as [[[blobID digest] we] w3]; cbn [world calls].
      destruct (Compressor_CleanUp (fl_compressor b) tarball w3) as [ce w4].
      cbn [world calls].
      destruct we as [e3|].
      * split; [split; [discriminate | reflexivity] | split; reflexivity].
      * split; [split; [discriminate | intros H; now contradiction H] | split; reflexivity].
Qed.

End Paths.

(** X2 on the fake collaborators, for the agent logs. *)
Lemma FetchLogs_Run_cleans_up_witness :
  let b := fakes.FakeFetchLogs in
  let '(_, s') := FetchLogsAction_Run (fun d : string => d) b "agent" ["*.log"] (start ∅) in
  calls s' = [CallFilteredCopyToTemp "/var/vcap/bosh/log" ["*.log"];
              CallCompressFilesInDir "/tmp/logs";
              CallBlobstoreWrite "" "/tmp/logs.tgz";
              CallCompressorCleanUp "/tmp/logs.tgz";
              CallCopierCleanUp "/tmp/logs"] /\
  world s' = {[ "blob-1" := "/tmp/logs.tgz" ]}.
Proof.
  pose proof (FetchLogs_Run_cleans_up (fun d : string => d) fakes.FakeFetchLogs
                "agent" ["*.log"] (start ∅) (or_intror eq_refl)) as H.
  vm_compute in H. vm_compute. exact H.
Defined.

(** X3 on fake collaborators whose compressor fails. *)
Lemma FetchLogs_Run_value_or_wrapped_error_witness :
  let b := NewFetchLogs (fakes.FakeCompressor "" (Some (New "tar: exit status 2")))
                        (fakes.FakeCopier "/tmp/logs" None)
                        (fakes.FakeBlobstore "blob-1" "da39a3ee" None)
                        fakes.FakeProvider in
  let '(value, err, _) := FetchLogsAction_Run (fun d : string => d) b "job" [] (start ∅) in
  value = None /\ (Error <$> err) = Some "Making logs tarball: tar: exit status 2".
Proof.
  pose proof (FetchLogs_Run_value_or_wrapped_error (fun d : string => d)
                (NewFetchLogs (fakes.FakeCompressor "" (Some (New "tar: exit status 2")))
                              (fakes.FakeCopier "/tmp/logs" None)
                              (fakes.FakeBlobstore "blob-1" "da39a3ee" None)
                              fakes.FakeProvider)
                "job" [] (start ∅) (or_introl eq_refl)) as H.
  vm_compute in H. vm_compute. exact (proj2 H).
Defined.

End action_paths.

(** ** The fake file system *)

Module fakesys_spec.
Import fakesys fakesys_views.

Implicit Types (fs : FakeFileSystem) (path p q content : string) (l : nat).

(** Reading through a pointer after an assignment through it. *)
Lemma load_modify_eq l (f : FakeFileStats -> FakeFileStats) fs :
  load l (modify l f fs) = f (load l fs).
Proof. unfold load at 1, modify. cbn. now rewrite lookup_insert_eq. Qed.

(** An assignment through one pointer is not seen through another. *)
Lemma load_modify_ne l l' (f : FakeFileStats -> FakeFileStats) fs :
  l <> l' -> load l' (modify l f fs) = load l' fs.
Proof. intros H. unfold load, modify. cbn. now rewrite lookup_insert_ne. Qed.

(** An assignment through a pointer leaves the map of the files alone. *)
Lemma files_at_modify l (f : FakeFileStats -> FakeFileStats) fs q :
  files_at (modify l f fs) q = files_at fs q.
Proof. reflexivity. Qed.

(** An assignment through a pointer changes nothing but the heap. *)
Lemma config_modify l (f : FakeFileStats -> FakeFileStats) fs :
  config (modify l f fs) = config fs.
Proof. reflexivity. Qed.

(** What [getOrCreateFile] returns: the pointer filed under the path, or a
    new zeroed object filed under it; the other paths keep their
    pointers, and nothing else changes. *)
Lemma getOrCreateFile_spec path fs :
  let '(l, fs') := getOrCreateFile path fs in
  files_at fs' path = Some l /\
  (forall q, q <> path -> files_at fs' q = files_at fs q) /\
  config fs' = config fs /\
  ((files_at fs path = Some l /\ fs' = fs) \/
   (files_at fs path = None /\ heap fs !! l = None /\
    load l fs' = zero_stats /\ forall l', l' <> l -> load l' fs' = load l' fs)).
Proof.
  unfold getOrCreateFile. destruct (files_at fs path) as [l|] eqn:E.
  - split; [exact E|]. split; [reflexivity|]. split; [reflexivity|].
    left. split; reflexivity.
  - set (l := fresh (dom (heap fs))).
    assert (Hl : heap fs !! l = None).
    { apply not_elem_of_dom. apply is_fresh. }
    split; [unfold files_at; cbn; now rewrite lookup_insert_eq|].
    split; [intros q Hq; unfold files_at; cbn; now rewrite lookup_insert_ne|].
    split; [reflexivity|].
    right. split; [reflexivity|]. split; [exact Hl|].
    split; [unfold load; cbn; now rewrite lookup_insert_eq|].
    intros l' Hl'. unfold load. cbn. now rewrite lookup_insert_ne.
Qed.

(** The injected read errors are part of the configuration. *)
Lemma config_read_errors fs fs' :
  config fs' = config fs ->
  ReadFileError fs' = ReadFileError fs /\
  readFileErrorByPath fs' = readFileErrorByPath fs.
Proof.
  intros H. split.
  - exact (f_equal ReadFileError H).
  - exact (f_equal readFileErrorByPath H).
Qed.

(** X4: without injected errors, a file reads back as it was written: after
    [WriteFile(path, content)], [ReadFile(path)] and [ReadFileString(path)]
    return [content] and no error, and the path exists. *)
Theorem WriteFile_ReadFile path content fs :
  WriteToFileError fs = None ->
  ReadFileError fs = None ->
  error_at (readFileErrorByPath fs) path = None ->
  let '(err, fs') := WriteFile path content fs in
  err = None /\
  ReadFile path fs' = (content, None) /\
  ReadFileString path fs' = (content, None) /\
  FileExists path fs' = true.
Proof.
  intros Hw Hr Hp. unfold WriteFile. rewrite Hw.
  pose proof (getOrCreateFile_spec path fs) as G.
  destruct (getOrCreateFile path fs) as [l fs1].
  destruct G as (Hfile & _ & Hcfg & _).
  destruct (config_read_errors _ _ Hcfg) as [E1 E2].
  split; [reflexivity|].
  assert (HR : ReadFile path
                 (modify l (with_Content content)
                    (modify l (with_FileType FakeFileTypeFile) fs1)) = (content, None)).
  { unfold ReadFile, GetFileTestStat. rewrite !files_at_modify, Hfile.
    cbn [ReadFileError readFileErrorByPath modify set_heap].
    rewrite E1, Hr, E2, Hp. now rewrite load_modify_eq. }
  split; [exact HR|]. split.
  - unfold ReadFileString. now rewrite HR.
  - unfold FileExists, GetFileTestStat. now rewrite !files_at_modify, Hfile.
Qed.

(** The effect of a successful [WriteFile]: the path holds a pointer, the
    old one if there was one and a new one otherwise; the object behind
    it is a file with the content; other paths and other objects are as
    before. *)
Lemma WriteFile_effect path content fs :
  WriteToFileError fs = None ->
  exists l fs',
    WriteFile path content fs = (None, fs') /\
    files_at fs' path = Some l /\
    (forall q, q <> path -> files_at fs' q = files_at fs q) /\
    config fs' = config fs /\
    load l fs' = with_Content content (with_FileType FakeFileTypeFile
                   (default zero_stats (stat fs path))) /\
    (forall l', l' <> l -> load l' fs' = load l' fs) /\
    (files_at fs path = Some l \/ (files_at fs path = None /\ heap fs !! l = None)).
Proof.
  intros Hw. unfold WriteFile. rewrite Hw.
  pose proof (getOrCreateFile_spec path fs) as G.
  destruct (getOrCreateFile path fs) as [l fs1].
  destruct G as (Hfile & Hother & Hcfg & Hcase).
  exists l. eexists. split; [reflexivity|].
  split; [now rewrite !files_at_modify|].
  split; [intros q Hq; rewrite !files_at_modify; now apply Hother|].
  split; [now rewrite !config_modify|].
  split.
  - rewrite !load_modify_eq. unfold stat.
    destruct Hcase as [[E ->]|(E & _ & Hz & _)]; rewrite E; simpl;
      [reflexivity | now rewrite Hz].
  - split.
    + intros l' Hl'. rewrite !load_modify_ne by congruence.
      destruct Hcase as [[_ ->]|(_ & _ & _ & Hk)]; [reflexivity | now apply Hk].
    + destruct Hcase as [[E _]|(E & Hh & _)]; [now left | now right].
Qed.

(** X5: [ConvergeFileContents] reports a change exactly when the content
    differs from what the path held, a missing path counting as empty;
    afterwards the path is a file with the content, and converging again
    to the same content reports no change and changes nothing. So a
    missing path converged to the empty content is created without a
    change being reported. *)
Theorem ConvergeFileContents_idempotent path content fs :
  WriteToFileError fs = None ->
  let before := Content (default zero_stats (stat fs path)) in
  let '(changed, err, fs') := ConvergeFileContents path content fs in
  err = None /\
  (changed = true <-> before <> content) /\
  (Content <$> stat fs' path) = Some content /\
  (FileType <$> stat fs' path) = Some FakeFileTypeFile /\
  ConvergeFileContents path content fs' = ((false, None), fs').
Proof.
  intros Hw before. unfold ConvergeFileContents at 1. rewrite Hw.
  pose proof (getOrCreateFile_spec path fs) as G.
  destruct (getOrCreateFile path fs) as [l fs1].
  destruct G as (Hfile & Hother & Hcfg & Hcase).
  assert (Hbefore : Content (load l fs1) = before).
  { unfold before, stat.
    destruct Hcase as [[E ->]|(E & _ & Hz & _)]; rewrite E; simpl;
      [reflexivity | now rewrite Hz]. }
  assert (Hw1 : forall f g, WriteToFileError (modify l f (modify l g fs1)) = None).
  { intros f g. change (WriteToFileError (config (modify l f (modify l g fs1))) = None).
    rewrite !config_modify, Hcfg. exact Hw. }
  assert (Hagain : forall fs2,
             WriteToFileError fs2 = None -> files_at fs2 path = Some l ->
             FileType (load l fs2) = FakeFileTypeFile ->
             Content (load l fs2) = content ->
             heap fs2 !! l = Some (load l fs2) ->
             ConvergeFileContents path content fs2 = ((false, None), fs2)).
  { intros fs2 H1 H2 H3 H3' H4. unfold ConvergeFileContents, getOrCreateFile.
    rewrite H1, H2.
    assert (Hid : modify l (with_FileType FakeFileTypeFile) fs2 = fs2).
    { unfold modify. rewrite insert_id.
      - now destruct fs2.
      - rewrite H4. f_equal. destruct (load l fs2). cbn in H3. now subst. }
    rewrite Hid, H3'. now rewrite String.eqb_refl. }
  rewrite load_modify_eq. cbn [Content with_FileType]. rewrite Hbefore.
  destruct (String.eqb_spec before content) as [Heq|Hne]; cbn [negb].
  - split; [reflexivity|]. split; [split; [discriminate | congruence]|].
    unfold stat. rewrite files_at_modify, Hfile, load_modify_eq. cbn.
    split; [f_equal; congruence|]. split; [reflexivity|].
    apply Hagain.
    + change (WriteToFileError (config (modify l (with_FileType FakeFileTypeFile) fs1)) = None).
      rewrite config_modify, Hcfg. exact Hw.
    + now rewrite files_at_modify.
    + now rewrite load_modify_eq.
    + rewrite load_modify_eq. cbn. congruence.
    + unfold load, modify. cbn. now rewrite lookup_insert_eq.
  - split; [reflexivity|]. split; [split; [intros _; exact Hne | reflexivity]|].
    unfold stat. rewrite !files_at_modify, Hfile, !load_modify_eq. cbn.
    split; [reflexivity|]. split; [reflexivity|].
    apply Hagain.
    + apply Hw1.
    + now rewrite !files_at_modify.
    + now rewrite !load_modify_eq.
    + now rewrite !load_modify_eq.
    + unfold load, modify. cbn. now rewrite lookup_insert_eq.
Qed.

(** A path with a pointer has an object, in an allocated file system. *)
Lemma allocated_files_at fs path l :
  allocated fs -> files_at fs path = Some l -> is_Some (heap fs !! l).
Proof.
  intros Ha. unfold files_at. destruct (files fs !! path) as [p|] eqn:E; [|discriminate].
  intros ->. exact (Ha path (Some l) E).
Qed.

(** [ReadFile] depends on the pointer of the path, the object behind it and
    the injected read errors. *)
Lemma ReadFile_ext path fs fs' :
  files_at fs' path = files_at fs path ->
  (forall l, files_at fs path = Some l -> load l fs' = load l fs) ->
  config fs' = config fs ->
  ReadFile path fs' = ReadFile path fs.
Proof.
  intros Hf Hl Hc. destruct (config_read_errors _ _ Hc) as [E1 E2].
  unfold ReadFile, GetFileTestStat. rewrite Hf, E1, E2.
  destruct (files_at fs path) as [l|]; [|reflexivity].
  now rewrite (Hl l eq_refl).
Qed.

(** X6: a write reaches the written path and its aliases only: if [q] is
    another path that does not hold the pointer of [p], then after
    [WriteFile(p, content)] the stats and the contents read at [q] are
    what they were. *)
Theorem WriteFile_leaves_other_files p q content fs :
  allocated fs ->
  WriteToFileError fs = None ->
  q <> p ->
  (forall l, files_at fs q = Some l -> files_at fs p <> Some l) ->
  let '(_, fs') := WriteFile p content fs in
  stat fs' q = stat fs q /\
  FileExists q fs' = FileExists q fs /\
  ReadFile q fs' = ReadFile q fs.
Proof.
  intros Ha Hw Hqp Hna.
  destruct (WriteFile_effect p content fs Hw)
    as (l & fs' & -> & Hp & Hother & Hcfg & _ & Hloads & Hcase).
  assert (Hl : forall l', files_at fs q = Some l' -> load l' fs' = load l' fs).
  { intros l' Hq. apply Hloads. intros ->.
    destruct Hcase as [E|[_ Hfresh]].
    - now apply (Hna l).
    - destruct (allocated_files_at fs q l Ha Hq) as [st Hst]. congruence. }
  split; [|split].
  - unfold stat. rewrite (Hother q Hqp).
    destruct (files_at fs q) as [l'|] eqn:E; [|reflexivity].
    now rewrite (Hl l' eq_refl).
  - unfold FileExists, GetFileTestStat. now rewrite (Hother q Hqp).
  - apply ReadFile_ext; auto.
Qed.

(** X7: [CopyFile] shares the file instead of copying it: after
    [CopyFile(src, dst)] of an existing file, a later [WriteFile] to the
    copy is read at the original, and a later [WriteFile] to the original
    is read at the copy. *)
Theorem CopyFile_shares_the_file src dst content fs :
  CopyFileError fs = None ->
  WriteToFileError fs = None ->
  ReadFileError fs = None ->
  error_at (readFileErrorByPath fs) src = None ->
  error_at (readFileErrorByPath fs) dst = None ->
  FileExists src fs = true ->
  let '(err, fs1) := CopyFile src dst fs in
  err = None /\
  ReadFile src (snd (WriteFile dst content fs1)) = (content, None) /\
  ReadFile dst (snd (WriteFile src content fs1)) = (content, None).
Proof.
  intros Hc Hw Hr Hs Hd Hex. unfold CopyFile. rewrite Hc.
  set (fs1 := set_files (<[dst:=files_at fs src]> (files fs)) fs).
  split; [reflexivity|].
  unfold FileExists, GetFileTestStat in Hex.
  destruct (files_at fs src) as [l|] eqn:Hsrc; [|discriminate].
  assert (Hdst1 : files_at fs1 dst = Some l).
  { unfold files_at, fs1. cbn. now rewrite lookup_insert_eq. }
  assert (Hsrc1 : files_at fs1 src = Some l).
  { destruct (decide (src = dst)) as [->|Hne]; [exact Hdst1|].
    unfold files_at, fs1. cbn. rewrite lookup_insert_ne by congruence. exact Hsrc. }
  assert (Hread : forall a b' fs2 l2,
             files_at fs1 a = Some l -> files_at fs1 b' = Some l ->
             error_at (readFileErrorByPath fs) a = None ->
             WriteFile b' content fs1 = (None, fs2) ->
             files_at fs2 b' = Some l2 ->
             (forall q, q <> b' -> files_at fs2 q = files_at fs1 q) ->
             config fs2 = config fs1 ->
             Content (load l2 fs2) = content ->
             (files_at fs1 b' = Some l2 \/ (files_at fs1 b' = None /\ heap fs1 !! l2 = None)) ->
             ReadFile a fs2 = (content, None)).
  { intros a b' fs2 l2 Ha Hb Hea _ Hb2 Hoth Hcfg Hcont Hcase.
    assert (l2 = l) as -> by (destruct Hcase as [E|[E _]]; congruence).
    assert (Ha2 : files_at fs2 a = Some l).
    { destruct (decide (a = b')) as [->|Hne]; [exact Hb2|].
      now rewrite (Hoth a Hne). }
    destruct (config_read_errors _ _ Hcfg) as [E1 E2].
    unfold ReadFile, GetFileTestStat. rewrite Ha2, E1, E2.
    change (ReadFileError fs1) with (ReadFileError fs).
    change (readFileErrorByPath fs1) with (readFileErrorByPath fs).
    now rewrite Hr, Hea, Hcont. }
  assert (Hw1 : WriteToFileError fs1 = None) by exact Hw.
  split.
  - destruct (WriteFile_effect dst content fs1 Hw1)
      as (l2 & fs2 & E & Hp & Hother & Hcfg & Hload & _ & Hcase).
    rewrite E. cbn [snd].
    apply (Hread src dst fs2 l2); auto. now rewrite Hload.
  - destruct (WriteFile_effect src content fs1 Hw1)
      as (l2 & fs2 & E & Hp & Hother & Hcfg & Hload & _ & Hcase).
    rewrite E. cbn [snd].
    apply (Hread dst src fs2 l2); auto. now rewrite Hload.
Qed.

(** X8: [CopyFile] from a path that does not exist returns no error and
    leaves no file at the destination, even where there was one:
    afterwards the destination does not exist and reads as
    "File not found". *)
Theorem CopyFile_missing_source src dst fs :
  CopyFileError fs = None ->
  FileExists src fs = false ->
  let '(err, fs') := CopyFile src dst fs in
  err = None /\
  FileExists dst fs' = false /\
  (Error <$> snd (ReadFile dst fs')) = Some "File not found".
Proof.
  intros Hc Hex. unfold CopyFile. rewrite Hc.
  unfold FileExists, GetFileTestStat in Hex.
  destruct (files_at fs src) as [l|] eqn:Hsrc; [discriminate|].
  assert (Hdst : files_at (set_files (<[dst:=None]> (files fs)) fs) dst = None).
  { unfold files_at. cbn. now rewrite lookup_insert_eq. }
  split; [reflexivity|].
  unfold FileExists, ReadFile, GetFileTestStat. rewrite Hdst. split; reflexivity.
Qed.

(** The pointers after [removeAll]: none under the prefix, the others as
    before. *)
Lemma files_at_removeAll path fs q :
  files_at (snd (removeAll path fs)) q =
  if String.prefix path q then None else files_at fs q.
Proof.
  unfold removeAll, files_at. cbn.
  destruct (String.prefix path q) eqn:Hpre.
  - rewrite map_lookup_filter_None_2; [reflexivity|].
    right. intros x _. cbn. congruence.
  - destruct (files fs !! q) as [x|] eqn:E.
    + rewrite (map_lookup_filter_Some_2 _ _ q x E); [reflexivity | exact Hpre].
    + rewrite map_lookup_filter_None_2; [reflexivity | now left].
Qed.

(** X9: [RemoveAll] removes by prefix of the path string: without injected
    errors it returns no error; afterwards no path that starts with
    [path] exists, be it a child or a sibling such as [path] followed by
    more characters, and such a path reads as "File not found" even when
    a read error is registered for it; every other path keeps its
    stats. *)
Theorem RemoveAll_removes_by_prefix path fs :
  path <> "" ->
  RemoveAllError fs = None ->
  error_at (removeAllErrorByPath fs) path = None ->
  exists fs',
    RemoveAll path fs = Returns (None, fs') /\
    config fs' = config fs /\
    forall q,
      if String.prefix path q
      then FileExists q fs' = false /\
           (Error <$> snd (ReadFile q fs')) = Some "File not found"
      else stat fs' q = stat fs q /\ FileExists q fs' = FileExists q fs.
Proof.
  intros Hne He Hp. unfold RemoveAll.
  destruct (String.eqb_spec path "") as [->|_]; [contradiction|].
  rewrite He, Hp. exists (snd (removeAll path fs)).
  split; [reflexivity|]. split; [reflexivity|].
  intros q. pose proof (files_at_removeAll path fs q) as H.
  destruct (String.prefix path q).
  - unfold FileExists, ReadFile, GetFileTestStat. rewrite H. split; reflexivity.
  - unfold stat, FileExists, GetFileTestStat. rewrite H. split; reflexivity.
Qed.

(** X10: [MkdirAll] makes the named directory only: without injected
    errors the path becomes a directory with the given mode, keeping the
    content it had as a file, and no other path comes into existence, so
    the parents of the path are not created. *)
Theorem MkdirAll_creates_only_the_path path (perm : Z) fs :
  MkdirAllError fs = None ->
  error_at (mkdirAllErrorByPath fs) path = None ->
  let '(err, fs') := MkdirAll path perm fs in
  err = None /\
  (FileType <$> stat fs' path) = Some FakeFileTypeDir /\
  (FileMode <$> stat fs' path) = Some perm /\
  (Content <$> stat fs' path) = Some (Content (default zero_stats (stat fs path))) /\
  forall q, q <> path -> FileExists q fs' = FileExists q fs.
Proof.
  intros He Hp. unfold MkdirAll. rewrite He, Hp.
  pose proof (getOrCreateFile_spec path fs) as G.
  destruct (getOrCreateFile path fs) as [l fs1].
  destruct G as (Hfile & Hother & Hcfg & Hcase).
  split; [reflexivity|].
  unfold stat at 1 2 3. rewrite !files_at_modify, Hfile, !load_modify_eq. cbn.
  split; [reflexivity|]. split; [reflexivity|]. split.
  - f_equal. unfold stat.
    destruct Hcase as [[E ->]|(E & _ & Hz & _)]; rewrite E; simpl;
      [reflexivity | now rewrite Hz].
  - intros q Hq. unfold FileExists, GetFileTestStat.
    now rewrite !files_at_modify, (Hother q Hq).
Qed.

(** X11: a symbolic link reads back: without injected errors, after
    [Symlink(oldPath, newPath)], [ReadLink(newPath)] returns [oldPath]
    and no error, and [newPath] is of type symlink; the target need not
    exist and is not created. *)
Theorem Symlink_ReadLink oldPath newPath fs :
  SymlinkError fs = None ->
  ReadLinkError fs = None ->
  let '(err, fs') := Symlink oldPath newPath fs in
  err = None /\
  ReadLink newPath fs' = (oldPath, None) /\
  (FileType <$> stat fs' newPath) = Some FakeFileTypeSymlink /\
  (oldPath <> newPath -> FileExists oldPath fs' = FileExists oldPath fs).
Proof.
  intros Hs Hr. unfold Symlink. rewrite Hs.
  pose proof (getOrCreateFile_spec newPath fs) as G.
  destruct (getOrCreateFile newPath fs) as [l fs1].
  destruct G as (Hfile & Hother & Hcfg & Hcase).
  split; [reflexivity|]. split; [|split].
  - unfold ReadLink, GetFileTestStat.
    change (ReadLinkError (modify l (with_SymlinkTarget oldPath)
                             (modify l (with_FileType FakeFileTypeSymlink) fs1)))
      with (ReadLinkError (config fs1)).
    rewrite Hcfg. change (ReadLinkError (config fs)) with (ReadLinkError fs).
    rewrite Hr, !files_at_modify, Hfile, !load_modify_eq. reflexivity.
  - unfold stat. now rewrite !files_at_modify, Hfile, !load_modify_eq.
  - intros Hne. unfold FileExists, GetFileTestStat.
    now rewrite !files_at_modify, (Hother oldPath Hne).
Qed.

(** The last element of a non-empty list does not depend on the default. *)
Lemma last_cons_default {A} (l : list A) (a d : A) :
  List.last (a :: l) d = List.last l a.
Proof.
  revert a d. induction l as [|b l IH]; intros a d; [reflexivity|].
  change (List.last (a :: b :: l) d) with (List.last (b :: l) d).
  now rewrite !IH.
Qed.

(** With match lists registered for a pattern, the call after [n] calls
    returns the list at position [n], or the last list. *)
Lemma Glob_after_registered pattern (n : nat) :
  forall (m : list string) (ms : list (list string)) fs,
    globsMap fs !! pattern = Some (m :: ms) ->
    exists fs',
      Glob_after n pattern fs = Returns ((nth n (m :: ms) (List.last ms m), GlobErr fs), fs').
Proof.
  induction n as [|k IH]; intros m ms fs Hg.
  - cbn [Glob_after]. unfold Glob. rewrite Hg. eexists. reflexivity.
  - cbn [Glob_after]. unfold Glob. rewrite Hg.
    destruct ms as [|m' ms'].
    + destruct (IH m [] fs Hg) as [fs' E]. exists fs'. rewrite E.
      assert (Hn : forall j, nth j [m] m = m) by (intros [|[|j]]; reflexivity).
      cbn [List.last]. now rewrite !Hn.
    + set (fs1 := set_globsMap (<[pattern:=m' :: ms']> (globsMap fs)) fs).
      assert (Hg1 : globsMap fs1 !! pattern = Some (m' :: ms')).
      { unfold fs1. cbn. now rewrite lookup_insert_eq. }
      destruct (IH m' ms' fs1 Hg1) as [fs' E]. exists fs'. rewrite E.
      cbn [nth]. now rewrite (last_cons_default ms' m' m).
Qed.

(** X12: [Glob] serves the match lists given to [SetGlob] one per call, in
    order, and repeats the last one from then on, each time with
    [GlobErr]: the call after [n] calls returns the list at position [n]
    if there is one and the last list otherwise. With no match list at
    all, [Glob] panics on the pattern. *)
Theorem Glob_serves_in_order pattern (m : list string) (ms : list (list string))
        (n : nat) fs :
  (exists fs',
     Glob_after n pattern (SetGlob pattern (m :: ms) fs) =
     Returns ((nth n (m :: ms) (List.last ms m), GlobErr fs), fs')) /\
  Glob pattern (SetGlob pattern [] fs) = Panics "index out of range [0] with length 0".
Proof.
  split.
  - apply (Glob_after_registered pattern n m ms (SetGlob pattern (m :: ms) fs)).
    unfold SetGlob. cbn. now rewrite lookup_insert_eq.
  - unfold Glob, SetGlob. cbn. now rewrite lookup_insert_eq.
Qed.


Section Rename.
Variable filepath_Dir : string -> string.

(** What a successful [Rename] does, step by step: the pointer [ln] of the
    new path, and the file systems before and after the three
    assignments. *)
Lemma Rename_steps oldPath newPath fs l :
  RenameError fs = None ->
  FileExists (filepath_Dir newPath) fs = true ->
  files_at fs oldPath = Some l ->
  exists ln fsB,
    let fsC := modify ln (with_Content (Content (load l fsB))) fsB in
    let fsD := modify ln (with_FileMode (FileMode (load l fsC))) fsC in
    let fsE := modify ln (with_FileType (FileType (load l fsD))) fsD in
    Rename filepath_Dir oldPath newPath fs = (None, snd (removeAll oldPath fsE)) /\
    files_at fsB newPath = Some ln /\
    (forall q, q <> newPath -> files_at fsB q = files_at fs q) /\
    RenameOldPaths fsB = RenameOldPaths fs ++ [oldPath] /\
    RenameNewPaths fsB = RenameNewPaths fs ++ [newPath] /\
    ((files_at fs newPath = Some ln /\ forall l', load l' fsB = load l' fs) \/
     (files_at fs newPath = None /\ heap fs !! ln = None /\
      load ln fsB = zero_stats /\ forall l', l' <> ln -> load l' fsB = load l' fs)).
Proof.
  intros He Hdir Hold. unfold Rename. rewrite He.
  unfold FileExists, GetFileTestStat in Hdir.
  destruct (files_at fs (filepath_Dir newPath)) as [d|]; [|discriminate].
  rewrite Hold.
  set (fsA := set_RenamePaths (RenameOldPaths fs ++ [oldPath])
                              (RenameNewPaths fs ++ [newPath]) fs).
  pose proof (getOrCreateFile_spec newPath fsA) as G.
  destruct (getOrCreateFile newPath fsA) as [ln fsB].
  destruct G as (Hfile & Hother & Hcfg & Hcase).
  exists ln, fsB. split; [reflexivity|]. split; [exact Hfile|].
  split; [exact Hother|].
  split; [exact (f_equal RenameOldPaths Hcfg)|].
  split; [exact (f_equal RenameNewPaths Hcfg)|].
  destruct Hcase as [[E ->]|(E & Hh & Hz & Hk)].
  - left. split; [exact E | reflexivity].
  - right. split; [exact E|]. split; [exact Hh|]. split; [exact Hz | exact Hk].
Qed.

(** X13: a successful [Rename] removes by prefix of the old path string:
    it logs the two paths and returns no error; afterwards no path that
    starts with [oldPath] exists, so the files under a renamed directory
    are deleted rather than moved, and the renamed file itself is lost
    when [newPath] starts with [oldPath]; otherwise [newPath] exists, and
    every other path exists as before. *)
Theorem Rename_removes_by_prefix oldPath newPath fs :
  RenameError fs = None ->
  FileExists (filepath_Dir newPath) fs = true ->
  FileExists oldPath fs = true ->
  let '(err, fs') := Rename filepath_Dir oldPath newPath fs in
  err = None /\
  RenameOldPaths fs' = RenameOldPaths fs ++ [oldPath] /\
  RenameNewPaths fs' = RenameNewPaths fs ++ [newPath] /\
  forall q,
    FileExists q fs' =
    if String.prefix oldPath q then false
    else if String.eqb q newPath then true
    else FileExists q fs.
Proof.
  intros He Hdir Hold.
  assert (exists l, files_at fs oldPath = Some l) as [l Hl].
  { unfold FileExists, GetFileTestStat in Hold.
    destruct (files_at fs oldPath) as [l|]; [now exists l | discriminate]. }
  destruct (Rename_steps oldPath newPath fs l He Hdir Hl)
    as (ln & fsB & -> & Hnew & Hother & Ho & Hn & _).
  split; [reflexivity|]. split; [exact Ho|]. split; [exact Hn|].
  intros q. unfold FileExists, GetFileTestStat.
  rewrite files_at_removeAll, !files_at_modify.
  destruct (String.prefix oldPath q); [reflexivity|].
  destruct (String.eqb_spec q newPath) as [->|Hq].
  - now rewrite Hnew.
  - now rewrite (Hother q Hq).
Qed.

(** X14: a successful [Rename] to a path that does not start with the old
    one moves the content, the mode and the type of the file, and nothing
    else: the owner and the symlink target at the new path are those the
    new path had before, or empty. *)
Theorem Rename_moves_content_mode_type oldPath newPath fs :
  allocated fs ->
  RenameError fs = None ->
  FileExists (filepath_Dir newPath) fs = true ->
  FileExists oldPath fs = true ->
  String.prefix oldPath newPath = false ->
  let old := default zero_stats (stat fs oldPath) in
  let prev := default zero_stats (stat fs newPath) in
  let '(_, fs') := Rename filepath_Dir oldPath newPath fs in
  stat fs' newPath =
  Some {| FileType := FileType old; FileMode := FileMode old;
          Username := Username prev; SymlinkTarget := SymlinkTarget prev;
          Content := Content old |}.
Proof.
  intros Ha He Hdir Hold Hpre old prev.
  assert (exists l, files_at fs oldPath = Some l) as [l Hl].
  { unfold FileExists, GetFileTestStat in Hold.
    destruct (files_at fs oldPath) as [l|]; [now exists l | discriminate]. }
  destruct (Rename_steps oldPath newPath fs l He Hdir Hl)
    as (ln & fsB & -> & Hnew & Hother & _ & _ & Hcase).
  assert (Hold_eq : load l fsB = old).
  { unfold old, stat. rewrite Hl. cbn.
    destruct Hcase as [[_ Hk]|(_ & Hh & _ & Hk)]; [apply Hk|].
    apply Hk. intros ->.
    destruct (allocated_files_at fs oldPath ln Ha Hl) as [x Hx]. congruence. }
  assert (Hprev_eq : load ln fsB = prev).
  { unfold prev, stat.
    destruct Hcase as [[E Hk]|(E & _ & Hz & _)]; rewrite E; cbn; [apply Hk | exact Hz]. }
  unfold stat. rewrite files_at_removeAll, Hpre, !files_at_modify, Hnew.
  f_equal.
  change (load ln (snd (removeAll oldPath ?x))) with (load ln x).
  rewrite !load_modify_eq. clearbody old prev.
  destruct (decide (ln = l)) as [->|Hne].
  - rewrite !load_modify_eq, Hold_eq.
    assert (prev = old) as -> by congruence.
    destruct old; reflexivity.
  - rewrite !load_modify_ne by exact Hne. rewrite Hold_eq, Hprev_eq.
    destruct old, prev; reflexivity.
Qed.

End Rename.

End fakesys_spec.

(** ** The fake file system on a populated instance *)

Module fakesys_runs.
Import fakesys fakesys_views fakesys_spec fixtures.

(** X4 on a new file of the sample. *)
Lemma WriteFile_ReadFile_witness :
  let '(err, fs') := WriteFile "/data/new" "hello" SampleFs in
  err = None /\
  ReadFile "/data/new" fs' = ("hello", None) /\
  ReadFileString "/data/new" fs' = ("hello", None) /\
  FileExists "/data/new" fs' = true.
Proof. apply (WriteFile_ReadFile "/data/new" "hello" SampleFs); reflexivity. Defined.

(** X5 on the log file of the sample. *)
Lemma ConvergeFileContents_idempotent_witness :
  let before := Content (default zero_stats (stat SampleFs "/data/logs/x.log")) in
  let '(changed, err, fs') := ConvergeFileContents "/data/logs/x.log" "stopped" SampleFs in
  err = None /\
  (changed = true <-> before <> "stopped") /\
  (Content <$> stat fs' "/data/logs/x.log") = Some "stopped" /\
  (FileType <$> stat fs' "/data/logs/x.log") = Some FakeFileTypeFile /\
  ConvergeFileContents "/data/logs/x.log" "stopped" fs' = ((false, None), fs').
Proof.
  apply (ConvergeFileContents_idempotent "/data/logs/x.log" "stopped" SampleFs).
  reflexivity.
Defined.

(** X6 on the two files of the sample. *)
Lemma WriteFile_leaves_other_files_witness :
  let '(_, fs') := WriteFile "/data/logs/x.log" "stopped" SampleFs in
  stat fs' "/data/logs2" = stat SampleFs "/data/logs2" /\
  FileExists "/data/logs2" fs' = FileExists "/data/logs2" SampleFs /\
  ReadFile "/data/logs2" fs' = ReadFile "/data/logs2" SampleFs.
Proof.
  apply (WriteFile_leaves_other_files "/data/logs/x.log" "/data/logs2" "stopped" SampleFs).
  - apply (bool_decide_unpack _). vm_compute. reflexivity.
  - reflexivity.
  - discriminate.
  - intros l H1 H2. vm_compute in H1, H2. congruence.
Defined.

(** X7 on a copy of the log file of the sample. *)
Lemma CopyFile_shares_the_file_witness :
  let '(err, fs1) := CopyFile "/data/logs/x.log" "/data/copy" SampleFs in
  err = None /\
  ReadFile "/data/logs/x.log" (snd (WriteFile "/data/copy" "edited" fs1)) = ("edited", None) /\
  ReadFile "/data/copy" (snd (WriteFile "/data/logs/x.log" "edited" fs1)) = ("edited", None).
Proof.
  apply (CopyFile_shares_the_file "/data/logs/x.log" "/data/copy" "edited" SampleFs);
    reflexivity.
Defined.

(** X8 on the sample: the copy of a missing file removes logs2. *)
Lemma CopyFile_missing_source_witness :
  let '(err, fs') := CopyFile "/data/missing" "/data/logs2" SampleFs in
  err = None /\
  FileExists "/data/logs2" fs' = false /\
  (Error <$> snd (ReadFile "/data/logs2" fs')) = Some "File not found".
Proof.
  apply (CopyFile_missing_source "/data/missing" "/data/logs2" SampleFs); reflexivity.
Defined.

(** X9 on the sample: removing /data/logs. *)
Lemma RemoveAll_removes_by_prefix_witness :
  exists fs',
    RemoveAll "/data/logs" SampleFs = Returns (None, fs') /\
    config fs' = config SampleFs /\
    forall q,
      if String.prefix "/data/logs" q
      then FileExists q fs' = false /\
           (Error <$> snd (ReadFile q fs')) = Some "File not found"
      else stat fs' q = stat SampleFs q /\ FileExists q fs' = FileExists q SampleFs.
Proof.
  apply (RemoveAll_removes_by_prefix "/data/logs" SampleFs);
    [discriminate | reflexivity | reflexivity].
Defined.

(** X10 on an empty file system. *)
Lemma MkdirAll_creates_only_the_path_witness :
  let '(err, fs') := MkdirAll "/var/vcap/sys/log" 488 NewFakeFileSystem in
  err = None /\
  (FileType <$> stat fs' "/var/vcap/sys/log") = Some FakeFileTypeDir /\
  (FileMode <$> stat fs' "/var/vcap/sys/log") = Some 488%Z /\
  (Content <$> stat fs' "/var/vcap/sys/log") =
    Some (Content (default zero_stats (stat NewFakeFileSystem "/var/vcap/sys/log"))) /\
  forall q, q <> "/var/vcap/sys/log" -> FileExists q fs' = FileExists q NewFakeFileSystem.
Proof.
  apply (MkdirAll_creates_only_the_path "/var/vcap/sys/log" 488 NewFakeFileSystem);
    reflexivity.
Defined.

(** X11 on the sample, with a target that does not exist. *)
Lemma Symlink_ReadLink_witness :
  let '(err, fs') := Symlink "/data/target" "/data/link" SampleFs in
  err = None /\
  ReadLink "/data/link" fs' = ("/data/target", None) /\
  (FileType <$> stat fs' "/data/link") = Some FakeFileTypeSymlink /\
  ("/data/target" <> "/data/link" ->
   FileExists "/data/target" fs' = FileExists "/data/target" SampleFs).
Proof.
  apply (Symlink_ReadLink "/data/target" "/data/link" SampleFs); reflexivity.
Defined.

(** X13 on the sample: renaming the directory /data/logs. *)
Lemma Rename_removes_by_prefix_witness :
  let '(err, fs') := Rename CleanDir "/data/logs" "/data/archive" SampleFs in
  err = None /\
  RenameOldPaths fs' = RenameOldPaths SampleFs ++ ["/data/logs"] /\
  RenameNewPaths fs' = RenameNewPaths SampleFs ++ ["/data/archive"] /\
  forall q,
    FileExists q fs' =
    if String.prefix "/data/logs" q then false
    else if String.eqb q "/data/archive" then true
    else FileExists q SampleFs.
Proof.
  apply (Rename_removes_by_prefix CleanDir "/data/logs" "/data/archive" SampleFs);
    reflexivity.
Defined.

(** X14 on the sample: renaming the log file. *)
Lemma Rename_moves_content_mode_type_witness :
  let old := default zero_stats (stat SampleFs "/data/logs/x.log") in
  let prev := default zero_stats (stat SampleFs "/data/y.log") in
  let '(_, fs') := Rename CleanDir "/data/logs/x.log" "/data/y.log" SampleFs in
  stat fs' "/data/y.log" =
  Some {| FileType := FileType old; FileMode := FileMode old;
          Username := Username prev; SymlinkTarget := SymlinkTarget prev;
          Content := Content old |}.
Proof.
  apply (Rename_moves_content_mode_type CleanDir "/data/logs/x.log" "/data/y.log" SampleFs).
  - apply (bool_decide_unpack _). vm_compute. reflexivity.
  - reflexivity.
  - reflexivity.
  - reflexivity.
  - reflexivity.
Defined.


(** The sample after the directory /data/logs is renamed: the log file in
    it and the file logs2 next to it are gone, and the new path holds the
    directory. *)
Example Rename_directory_drops_children :
  let fs' := snd (Rename CleanDir "/data/logs" "/data/archive" SampleFs) in
  FileExists "/data/logs/x.log" fs' = false /\
  FileExists "/data/archive/x.log" fs' = false /\
  FileExists "/data/logs2" fs' = false /\
  (FileType <$> stat fs' "/data/archive") = Some FakeFileTypeDir.
Proof. vm_compute. repeat (apply conj); reflexivity. Qed.

End fakesys_runs.

(** ** The other methods of the Ubuntu platform *)

Module sys_spec.
Import sys_views.

Section Appends.
Context {W C : Type}.

(** Returning a value logs nothing. *)
Lemma appends_ret {A} (a : A) : appends (ret (W := W) (C := C) a).
Proof. intros [w c]. unfold ret. cbn. now rewrite app_nil_r. Qed.

(** A call is appended to the log. *)
Lemma appends_invoke {A} (c : C) (f : W -> A * W) : appends (invoke c f).
Proof. intros [w cs]. unfold invoke. cbn. now destruct (f w). Qed.


(** Sequencing two computations that append gives one that appends. *)
Lemma appends_bind {A B} (m : M W C A) (k : A -> M W C B) :
  appends m -> (forall a, appends (k a)) -> appends (bind m k).
Proof.
  intros Hm Hk [w cs]. unfold bind. rewrite (Hm {| world := w; calls := cs |}). cbn.
  destruct (m {| world := w; calls := [] |}) as [a [w1 c1]]. cbn.
  rewrite (Hk a {| world := w1; calls := cs ++ c1 |}).
  rewrite (Hk a {| world := w1; calls := c1 |}). cbn.
  destruct (k a {| world := w1; calls := [] |}) as [b [w2 c2]]. cbn.
  now rewrite app_assoc.
Qed.


End Appends.
End sys_spec.

Module platform_setup_spec.
Import platform platform_setup platform_setup_views sys_views sys_spec.

(** The empty string is neutral on the right. *)
Lemma append_empty_r (s : string) : s +:+ "" = s.
Proof.
  induction s as [|c s IH]; [reflexivity|].
  change (String c (s +:+ "") = String c s). now rewrite IH.
Qed.

(** A character appended to a piece, then the rest. *)
Lemma append_char_assoc (cur : string) (c : Ascii.ascii) (rest : string) :
  (cur +:+ String c "") +:+ rest = cur +:+ String c rest.
Proof.
  induction cur as [|a cur IH]; [reflexivity|].
  change (String a ((cur +:+ String c "") +:+ rest) = String a (cur +:+ String c rest)).
  now rewrite IH.
Qed.

(** A string that does not contain the separator is one piece. *)
Lemma split_go_no_occurrence (sep s cur : string) :
  occurs sep s = false -> split_go sep s cur 0 = [cur +:+ s].
Proof.
  revert cur. induction s as [|c rest IH]; intros cur Hocc.
  - cbn. now rewrite append_empty_r.
  - cbn [occurs] in Hocc. apply orb_false_iff in Hocc as [Hpre Hrest].
    cbn [split_go]. rewrite Hpre, (IH _ Hrest). now rewrite append_char_assoc.
Qed.

(** The characters of a separator that was found are passed over. *)
Lemma split_go_skip (sep x rest cur : string) :
  split_go sep (x +:+ rest) cur (String.length x) = split_go sep rest cur 0.
Proof.
  induction x as [|c x IH]; [reflexivity|].
  change (String c x +:+ rest) with (String c (x +:+ rest)).
  cbn [String.length]. destruct rest as [|r rest'] eqn:E.
  - cbn [split_go]. exact IH.
  - cbn [split_go]. exact IH.
Qed.

(** A string is a prefix of itself followed by anything. *)
Lemma prefix_append (x y : string) : String.prefix x (x +:+ y) = true.
Proof.
  induction x as [|c x IH]; [now destruct y|].
  change (String c x +:+ y) with (String c (x +:+ y)). cbn [String.prefix].
  destruct (Ascii.ascii_dec c c); [exact IH | contradiction].
Qed.

(** [strings.Split] around one separator in front: a string made of
    a non-empty separator and a rest that does not contain it splits
    into the empty string and the rest; a string that does not contain
    the separator is its own single piece. *)
Lemma Split_one_separator (sep rest s : string) :
  sep <> "" ->
  occurs sep rest = false ->
  occurs sep s = false ->
  Split (sep +:+ rest) sep = [""; rest] /\ Split s sep = [s].
Proof.
  intros Hsep Hrest Hs. split.
  - destruct sep as [|c sep']; [contradiction|].
    unfold Split. change (String c sep' +:+ rest) with (String c (sep' +:+ rest)).
    cbn [split_go].
    change (String c (sep' +:+ rest)) with (String c sep' +:+ rest).
    rewrite prefix_append.
    replace (String.length (String c sep') - 1) with (String.length sep')
      by (cbn [String.length]; lia).
    now rewrite split_go_skip, (split_go_no_occurrence _ _ "" Hrest).
  - unfold Split. now rewrite (split_go_no_occurrence _ _ "" Hs).
Qed.

Section Ubuntu.
Context {W : Type}.
Variable filepath_Join : list string -> string.
Implicit Types (p : @ubuntu W) (s : Sys W call).

(** X16: for a device path "/dev/sd" followed by a suffix,
    [findPossibleDevice] probes "/dev/xvd", "/dev/vd" and "/dev/sd"
    followed by the suffix, in this order, stops at the first path that
    exists and returns it; when none exists it returns the empty path and
    false. *)
Theorem findPossibleDevice_probes_in_order p (pathSuffix : string) s :
  occurs "/dev/sd" pathSuffix = false ->
  let xvd := "/dev/xvd" +:+ pathSuffix in
  let vd := "/dev/vd" +:+ pathSuffix in
  let sd := "/dev/sd" +:+ pathSuffix in
  let '(isXvd, w1) := FileExists p xvd (world s) in
  let '(isVd, w2) := FileExists p vd w1 in
  let '(isSd, w3) := FileExists p sd w2 in
  let '(r, s') := findPossibleDevice p sd s in
  if isXvd then
    r = Finished (xvd, true) /\ calls s' = calls s ++ [CallFileExists xvd] /\ world s' = w1
  else if isVd then
    r = Finished (vd, true) /\
    calls s' = calls s ++ [CallFileExists xvd; CallFileExists vd] /\ world s' = w2
  else
    r = Finished (if isSd then (sd, true) else ("", false)) /\
    calls s' = calls s ++ [CallFileExists xvd; CallFileExists vd; CallFileExists sd] /\
    world s' = w3.
Proof.
  intros Hocc xvd vd sd. unfold findPossibleDevice.
  destruct (Split_one_separator "/dev/sd" pathSuffix "" ltac:(discriminate) Hocc eq_refl)
    as [HS _].
  change (Split sd "/dev/sd") with (Split ("/dev/sd" +:+ pathSuffix) "/dev/sd").
  rewrite HS. cbn [lookup list_lookup]. unfold try_prefixes, bind, invoke, ret. fold xvd vd sd.
  destruct (FileExists p xvd (world s)) as [[|] w1]; cbn [world calls].
  - destruct (FileExists p vd w1) as [isVd w2].
    destruct (FileExists p sd w2) as [isSd w3]. repeat split.
  - destruct (FileExists p vd w1) as [[|] w2]; cbn [world calls].
    + destruct (FileExists p sd w2) as [isSd w3].
      rewrite <- !app_assoc. repeat split.
    + destruct (FileExists p sd w2) as [[|] w3]; cbn [world calls];
        rewrite <- !app_assoc; repeat split.
Qed.

(** X17: [findPossibleDevice] panics on a device path that does not
    contain "/dev/sd", before any probe: the split has one piece and the
    index 1 is out of range. *)
Theorem findPossibleDevice_panics p (devicePath : string) s :
  occurs "/dev/sd" devicePath = false ->
  findPossibleDevice p devicePath s =
  (Panicked "index out of range [1] with length 1", s).
Proof.
  intros Hocc. unfold findPossibleDevice.
  destruct (Split_one_separator "/dev/sd" "" devicePath ltac:(discriminate) eq_refl Hocc)
    as [_ ->].
  reflexivity.
Qed.

(** X18: [SetupSsh] fails only on the home directory and on the write of
    the keys: a failed [HomeDir] gives "Error finding home dir for user"
    and no other call; a failed write of authorized_keys gives "Error
    creating authorized_keys file" and the file is neither chowned nor
    chmoded; otherwise [SetupSsh] returns no error, whatever [MkdirAll],
    [Chown] and [Chmod] return. The directory is made with mode 0700 and
    the file set to mode 0600. *)
Theorem SetupSsh_errors_and_calls p (publicKey username : string) s :
  let '(homeDir, homeErr, w1) := HomeDir p username (world s) in
  let sshPath := filepath_Join [homeDir; ".ssh"] in
  let authKeysPath := filepath_Join [sshPath; "authorized_keys"] in
  let '(_, w2) := MkdirAll p sshPath 448 w1 in
  let '(_, w3) := Chown p sshPath username w2 in
  let '(_, writeErr, _) := WriteToFile (fs (core p)) authKeysPath publicKey w3 in
  let '(err, s') := SetupSsh filepath_Join p publicKey username s in
  match homeErr, writeErr with
  | Some cause, _ =>
      (Error <$> err) = Some ("Error finding home dir for user: " +:+ Error cause) /\
      calls s' = calls s ++ [CallHomeDir username]
  | None, Some cause =>
      (Error <$> err) = Some ("Error creating authorized_keys file: " +:+ Error cause) /\
      calls s' = calls s ++ [CallHomeDir username; CallMkdirAll sshPath 448;
                             CallChown sshPath username;
                             Core (CallWriteToFile authKeysPath publicKey)]
  | None, None =>
      err = None /\
      calls s' = calls s ++ [CallHomeDir username; CallMkdirAll sshPath 448;
                             CallChown sshPath username;
                             Core (CallWriteToFile authKeysPath publicKey);
                             CallChown authKeysPath username;
                             CallChmod authKeysPath 384]
  end.
Proof.
  unfold SetupSsh, bind, invoke, ret.
  destruct (HomeDir p username (world s)) as [[homeDir [e|]] w1]; cbn [world calls].
  - destruct (MkdirAll p _ 448 w1) as [? w2]. destruct (Chown p _ username w2) as [? w3].
    destruct (WriteToFile (fs (core p)) _ publicKey w3) as [[? ?] ?].
    split; reflexivity.
  - destruct (MkdirAll p _ 448 w1) as [? w2]; cbn [world calls].
    destruct (Chown p _ username w2) as [? w3]; cbn [world calls].
    destruct (WriteToFile (fs (core p)) _ publicKey w3) as [[? [e|]] w4];
      cbn [world calls].
    + rewrite <- !app_assoc. split; reflexivity.
    + destruct (Chown p _ username w4) as [? w5]; cbn [world calls].
      destruct (Chmod p _ 384 w5) as [? w6]; cbn [world calls].
      rewrite <- !app_assoc. split; reflexivity.
Qed.

(** The probes append to the log. *)
Lemma appends_try_prefixes p (pathSuffix : string) (prefixes : list string) :
  appends (try_prefixes p pathSuffix prefixes).
Proof.
  induction prefixes as [|prefix rest IH]; cbn [try_prefixes].
  - apply appends_ret.
  - apply appends_bind; [apply appends_invoke|].
    intros [|]; [apply appends_ret | exact IH].
Qed.




Lemma appends_partition_format_mount p (realPath mountPoint : string) (a b : Z) :
  appends (partition_format_mount filepath_Join p realPath mountPoint a b).
Proof.
  unfold partition_format_mount.
  repeat (apply appends_bind; [apply appends_invoke|]; intros [e|];
          [apply appends_ret|]).
  apply appends_ret.
Qed.

(** A leaf of the case analysis below: a step after the partitioning
    failed. *)
Ltac stopped_later :=
  rewrite <- !app_assoc; split; [lia|]; split; [reflexivity|];
  split; [discriminate|]; intros Hc; now contradiction Hc.

(** The steps after the sizing run in order, stop at the first error and
    return it. *)
Lemma partition_format_mount_steps p (realPath mountPoint : string) (a b : Z) s :
  let '(partErr, w1) :=
    Partition_ p realPath [ {| SizeInBlocks := a; Type_ := PartitionTypeSwap |};
                            {| SizeInBlocks := b; Type_ := PartitionTypeLinux |} ]
               (world s) in
  let '(err, s') := partition_format_mount filepath_Join p realPath mountPoint a b s in
  exists n,
    (1 <= n)%nat /\
    calls s' = calls s ++ take n (seven_steps filepath_Join realPath mountPoint a b) /\
    (err = None -> n = 7%nat) /\
    (partErr <> None -> err = partErr /\ n = 1%nat /\ world s' = w1).
Proof.
  unfold partition_format_mount, bind, invoke, ret, seven_steps.
  destruct (Partition_ p realPath _ (world s)) as [[e|] w1]; cbn [world calls].
  { exists 1%nat. split; [lia|]. split; [reflexivity|].
    split; [discriminate|]. intros _. repeat split. }
  destruct (Format p _ FileSystemSwap w1) as [[e|] w2]; cbn [world calls];
    [exists 2%nat; stopped_later|].
  destruct (Format p _ FileSystemExt4 w2) as [[e|] w3]; cbn [world calls];
    [exists 3%nat; stopped_later|].
  destruct (SwapOn p _ w3) as [[e|] w4]; cbn [world calls];
    [exists 4%nat; stopped_later|].
  destruct (Mount p _ mountPoint w4) as [[e|] w5]; cbn [world calls];
    [exists 5%nat; stopped_later|].
  destruct (MkdirAll p _ 488 w5) as [[e|] w6]; cbn [world calls];
    [exists 6%nat; stopped_later|].
  destruct (MkdirAll p _ 488 w6) as [e w7]; cbn [world calls].
  exists 7%nat. rewrite <- !app_assoc. split; [lia|]. split; [reflexivity|].
  split; [reflexivity|]. intros Hc. now contradiction Hc.
Qed.

(** The sizing, started with an empty log: when the statistics and the
    size are read without error, the two sizes add up to the size of the
    device, and the swap size is at most half of it. *)
Lemma calculate_covers (pc : @platform.ubuntu W) (devicePath : string) (w : W)
      (memStats : MemStats) (w1 : W) (D : Z) (w2 : W) :
  GetMemStats (collector pc) w = ((memStats, None), w1) ->
  GetDeviceSizeInBlocks (partitioner pc) devicePath w1 = ((D, None), w2) ->
  is_uint64 (Total memStats) ->
  is_uint64 D ->
  exists swapSize linuxSize,
    calculateEphemeralDiskPartitionSizes pc devicePath {| world := w; calls := [] |} =
      ((swapSize, linuxSize, None),
       {| world := w2;
          calls := [CallGetMemStats; CallGetDeviceSizeInBlocks devicePath] |}) /\
    (swapSize + linuxSize)%Z = D /\
    (0 <= swapSize <= D / 2)%Z.
Proof.
  intros HM HD [HM0 HM1] [HD0 HD1].
  unfold calculateEphemeralDiskPartitionSizes, bind, invoke, ret. cbn [world calls].
  rewrite HM. cbn [world calls]. rewrite HD. cbn [world calls app].
  set (blocks := (wrap_uint64 (Total memStats * 1024) / 512)%Z).
  assert (Hb : (0 <= blocks)%Z).
  { unfold blocks, wrap_uint64, uint64_modulus.
    apply Z.div_pos; [|lia]. apply Z.mod_pos_bound. lia. }
  assert (Hhalf : (0 <= D / 2 <= D)%Z).
  { split; [apply Z.div_pos; lia | apply Z.div_le_upper_bound; lia]. }
  set (swapSize := if (blocks >? D / 2)%Z then (D / 2)%Z else blocks).
  assert (Hswap : (0 <= swapSize <= D / 2)%Z).
  { unfold swapSize. destruct (Z.gtb_spec blocks (D / 2)); lia. }
  assert (Hlinux : wrap_uint64 (D - swapSize) = (D - swapSize)%Z).
  { unfold wrap_uint64. apply Z.mod_small. unfold uint64_modulus in *. lia. }
  exists swapSize, (wrap_uint64 (D - swapSize)).
  split; [reflexivity|]. rewrite Hlinux. split; lia.
Qed.



(** X20: the partitions [SetupEphemeralDiskWithPath] asks for cover the
    device: when the device is found at the first round of probes and
    its size [D] and the memory statistics are read without error, the
    device is partitioned right after, into a swap partition of at most
    [D / 2] blocks and a Linux partition that takes the rest, the two
    sizes adding up to [D]; and when the partitioning fails its error is
    returned and nothing is formatted or mounted. *)
Theorem SetupEphemeralDiskWithPath_partitions_cover_the_device
        (fuel : nat) p (pathSuffix mountPoint : string) s :
  occurs "/dev/sd" pathSuffix = false ->
  let devicePath := "/dev/sd" +:+ pathSuffix in
  let '(_, w1) := MkdirAll p mountPoint 488 (world s) in
  let '(_, w2) := Now p w1 in
  let '(realPath, found, sp) :=
    try_prefixes p pathSuffix ["/dev/xvd"; "/dev/vd"; "/dev/sd"]
                 {| world := w2; calls := [] |} in
  let '(memStats, memErr, w3) := GetMemStats (collector (core p)) (world sp) in
  let '(D, sizeErr, w4) := GetDeviceSizeInBlocks (partitioner (core p)) realPath w3 in
  found = true -> memErr = None -> sizeErr = None ->
  is_uint64 (Total memStats) -> is_uint64 D ->
  exists swapSize linuxSize n,
    (swapSize + linuxSize)%Z = D /\
    (0 <= swapSize <= D / 2)%Z /\
    (1 <= n)%nat /\
    let '(r, s') :=
      SetupEphemeralDiskWithPath filepath_Join fuel p devicePath mountPoint s in
    calls s' =
      calls s ++ [CallMkdirAll mountPoint 488; CallNow] ++ calls sp ++
      [Core CallGetMemStats; Core (CallGetDeviceSizeInBlocks realPath)] ++
      take n (seven_steps filepath_Join realPath mountPoint swapSize linuxSize) /\
    (r = Finished None -> n = 7%nat) /\
    let '(partErr, _) :=
      Partition_ p realPath
        [ {| SizeInBlocks := swapSize; Type_ := PartitionTypeSwap |};
          {| SizeInBlocks := linuxSize; Type_ := PartitionTypeLinux |} ] w4 in
    partErr <> None -> r = Finished partErr /\ n = 1%nat.
Proof.
  intros Hocc devicePath.
  destruct (Split_one_separator "/dev/sd" pathSuffix "" ltac:(discriminate) Hocc eq_refl)
    as [HS _].
  unfold SetupEphemeralDiskWithPath, getRealDevicePath, findPossibleDevice.
  change (Split devicePath "/dev/sd") with (Split ("/dev/sd" +:+ pathSuffix) "/dev/sd").
  rewrite HS. cbn [lookup list_lookup]. unfold bind, invoke.
  destruct (MkdirAll p mountPoint 488 (world s)) as [e0 w1]. cbn [world calls].
  destruct (Now p w1) as [now w2]. cbn [world calls].
  rewrite (appends_try_prefixes p pathSuffix _
             {| world := w2;
                calls := (calls s ++ [CallMkdirAll mountPoint 488]) ++ [CallNow] |}).
  cbn [world calls].
  destruct (try_prefixes p pathSuffix ["/dev/xvd"; "/dev/vd"; "/dev/sd"]
                         {| world := w2; calls := [] |}) as [[realPath found] sp].
  destruct (GetMemStats (collector (core p)) (world sp)) as [[memStats memErr] w3] eqn:HM.
  destruct (GetDeviceSizeInBlocks (partitioner (core p)) realPath w3)
    as [[D sizeErr] w4] eqn:HD.
  intros -> -> -> HMr HDr. unfold ret. cbn [world calls].
  destruct (calculate_covers (core p) realPath (world sp) memStats w3 D w4 HM HD HMr HDr)
    as (swapSize & linuxSize & Hcalc & Hsum & Hswap).
  unfold lift_core. cbn [world calls]. rewrite Hcalc. cbn [world calls map].
  set (s3 := {| world := w4; calls := _ |}).
  pose proof (partition_format_mount_steps p realPath mountPoint swapSize linuxSize s3)
    as Hsteps.
  change (world s3) with w4 in Hsteps.
  destruct (Partition_ p realPath _ w4) as [partErr w5] eqn:HP.
  destruct (partition_format_mount filepath_Join p realPath mountPoint swapSize linuxSize s3)
    as [err s4].
  destruct Hsteps as (n & Hn1 & Hcalls & Hn & Hfail).
  exists swapSize, linuxSize, n. split; [exact Hsum|]. split; [exact Hswap|].
  split; [exact Hn1|]. split; [|split].
  - rewrite Hcalls. unfold s3. cbn [calls]. rewrite <- !app_assoc. reflexivity.
  - intros Hr. apply Hn. congruence.
  - rewrite HP. intros Hp. destruct (Hfail Hp) as (-> & -> & _). split; reflexivity.
Qed.

End Ubuntu.
End platform_setup_spec.

(** ** The other methods of the Ubuntu platform on the fake platform *)

Module platform_setup_runs.
Import platform platform_setup platform_setup_views platform_setup_spec fixtures_platform.

(** X16 on a machine whose disk is /dev/vdb: asked for /dev/sdb, the
    second probe finds it. *)
Lemma findPossibleDevice_probes_in_order_witness :
  let p := FakeUbuntuSetup 4194304 20971520 None in
  let '(r, s') := findPossibleDevice p "/dev/sdb" (start WorldWithVdb) in
  r = Finished ("/dev/vdb", true) /\
  calls s' = [CallFileExists "/dev/xvdb"; CallFileExists "/dev/vdb"] /\
  world s' = WorldWithVdb.
Proof.
  pose proof (findPossibleDevice_probes_in_order
                (FakeUbuntuSetup 4194304 20971520 None) "b" (start WorldWithVdb) eq_refl)
    as H.
  exact H.
Defined.

(** X17 on the same machine: asked for /dev/vdb itself, the method
    panics. *)
Lemma findPossibleDevice_panics_witness :
  findPossibleDevice (FakeUbuntuSetup 4194304 20971520 None) "/dev/vdb"
                     (start WorldWithVdb) =
  (Panicked "index out of range [1] with length 1", start WorldWithVdb).
Proof.
  apply (findPossibleDevice_panics (FakeUbuntuSetup 4194304 20971520 None)
           "/dev/vdb" (start WorldWithVdb)).
  reflexivity.
Defined.


(** X20 on the same machine, with a partitioner that fails: the swap
    partition gets the 4 GiB of the memory and the failure ends the
    set-up after the partitioning. *)
Lemma SetupEphemeralDiskWithPath_partitions_cover_the_device_witness :
  let p := FakeUbuntuSetup 4194304 20971520 (Some (New "sfdisk: exit status 1")) in
  exists swapSize linuxSize n,
    (swapSize + linuxSize)%Z = 20971520%Z /\
    (0 <= swapSize <= 20971520 / 2)%Z /\
    n = 1%nat /\
    fst (SetupEphemeralDiskWithPath CleanJoin 0 p "/dev/sdb" "/var/vcap/data"
                                    (start WorldWithVdb))
      = Finished (Some (New "sfdisk: exit status 1")).
Proof.
  intros p.
  pose proof (SetupEphemeralDiskWithPath_partitions_cover_the_device CleanJoin 0
                p "b" "/var/vcap/data" (start WorldWithVdb) eq_refl) as H.
  cbn -[SetupEphemeralDiskWithPath] in H.
  assert (H1 : is_uint64 4194304) by (unfold is_uint64, uint64_modulus; lia).
  assert (H2 : is_uint64 20971520) by (unfold is_uint64, uint64_modulus; lia).
  destruct (H eq_refl eq_refl eq_refl H1 H2) as (a & b & n & Hsum & Hswap & _ & Hrun).
  exists a, b, n. split; [exact Hsum|]. split; [exact Hswap|].
  set (run := SetupEphemeralDiskWithPath _ _ _ _ _ _) in Hrun.
  change (n = 1%nat /\ fst run = Finished (Some (New "sfdisk: exit status 1"))).
  destruct run as [r s'].
  destruct Hrun as (_ & _ & Hfail).
  destruct (Hfail ltac:(discriminate)) as [-> ->]. split; reflexivity.
Defined.

(** The set-up of the ephemeral disk on the same machine: the disk found
    as /dev/vdb is split into 4 GiB of swap and 6 GiB of data. *)
Example SetupEphemeralDiskWithPath_on_vdb :
  let p := FakeUbuntuSetup 4194304 20971520 None in
  let '(r, s') := SetupEphemeralDiskWithPath CleanJoin 0 p "/dev/sdb" "/var/vcap/data"
                                             (start WorldWithVdb) in
  r = Finished None /\
  calls s' =
    [ CallMkdirAll "/var/vcap/data" 488; CallNow;
      CallFileExists "/dev/xvdb"; CallFileExists "/dev/vdb";
      Core CallGetMemStats; Core (CallGetDeviceSizeInBlocks "/dev/vdb");
      CallPartition "/dev/vdb"
        [ {| SizeInBlocks := 8388608; Type_ := PartitionTypeSwap |};
          {| SizeInBlocks := 12582912; Type_ := PartitionTypeLinux |} ];
      CallFormat "/dev/vdb1" FileSystemSwap;
      CallFormat "/dev/vdb2" FileSystemExt4;
      CallSwapOn "/dev/vdb1";
      CallMount "/dev/vdb2" "/var/vcap/data";
      CallMkdirAll "/var/vcap/data/sys/log" 488;
      CallMkdirAll "/var/vcap/data/sys/run" 488 ].
Proof. vm_compute. apply conj; reflexivity. Qed.

End platform_setup_runs.

(** ** The generic script *)

Module script_spec.
Import script script_views.



Section Script.
Context {W File : Type}.
Variable BuildCommand : string -> @Command File.
Implicit Types (s : @GenericScript W File) (st : Sys W (@call File)).


(** X22: [Run] closes the log files it opened, the stderr file before the
    stdout file, and after the command if it runs one: a failed
    [MkdirAll] or a failed opening of the stdout log ends the run with
    that error and no file open; a failed opening of the stderr log ends
    it with that error after closing the stdout log; once both files are
    open, whatever happens next, the run ends by closing the stderr log
    and then the stdout log, with at most one command run in between. *)
Theorem Run_closes_what_it_opened s st :
  let mkOut := CallMkdirAll (fst (filepath_Split (stdoutLogPath s))) 488 in
  let mkErr := CallMkdirAll (fst (filepath_Split (stderrLogPath s))) 488 in
  let openOut := CallOpenFile (stdoutLogPath s) fileOpenFlag fileOpenPerm in
  let openErr := CallOpenFile (stderrLogPath s) fileOpenFlag fileOpenPerm in
  let '(e1, w1) :=
    MkdirAll (gs_fs s) (fst (filepath_Split (stdoutLogPath s))) 488 (world st) in
  let '(e2, w2) := MkdirAll (gs_fs s) (fst (filepath_Split (stderrLogPath s))) 488 w1 in
  let '(outF, e3, w3) :=
    OpenFile (gs_fs s) (stdoutLogPath s) fileOpenFlag fileOpenPerm w2 in
  let '(errF, e4, _) :=
    OpenFile (gs_fs s) (stderrLogPath s) fileOpenFlag fileOpenPerm w3 in
  let '(r, st') := Run BuildCommand s st in
  match e1, e2, e3, e4 with
  | Some _, _, _, _ =>
      r = fakesys.Returns e1 /\ calls st' = calls st ++ [mkOut]
  | None, Some _, _, _ =>
      r = fakesys.Returns e2 /\ calls st' = calls st ++ [mkOut; mkErr]
  | None, None, Some _, _ =>
      r = fakesys.Returns e3 /\ calls st' = calls st ++ [mkOut; mkErr; openOut]
  | None, None, None, Some _ =>
      r = fakesys.Returns e4 /\
      calls st' = calls st ++ [mkOut; mkErr; openOut; openErr; CallClose outF]
  | None, None, None, None =>
      exists mid,
        calls st' = calls st ++ [mkOut; mkErr; openOut; openErr] ++ mid ++
                    [CallClose errF; CallClose outF] /\
        (mid = [] \/ exists command, mid = [CallRunComplexCommand command])
  end.
Proof.
  unfold Run, ensureContainingDir, bind, invoke, ret.
  destruct (filepath_Split (stdoutLogPath s)) as [d1 f1].
  destruct (filepath_Split (stderrLogPath s)) as [d2 f2]. cbn [fst].
  destruct (MkdirAll (gs_fs s) d1 488 (world st)) as [[e1|] w1]; cbn [world calls].
  { destruct (MkdirAll (gs_fs s) d2 488 w1) as [e2 w2].
    destruct (OpenFile (gs_fs s) (stdoutLogPath s) _ _ w2) as [[outF e3] w3].
    destruct (OpenFile (gs_fs s) (stderrLogPath s) _ _ w3) as [[errF e4] w4].
    split; reflexivity. }
  destruct (MkdirAll (gs_fs s) d2 488 w1) as [[e2|] w2]; cbn [world calls].
  { destruct (OpenFile (gs_fs s) (stdoutLogPath s) _ _ w2) as [[outF e3] w3].
    destruct (OpenFile (gs_fs s) (stderrLogPath s) _ _ w3) as [[errF e4] w4].
    rewrite <- !app_assoc. split; reflexivity. }
  destruct (OpenFile (gs_fs s) (stdoutLogPath s) _ _ w2) as [[outF [e3|]] w3];
    cbn [world calls].
  { destruct (OpenFile (gs_fs s) (stderrLogPath s) _ _ w3) as [[errF e4] w4].
    rewrite <- !app_assoc. split; reflexivity. }
  destruct (OpenFile (gs_fs s) (stderrLogPath s) _ _ w3) as [[errF [e4|]] w4];
    cbn [world calls].
  { destruct (Close (gs_fs s) outF w4) as [c1 w5]. cbn [world calls].
    rewrite <- !app_assoc. split; reflexivity. }
  destruct (apply_env _ _) as [[command|e]|msg]; cbn [world calls].
  - destruct (RunComplexCommand (gs_runner s) command w4) as [[[[o1 o2] o3] runErr] w5].
    cbn [world calls].
    destruct (Close (gs_fs s) errF w5) as [c1 w6]. cbn [world calls].
    destruct (Close (gs_fs s) outF w6) as [c2 w7]. cbn [world calls].
    exists [CallRunComplexCommand command]. rewrite <- !app_assoc.
    split; [reflexivity|]. right. now exists command.
  - destruct (Close (gs_fs s) errF w4) as [c1 w6]. cbn [world calls].
    destruct (Close (gs_fs s) outF w6) as [c2 w7]. cbn [world calls].
    exists []. rewrite <- !app_assoc. split; [reflexivity | now left].
  - destruct (Close (gs_fs s) errF w4) as [c1 w6]. cbn [world calls].
    destruct (Close (gs_fs s) outF w6) as [c2 w7]. cbn [world calls].
    exists []. rewrite <- !app_assoc. split; [reflexivity | now left].
Qed.

(** What [Run] does once the directories are made and the files open. *)
Lemma Run_after_setup s st (w1 w2 : W) (outF : File) (w3 : W) (errF : File) (w4 : W) :
  MkdirAll (gs_fs s) (fst (filepath_Split (stdoutLogPath s))) 488 (world st)
    = (None, w1) ->
  MkdirAll (gs_fs s) (fst (filepath_Split (stderrLogPath s))) 488 w1 = (None, w2) ->
  OpenFile (gs_fs s) (stdoutLogPath s) fileOpenFlag fileOpenPerm w2
    = ((outF, None), w3) ->
  OpenFile (gs_fs s) (stderrLogPath s) fileOpenFlag fileOpenPerm w3
    = ((errF, None), w4) ->
  let command := {| cmd_Name := cmd_Name (BuildCommand (path s));
                    cmd_Env := cmd_Env (BuildCommand (path s));
                    cmd_Stdout := Some outF; cmd_Stderr := Some errF |} in
  let '(r, st') := Run BuildCommand s st in
  match apply_env s command with
  | fakesys.Returns (inl command) => ran s command w4 outF errF (calls st) r (calls st')
  | fakesys.Returns (inr e) =>
      r = fakesys.Returns (Some e) /\ not_run s outF errF (calls st) (calls st')
  | fakesys.Panics msg =>
      r = fakesys.Panics msg /\ not_run s outF errF (calls st) (calls st')
  end.
Proof.
  intros H1 H2 H3 H4 command.
  unfold Run, ensureContainingDir, bind, invoke, ret, ran, not_run, setup_calls.
  destruct (filepath_Split (stdoutLogPath s)) as [d1 f1].
  destruct (filepath_Split (stderrLogPath s)) as [d2 f2]. cbn [fst] in *.
  rewrite H1. cbn [world calls]. rewrite H2. cbn [world calls].
  rewrite H3. cbn [world calls]. rewrite H4. cbn [world calls].
  fold command. destruct (apply_env s command) as [[c|e]|msg]; cbn [world calls].
  - destruct (RunComplexCommand (gs_runner s) c w4) as [[[[o1 o2] o3] runErr] w5].
    cbn [world calls].
    destruct (Close (gs_fs s) errF w5) as [c1 w6]. cbn [world calls].
    destruct (Close (gs_fs s) outF w6) as [c2 w7]. cbn [world calls].
    rewrite <- !app_assoc. split; reflexivity.
  - destruct (Close (gs_fs s) errF w4) as [c1 w6]. cbn [world calls].
    destruct (Close (gs_fs s) outF w6) as [c2 w7]. cbn [world calls].
    rewrite <- !app_assoc. split; reflexivity.
  - destruct (Close (gs_fs s) errF w4) as [c1 w6]. cbn [world calls].
    destruct (Close (gs_fs s) outF w6) as [c2 w7]. cbn [world calls].
    rewrite <- !app_assoc. split; reflexivity.
Qed.

(** X23: once the directories are made and the two log files open, [Run]
    runs the command of [BuildCommand] with the two files as its stdout
    and stderr and returns the error of the runner. An "env" option that
    is a map is merged into the environment of the command, the entries
    of the option winning over those of [BuildCommand]; an "env" option
    of another type ends the run with the error "failed to parse
    Environment Variables in script" and no command is run; a non-empty
    "env" map on a command whose environment is nil panics. In each case
    both files are closed. *)
Theorem Run_options_env s st (w1 w2 : W) (outF : File) (w3 : W) (errF : File) (w4 : W) :
  MkdirAll (gs_fs s) (fst (filepath_Split (stdoutLogPath s))) 488 (world st)
    = (None, w1) ->
  MkdirAll (gs_fs s) (fst (filepath_Split (stderrLogPath s))) 488 w1 = (None, w2) ->
  OpenFile (gs_fs s) (stdoutLogPath s) fileOpenFlag fileOpenPerm w2
    = ((outF, None), w3) ->
  OpenFile (gs_fs s) (stderrLogPath s) fileOpenFlag fileOpenPerm w3
    = ((errF, None), w4) ->
  let built := BuildCommand (path s) in
  let command (env : option (gmap string string)) :=
    {| cmd_Name := cmd_Name built; cmd_Env := env;
       cmd_Stdout := Some outF; cmd_Stderr := Some errF |} in
  let '(r, st') := Run BuildCommand s st in
  match options_env s, cmd_Env built with
  | None, _ => ran s (command (cmd_Env built)) w4 outF errF (calls st) r (calls st')
  | Some OtherValue, _ =>
      (Error <$> (match r with fakesys.Returns e => e | fakesys.Panics _ => None end))
        = Some "failed to parse Environment Variables in script" /\
      not_run s outF errF (calls st) (calls st')
  | Some (EnvMap env), Some cenv =>
      ran s (command (Some (env ∪ cenv))) w4 outF errF (calls st) r (calls st') /\
      (forall k v, env !! k = Some v -> (env ∪ cenv) !! k = Some v) /\
      (forall k, env !! k = None -> (env ∪ cenv) !! k = cenv !! k)
  | Some (EnvMap env), None =>
      if decide (env = ∅)
      then ran s (command None) w4 outF errF (calls st) r (calls st')
      else r = fakesys.Panics "assignment to entry in nil map" /\
           not_run s outF errF (calls st) (calls st')
  end.
Proof.
  intros H1 H2 H3 H4 built command.
  pose proof (Run_after_setup s st w1 w2 outF w3 errF w4 H1 H2 H3 H4) as H.
  cbn zeta in H. fold built in H. fold (command (cmd_Env built)) in H.
  destruct (Run BuildCommand s st) as [r st'].
  unfold apply_env, add_env in H.
  destruct (options_env s) as [[env|]|].
  - cbn [cmd_Env command] in H. destruct (cmd_Env built) as [cenv|] eqn:Ec.
    + destruct (decide (env = ∅)) as [->|Hne].
      * rewrite (left_id_L ∅ (∪) cenv). split; [exact H|].
        split; [intros k v Hk; now rewrite lookup_empty in Hk | reflexivity].
      * split; [exact H|]. split.
        -- intros k v Hk. now apply lookup_union_Some_l.
        -- intros k Hk. now apply lookup_union_r.
    + destruct (decide (env = ∅)); exact H.
  - destruct H as [-> H]. split; [reflexivity | exact H].
  - exact H.
Qed.

End Script.

(** X23 on the drain script of the fixtures: its PATH replaces the default
    one, its JOB is added, and the error of the runner is returned. *)
Lemma Run_options_env_witness :
  let s := fixtures_script.DrainScript in
  let out := "/var/vcap/sys/log/myjob/drain.stdout.log" in
  let err := "/var/vcap/sys/log/myjob/drain.stderr.log" in
  let command :=
    {| cmd_Name := "/var/vcap/jobs/myjob/bin/drain";
       cmd_Env := Some ({[ "PATH" := "/var/vcap/bin"; "JOB" := "myjob" ]}
                          ∪ {[ "PATH" := "/usr/sbin:/usr/bin:/sbin:/bin" ]});
       cmd_Stdout := Some out; cmd_Stderr := Some err |} in
  let '(r, st') := Run fixtures_script.LinuxBuildCommand s (start ∅) in
  r = fakesys.Returns (Some (New "exit status 1")) /\
  calls st' = setup_calls s ++
              [CallRunComplexCommand command; CallClose err; CallClose out] /\
  (({[ "PATH" := "/var/vcap/bin"; "JOB" := "myjob" ]} : gmap string string)
     ∪ {[ "PATH" := "/usr/sbin:/usr/bin:/sbin:/bin" ]}) !! "PATH" = Some "/var/vcap/bin".
Proof.
  intros s out err command.
  pose proof (Run_options_env fixtures_script.LinuxBuildCommand s (start ∅)
                _ _ out _ err _ eq_refl eq_refl eq_refl eq_refl) as H.
  cbn zeta in H.
  destruct (Run fixtures_script.LinuxBuildCommand s (start ∅)) as [r st'].
  change (options_env s) with
    (Some (EnvMap ({[ "PATH" := "/var/vcap/bin"; "JOB" := "myjob" ]} : gmap string string)))
    in H.
  cbn [fixtures_script.LinuxBuildCommand cmd_Env] in H.
  destruct H as [[Hr Hc] [Hwin _]].
  split; [exact Hr|]. split; [exact Hc|].
  apply Hwin. reflexivity.
Defined.

End script_spec.
